(** * Concordium "exact" scheme: verification and settlement engine

    A shallow embedding of the facilitator side of the Concordium
    mechanism of x402:

    - [exact/facilitator/scheme.ts] (class [ExactConcordiumScheme], V2),
    - [exact/v1/facilitator/scheme.ts] (class [ExactConcordiumSchemeV1]),
    - [utils/grpc-node.client.ts] ([createConcordiumNodeClient],
      [mapTransactionStatus], [mapStatusEnum], the mock client),
    - [client/concordium.client.ts] (class [ConcordiumClient]).

    Conventions of the embedding.

    - A JavaScript string is a [string]; every character is read as the
      code unit of the same number (0..255), so [toLowerCase] and the
      white space accepted by [BigInt] are the ones of that range.
    - An [async] function is a state transformer on an abstract world [W]
      that returns a value, throws, or never settles: [Async W A].  A
      [try]/[catch] around an awaited call is [attempt].
    - [Date.now()] and [setTimeout] are the two fields of [Runtime W].
    - A field declared [f?: T] is an [option T]; a value tested for
      truthiness is tested with [truthy]. *)

From Stdlib Require Import ZArith Bool List String Ascii Lia.
From Stdlib Require Import DecimalString.
Import ListNotations.

Local Open Scope string_scope.
Local Open Scope Z_scope.

(* ===================================================================== *)
(** ** JavaScript values used by the engine *)
(* ===================================================================== *)

(** What a [throw] carries.  [SyntaxError] is the one [BigInt] raises on a
    string that is not an integer literal; [Error] stands for everything a
    node client may reject with. *)
Inductive JsError : Type :=
| SyntaxError (message : string)
| Error (message : string).

Inductive Outcome (A : Type) : Type :=
| Returned (a : A)
| Thrown (e : JsError).
Arguments Returned {A} a.
Arguments Thrown {A} e.

(** Truthiness of a string, and of an optional string ([undefined] and the
    empty string are falsy). *)
Definition truthy (s : string) : bool := negb (s =? "")%string.

Definition truthy_opt (o : option string) : bool :=
  match o with
  | Some s => truthy s
  | None => false
  end.

(** [o || ""] on an optional string. *)
Definition or_empty (o : option string) : string :=
  match o with
  | Some s => if truthy s then s else ""
  | None => ""
  end.

(** [String.prototype.toLowerCase] on code units below 256: the letters
    A..Z and the upper-case letters of the Latin-1 supplement
    (0xC0..0xDE without the multiplication sign 0xD7). *)
Definition lower_char (c : ascii) : ascii :=
  let n := nat_of_ascii c in
  if ((65 <=? n) && (n <=? 90))%nat then ascii_of_nat (n + 32)
  else if ((192 <=? n) && (n <=? 222) && negb (n =? 215))%nat
       then ascii_of_nat (n + 32)
       else c.

Fixpoint toLowerCase (s : string) : string :=
  match s with
  | EmptyString => EmptyString
  | String c s' => String (lower_char c) (toLowerCase s')
  end.

(** *** [BigInt(string)]

    StringToBigInt of ECMAScript: surrounding white space is dropped, the
    empty string is zero, then either a radix prefix [0x], [0o], [0b]
    followed by digits of that radix, or an optional sign followed by
    decimal digits.  Anything else is a [SyntaxError]. *)
Definition isStrWhiteSpaceChar (c : ascii) : bool :=
  let n := nat_of_ascii c in
  (((9 <=? n) && (n <=? 13)) || (n =? 32) || (n =? 160))%nat.

Fixpoint trimStart (s : string) : string :=
  match s with
  | EmptyString => EmptyString
  | String c s' => if isStrWhiteSpaceChar c then trimStart s' else s
  end.

Fixpoint trimEnd (s : string) : string :=
  match s with
  | EmptyString => EmptyString
  | String c s' =>
      match trimEnd s' with
      | EmptyString => if isStrWhiteSpaceChar c then EmptyString
                       else String c EmptyString
      | t => String c t
      end
  end.

Definition trim (s : string) : string := trimEnd (trimStart s).

Definition digitValue (c : ascii) : option Z :=
  let n := nat_of_ascii c in
  if ((48 <=? n) && (n <=? 57))%nat then Some (Z.of_nat n - 48)
  else if ((97 <=? n) && (n <=? 102))%nat then Some (Z.of_nat n - 87)
  else if ((65 <=? n) && (n <=? 70))%nat then Some (Z.of_nat n - 55)
  else None.

Fixpoint parseDigitsFrom (radix : Z) (acc : Z) (s : string) : option Z :=
  match s with
  | EmptyString => Some acc
  | String c s' =>
      match digitValue c with
      | Some d => if d <? radix then parseDigitsFrom radix (acc * radix + d) s'
                  else None
      | None => None
      end
  end.

(** At least one digit is required. *)
Definition parseDigits (radix : Z) (s : string) : option Z :=
  match s with
  | EmptyString => None
  | _ => parseDigitsFrom radix 0 s
  end.

Definition StringToBigInt (s : string) : option Z :=
  match trim s with
  | EmptyString => Some 0
  | String "0" (String "x" ds) | String "0" (String "X" ds) => parseDigits 16 ds
  | String "0" (String "o" ds) | String "0" (String "O" ds) => parseDigits 8 ds
  | String "0" (String "b" ds) | String "0" (String "B" ds) => parseDigits 2 ds
  | String "+" ds => parseDigits 10 ds
  | String "-" ds => option_map Z.opp (parseDigits 10 ds)
  | ds => parseDigits 10 ds
  end.

Definition BigInt (s : string) : Outcome Z :=
  match StringToBigInt s with
  | Some z => Returned z
  | None => Thrown (SyntaxError ("Cannot convert " ++ s ++ " to a BigInt"))
  end.

(** [bigint.toString()]. *)
Definition BigInt_toString (z : Z) : string :=
  NilZero.string_of_int (Z.to_int z).

(* ===================================================================== *)
(** ** Asynchronous computations over a world *)
(* ===================================================================== *)

(** A run from world [w] either never settles ([None]: a promise left
    pending, a loop that does not end) or settles with an outcome and the
    world it leaves behind. *)
Definition Async (W A : Type) : Type := W -> option (Outcome A * W).

Definition ret {W A} (a : A) : Async W A := fun w => Some (Returned a, w).

Definition bind {W A B} (m : Async W A) (k : A -> Async W B) : Async W B :=
  fun w =>
    match m w with
    | Some (Returned a, w') => k a w'
    | Some (Thrown e, w') => Some (Thrown e, w')
    | None => None
    end.

(** [try { x = await m } catch (error) { ... }]: the outcome of [m] as a
    value; the world keeps whatever [m] did to it. *)
Definition attempt {W A} (m : Async W A) : Async W (Outcome A) :=
  fun w =>
    match m w with
    | Some (o, w') => Some (Returned o, w')
    | None => None
    end.

(** A synchronous computation that may throw, run inside an [async]
    function. *)
Definition lift {W A} (o : Outcome A) : Async W A := fun w => Some (o, w).

Declare Scope async_scope.
Delimit Scope async_scope with async.
Notation "x <- m ;; k" := (bind m (fun x => k))
  (at level 61, m at next level, right associativity) : async_scope.
Local Open Scope async_scope.

(** The clock and the timer of the host. *)
Record Runtime (W : Type) : Type := {
  Date_now : W -> Z;
  setTimeout : Z -> W -> W
}.
Arguments Date_now {W} _ _.
Arguments setTimeout {W} _ _ _.

(** [await new Promise(resolve => setTimeout(resolve, ms))]. *)
Definition sleep {W} (rt : Runtime W) (ms : Z) : Async W unit :=
  fun w => Some (Returned tt, setTimeout rt ms w).

(** [x ?? d]. *)
Definition nullish {A} (x : option A) (d : A) : A :=
  match x with
  | Some a => a
  | None => d
  end.

(* ===================================================================== *)
(** ** Data model ([exact/facilitator/scheme.ts], [types.ts]) *)
(* ===================================================================== *)

(** [ConcordiumTransactionInfo["status"]]. *)
Inductive TxStatus : Type := pending | committed | finalized | failed.

Definition TxStatus_eqb (a b : TxStatus) : bool :=
  match a, b with
  | pending, pending | committed, committed
  | finalized, finalized | failed, failed => true
  | _, _ => false
  end.

Module ConcordiumTransactionInfo.
Record t : Type := mk {
  txHash : string;
  blockHash : string;
  status : TxStatus;
  sender : string;
  recipient : option string;
  amount : option string;
  asset : option string;
  error : option string
}.
End ConcordiumTransactionInfo.

(** [ExactConcordiumPayloadV2] and [ExactConcordiumPayloadV1] have the same
    fields. *)
Module ExactConcordiumPayload.
Record t : Type := mk {
  txHash : string;
  sender : string;
  blockHash : option string
}.
End ExactConcordiumPayload.

(** The fields of [PaymentRequirements] of [@x402/core/types] the scheme
    reads.  [asset] is declared a string there; the scheme guards it with
    [|| ""], so a missing value is kept representable. *)
Module PaymentRequirements.
Record t : Type := mk {
  scheme : string;
  network : string;
  asset : option string;
  amount : string;
  payTo : string
}.
End PaymentRequirements.

Module PaymentPayload.
Record t : Type := mk {
  x402Version : Z;
  payload : ExactConcordiumPayload.t;
  accepted : PaymentRequirements.t
}.
End PaymentPayload.

(** [PaymentRequirementsV1] and [PaymentPayloadV1] of [@x402/core/types/v1]:
    scheme and network sit on the payload itself, the amount is
    [maxAmountRequired]. *)
Module PaymentRequirementsV1.
Record t : Type := mk {
  scheme : string;
  network : string;
  asset : option string;
  maxAmountRequired : string;
  payTo : string
}.
End PaymentRequirementsV1.

Module PaymentPayloadV1.
Record t : Type := mk {
  x402Version : Z;
  scheme : string;
  network : string;
  payload : ExactConcordiumPayload.t
}.
End PaymentPayloadV1.

Record VerifyResponse : Type := {
  isValid : bool;
  invalidReason : option string;
  payer : string
}.

Record SettleResponse : Type := {
  success : bool;
  sr_network : string;
  transaction : string;
  errorReason : option string;
  sr_payer : string
}.

(** [interface ConcordiumNodeClient]. *)
Record ConcordiumNodeClient (W : Type) : Type := {
  getTransactionStatus :
    string -> Async W (option ConcordiumTransactionInfo.t);
  waitForFinalization :
    string -> option Z -> Async W (option ConcordiumTransactionInfo.t)
}.
Arguments getTransactionStatus {W} _ _ _.
Arguments waitForFinalization {W} _ _ _ _.

(** [interface ExactConcordiumSchemeConfig] as the caller writes it, and
    as the constructors store it ([Required<...>]). *)
Record ExactConcordiumSchemeConfig (W : Type) : Type := {
  cfg_nodeClient : ConcordiumNodeClient W;
  cfg_requireFinalization : option bool;
  cfg_finalizationTimeoutMs : option Z
}.
Arguments cfg_nodeClient {W} _.
Arguments cfg_requireFinalization {W} _.
Arguments cfg_finalizationTimeoutMs {W} _.

Record Config (W : Type) : Type := {
  nodeClient : ConcordiumNodeClient W;
  requireFinalization : bool;
  finalizationTimeoutMs : Z
}.
Arguments nodeClient {W} _.
Arguments requireFinalization {W} _.
Arguments finalizationTimeoutMs {W} _.

(** The body shared by both constructors. *)
Definition new_config {W} (config : ExactConcordiumSchemeConfig W) : Config W :=
  {| nodeClient := cfg_nodeClient config;
     requireFinalization := nullish (cfg_requireFinalization config) true;
     finalizationTimeoutMs := nullish (cfg_finalizationTimeoutMs config) 60000 |}.

Definition invalid (reason payer : string) : VerifyResponse :=
  {| isValid := false; invalidReason := Some reason; payer := payer |}.

Definition valid (payer : string) : VerifyResponse :=
  {| isValid := true; invalidReason := None; payer := payer |}.

(** [a !== b] on strings. *)
Definition strict_neq (a b : string) : bool := negb (a =? b)%string.

(* ===================================================================== *)
(** ** [ExactConcordiumScheme] (V2 facilitator, [exact/facilitator/scheme.ts]) *)
(* ===================================================================== *)

Module Facilitator.
Import ConcordiumTransactionInfo.

Section Scheme.
Context {W : Type}.
Variable config : Config W.

Definition verify (payload : PaymentPayload.t)
    (requirements : PaymentRequirements.t) : Async W VerifyResponse :=
  let concordiumPayload := PaymentPayload.payload payload in
  let payer := ExactConcordiumPayload.sender concordiumPayload in
  (* Verify scheme matches *)
  if strict_neq (PaymentRequirements.scheme (PaymentPayload.accepted payload)) "exact"
     || strict_neq (PaymentRequirements.scheme requirements) "exact"
  then ret (invalid "unsupported_scheme" payer)
  (* Verify network matches *)
  else if strict_neq (PaymentRequirements.network (PaymentPayload.accepted payload))
                     (PaymentRequirements.network requirements)
  then ret (invalid "network_mismatch" payer)
  else
    (* Get transaction from the chain *)
    lookup <- attempt (getTransactionStatus (nodeClient config)
                         (ExactConcordiumPayload.txHash concordiumPayload)) ;;
    match lookup with
    | Thrown _ => ret (invalid "transaction_lookup_failed" payer)
    | Returned None => ret (invalid "transaction_not_found" payer)
    | Returned (Some txInfo) =>
        (* Verify transaction status *)
        if TxStatus_eqb (status txInfo) failed
        then ret (invalid "transaction_failed" payer)
        else if TxStatus_eqb (status txInfo) pending
        then ret (invalid "transaction_pending" payer)
        (* Check finalization requirement *)
        else if requireFinalization config
                && negb (TxStatus_eqb (status txInfo) finalized)
        then ret (invalid "transaction_not_finalized" payer)
        (* Verify sender matches *)
        else if truthy (sender txInfo)
                && strict_neq (toLowerCase (sender txInfo)) (toLowerCase payer)
        then ret (invalid "sender_mismatch" payer)
        (* Verify recipient matches *)
        else if match recipient txInfo with
                | Some to =>
                    truthy to
                    && strict_neq (toLowerCase to)
                         (toLowerCase (PaymentRequirements.payTo requirements))
                | None => false
                end
        then ret (invalid "recipient_mismatch" payer)
        else
          (* Verify asset matches (if specified) *)
          let assetCheck : Async W VerifyResponse :=
            match asset txInfo with
            | Some _ =>
                let expectedAsset := or_empty (PaymentRequirements.asset requirements) in
                let actualAsset := or_empty (asset txInfo) in
                if strict_neq expectedAsset actualAsset
                then ret (invalid "asset_mismatch" payer)
                else ret (valid payer)
            | None => ret (valid payer)
            end in
          (* Verify amount is sufficient *)
          match amount txInfo with
          | Some paidAmount =>
              if truthy paidAmount then
                paid <- lift (BigInt paidAmount) ;;
                required <- lift (BigInt (PaymentRequirements.amount requirements)) ;;
                if paid <? required
                then ret (invalid "insufficient_amount" payer)
                else assetCheck
              else assetCheck
          | None => assetCheck
          end
    end.

Definition settle (payload : PaymentPayload.t)
    (requirements : PaymentRequirements.t) : Async W SettleResponse :=
  let concordiumPayload := PaymentPayload.payload payload in
  let response (ok : bool) (reason : option string) : SettleResponse :=
    {| success := ok;
       sr_network := PaymentRequirements.network (PaymentPayload.accepted payload);
       transaction := ExactConcordiumPayload.txHash concordiumPayload;
       errorReason := reason;
       sr_payer := ExactConcordiumPayload.sender concordiumPayload |} in
  (* First verify the payment *)
  verifyResult <- verify payload requirements ;;
  if negb (isValid verifyResult) then
    ret (response false
           (Some (nullish (invalidReason verifyResult) "invalid_payment")))
  else if requireFinalization config then
    (* wait for finalization *)
    waited <- attempt (waitForFinalization (nodeClient config)
                         (ExactConcordiumPayload.txHash concordiumPayload)
                         (Some (finalizationTimeoutMs config))) ;;
    match waited with
    | Thrown _ => ret (response false (Some "finalization_failed"))
    | Returned None => ret (response false (Some "finalization_timeout"))
    | Returned (Some finalizedTx) =>
        if negb (TxStatus_eqb (status finalizedTx) finalized)
        then ret (response false (Some "finalization_timeout"))
        else ret (response true None)
    end
  else ret (response true None).

End Scheme.
End Facilitator.

(* ===================================================================== *)
(** ** [ExactConcordiumSchemeV1] ([exact/v1/facilitator/scheme.ts]) *)
(* ===================================================================== *)

Module FacilitatorV1.
Import ConcordiumTransactionInfo.

Section Scheme.
Context {W : Type}.
Variable config : Config W.

Definition verify (payloadV1 : PaymentPayloadV1.t)
    (requirementsV1 : PaymentRequirementsV1.t) : Async W VerifyResponse :=
  let concordiumPayload := PaymentPayloadV1.payload payloadV1 in
  let payer := ExactConcordiumPayload.sender concordiumPayload in
  if strict_neq (PaymentPayloadV1.scheme payloadV1) "exact"
     || strict_neq (PaymentRequirementsV1.scheme requirementsV1) "exact"
  then ret (invalid "unsupported_scheme" payer)
  else if strict_neq (PaymentPayloadV1.network payloadV1)
                     (PaymentRequirementsV1.network requirementsV1)
  then ret (invalid "network_mismatch" payer)
  else
    lookup <- attempt (getTransactionStatus (nodeClient config)
                         (ExactConcordiumPayload.txHash concordiumPayload)) ;;
    match lookup with
    | Thrown _ => ret (invalid "transaction_lookup_failed" payer)
    | Returned None => ret (invalid "transaction_not_found" payer)
    | Returned (Some txInfo) =>
        if TxStatus_eqb (status txInfo) failed
        then ret (invalid "transaction_failed" payer)
        else if TxStatus_eqb (status txInfo) pending
        then ret (invalid "transaction_pending" payer)
        else if requireFinalization config
                && negb (TxStatus_eqb (status txInfo) finalized)
        then ret (invalid "transaction_not_finalized" payer)
        else if truthy (sender txInfo)
                && strict_neq (toLowerCase (sender txInfo)) (toLowerCase payer)
        then ret (invalid "sender_mismatch" payer)
        else if match recipient txInfo with
                | Some to =>
                    truthy to
                    && strict_neq (toLowerCase to)
                         (toLowerCase (PaymentRequirementsV1.payTo requirementsV1))
                | None => false
                end
        then ret (invalid "recipient_mismatch" payer)
        else
          let assetCheck : Async W VerifyResponse :=
            let expectedAsset := or_empty (PaymentRequirementsV1.asset requirementsV1) in
            let actualAsset := or_empty (asset txInfo) in
            if strict_neq expectedAsset actualAsset
            then ret (invalid "asset_mismatch" payer)
            else ret (valid payer) in
          (* !txInfo.amount || BigInt(txInfo.amount) < BigInt(maxAmountRequired) *)
          match amount txInfo with
          | Some paidAmount =>
              if negb (truthy paidAmount)
              then ret (invalid "insufficient_amount" payer)
              else
                paid <- lift (BigInt paidAmount) ;;
                required <- lift (BigInt (PaymentRequirementsV1.maxAmountRequired
                                            requirementsV1)) ;;
                if paid <? required
                then ret (invalid "insufficient_amount" payer)
                else assetCheck
          | None => ret (invalid "insufficient_amount" payer)
          end
    end.

Definition settle (payloadV1 : PaymentPayloadV1.t)
    (requirementsV1 : PaymentRequirementsV1.t) : Async W SettleResponse :=
  let concordiumPayload := PaymentPayloadV1.payload payloadV1 in
  let response (ok : bool) (reason : option string) : SettleResponse :=
    {| success := ok;
       sr_network := PaymentPayloadV1.network payloadV1;
       transaction := ExactConcordiumPayload.txHash concordiumPayload;
       errorReason := reason;
       sr_payer := ExactConcordiumPayload.sender concordiumPayload |} in
  verifyResult <- verify payloadV1 requirementsV1 ;;
  if negb (isValid verifyResult) then
    ret (response false
           (Some (nullish (invalidReason verifyResult) "invalid_payment")))
  else if requireFinalization config then
    waited <- attempt (waitForFinalization (nodeClient config)
                         (ExactConcordiumPayload.txHash concordiumPayload)
                         (Some (finalizationTimeoutMs config))) ;;
    match waited with
    | Thrown _ => ret (response false (Some "finalization_failed"))
    | Returned None => ret (response false (Some "finalization_timeout"))
    | Returned (Some finalizedTx) =>
        if negb (TxStatus_eqb (status finalizedTx) finalized)
        then ret (response false (Some "finalization_timeout"))
        else ret (response true None)
    end
  else ret (response true None).

End Scheme.
End FacilitatorV1.

(* ===================================================================== *)
(** ** The gRPC node client ([utils/grpc-node.client.ts]) *)
(* ===================================================================== *)

Module GrpcNode.

Module TransactionResult.
Record t : Type := mk {
  outcome : string;                  (* "success" | "reject" *)
  rejectReason : option string
}.
End TransactionResult.

Module Transfer.
Record t : Type := mk {
  to : string;
  amount : string
}.
End Transfer.

Module ContractUpdate.
Record t : Type := mk {
  address : string;
  receiveName : string;
  events : option (list string)
}.
End ContractUpdate.

Module TransactionSummary.
Record t : Type := mk {
  type : string;
  sender : string;
  result : TransactionResult.t;
  transfer : option Transfer.t;
  contractUpdate : option ContractUpdate.t
}.
End TransactionSummary.

Module TransactionOutcome.
Record t : Type := mk {
  blockHash : option string;
  summary : option TransactionSummary.t
}.
End TransactionOutcome.

(** [status] is declared ["received" | "committed" | "finalized"]; the
    [switch] over it has a [default] branch, so it is kept a string. *)
Module BlockItemStatus.
Record t : Type := mk {
  status : string;
  outcome : option TransactionOutcome.t
}.
End BlockItemStatus.

Module FinalizedTransaction.
Record t : Type := mk {
  blockHash : string;
  summary : TransactionSummary.t
}.
End FinalizedTransaction.

(** [interface ConcordiumGRPCClientLike]; the subscription method is
    optional. *)
Record ConcordiumGRPCClientLike (W : Type) : Type := {
  getBlockItemStatus : string -> Async W (option BlockItemStatus.t);
  waitForTransactionFinalization :
    option (string -> Z -> Async W (option FinalizedTransaction.t))
}.
Arguments getBlockItemStatus {W} _ _ _.
Arguments waitForTransactionFinalization {W} _.

(** [outcome?.summary?.result.outcome === "reject"]. *)
Definition isRejected (outcome : option TransactionOutcome.t) : bool :=
  match outcome with
  | Some oc =>
      match TransactionOutcome.summary oc with
      | Some summary =>
          (TransactionResult.outcome (TransactionSummary.result summary)
           =? "reject")%string
      | None => false
      end
  | None => false
  end.

Definition mapStatusEnum (sdkStatus : string)
    (outcome : option TransactionOutcome.t) : TxStatus :=
  (* Check for rejection first *)
  if isRejected outcome then failed
  else if (sdkStatus =? "received")%string then pending
  else if (sdkStatus =? "committed")%string then committed
  else if (sdkStatus =? "finalized")%string then finalized
  else pending.

Import ConcordiumTransactionInfo.

(** The assignments [info.f = v] of [mapTransactionStatus]. *)
Definition set_sender (v : string) (i : ConcordiumTransactionInfo.t) :=
  mk (txHash i) (blockHash i) (status i) v (recipient i) (amount i) (asset i) (error i).
Definition set_status (v : TxStatus) (i : ConcordiumTransactionInfo.t) :=
  mk (txHash i) (blockHash i) v (sender i) (recipient i) (amount i) (asset i) (error i).
Definition set_error (v : option string) (i : ConcordiumTransactionInfo.t) :=
  mk (txHash i) (blockHash i) (status i) (sender i) (recipient i) (amount i) (asset i) v.
Definition set_recipient (v : string) (i : ConcordiumTransactionInfo.t) :=
  mk (txHash i) (blockHash i) (status i) (sender i) (Some v) (amount i) (asset i) (error i).
Definition set_amount (v : string) (i : ConcordiumTransactionInfo.t) :=
  mk (txHash i) (blockHash i) (status i) (sender i) (recipient i) (Some v) (asset i) (error i).
Definition set_asset (v : string) (i : ConcordiumTransactionInfo.t) :=
  mk (txHash i) (blockHash i) (status i) (sender i) (recipient i) (amount i) (Some v) (error i).

Definition mapTransactionStatus (txHash : string) (status : BlockItemStatus.t)
    : ConcordiumTransactionInfo.t :=
  let info :=
    {| ConcordiumTransactionInfo.txHash := txHash;
       blockHash :=
         nullish (match BlockItemStatus.outcome status with
                  | Some oc => TransactionOutcome.blockHash oc
                  | None => None
                  end) "";
       ConcordiumTransactionInfo.status :=
         mapStatusEnum (BlockItemStatus.status status) (BlockItemStatus.outcome status);
       sender := "";
       recipient := None; amount := None; asset := None; error := None |} in
  match BlockItemStatus.outcome status with
  | Some oc =>
      match TransactionOutcome.summary oc with
      | Some summary =>
          let info := set_sender (TransactionSummary.sender summary) info in
          (* Check for rejection *)
          let info :=
            if (TransactionResult.outcome (TransactionSummary.result summary)
                =? "reject")%string
            then set_error (TransactionResult.rejectReason
                              (TransactionSummary.result summary))
                   (set_status failed info)
            else info in
          (* Extract transfer details (native CCD) *)
          let info :=
            match TransactionSummary.transfer summary with
            | Some transfer =>
                set_asset ""
                  (set_amount (Transfer.amount transfer)
                     (set_recipient (Transfer.to transfer) info))
            | None => info
            end in
          (* Extract contract update details (CIS-2 tokens) *)
          let info :=
            match TransactionSummary.contractUpdate summary with
            | Some update => set_asset (ContractUpdate.address update) info
            | None => info
            end in
          info
      | None => info
      end
  | None => info
  end.

Section Client.
Context {W : Type}.
Variable rt : Runtime W.
Variable grpcClient : ConcordiumGRPCClientLike W.

(** [getTransactionStatus] of the object [createConcordiumNodeClient]
    returns: the whole body sits in a [try] whose [catch] logs and returns
    [null]. *)
Definition getTransactionStatus (txHash : string)
    : Async W (option ConcordiumTransactionInfo.t) :=
  r <- attempt (getBlockItemStatus grpcClient txHash) ;;
  match r with
  | Returned None => ret None
  | Returned (Some status) => ret (Some (mapTransactionStatus txHash status))
  | Thrown _ => ret None
  end.

Definition pollInterval : Z := 2000.

Definition isStatus (s : TxStatus) (i : ConcordiumTransactionInfo.t) : bool :=
  TxStatus_eqb (ConcordiumTransactionInfo.status i) s.

(** The [while] loop of [pollForFinalization] and the statement after it.
    [fuel] bounds the number of rounds unfolded; a run that needs more does
    not settle. *)
Fixpoint pollLoop (fuel : nat) (txHash : string) (startTime timeoutMs : Z)
    : Async W (option ConcordiumTransactionInfo.t) :=
  fun w =>
    match fuel with
    | O => None
    | S fuel' =>
        if Date_now rt w - startTime <? timeoutMs then
          (status <- getTransactionStatus txHash ;;
           match status with
           | None => ret None
           | Some info =>
               if isStatus finalized info then ret (Some info)
               else if isStatus failed info then ret (Some info)
               else
                 _ <- sleep rt pollInterval ;;
                 pollLoop fuel' txHash startTime timeoutMs
           end) w
        else
          (* Timeout - return last known status *)
          getTransactionStatus txHash w
    end.

Definition pollForFinalization (fuel : nat) (txHash : string) (timeoutMs : Z)
    : Async W (option ConcordiumTransactionInfo.t) :=
  fun w =>
    let startTime := Date_now rt w in
    pollLoop fuel txHash startTime timeoutMs w.

Definition finalizedInfo (txHash : string) (result : FinalizedTransaction.t)
    : ConcordiumTransactionInfo.t :=
  let summary := FinalizedTransaction.summary result in
  {| ConcordiumTransactionInfo.txHash := txHash;
     blockHash := FinalizedTransaction.blockHash result;
     status := finalized;
     sender := TransactionSummary.sender summary;
     recipient := option_map Transfer.to (TransactionSummary.transfer summary);
     amount := option_map Transfer.amount (TransactionSummary.transfer summary);
     asset := match TransactionSummary.transfer summary with
              | Some _ => Some ""         (* Empty for native CCD *)
              | None => None
              end;
     error := None |}.

Definition waitForFinalization (fuel : nat) (txHash : string)
    (timeoutMs : option Z) : Async W (option ConcordiumTransactionInfo.t) :=
  let timeoutMs := nullish timeoutMs 60000 in
  match waitForTransactionFinalization grpcClient with
  | Some subscribe =>
      r <- attempt (subscribe txHash timeoutMs) ;;
      match r with
      | Returned None => ret None
      | Returned (Some result) => ret (Some (finalizedInfo txHash result))
      | Thrown _ =>
          (* Fall back to polling *)
          pollForFinalization fuel txHash timeoutMs
      end
  | None =>
      (* Fallback: Poll for finalization *)
      pollForFinalization fuel txHash timeoutMs
  end.

Definition createConcordiumNodeClient (fuel : nat) : ConcordiumNodeClient W :=
  Build_ConcordiumNodeClient W getTransactionStatus (waitForFinalization fuel).

End Client.

(** [createMockConcordiumNodeClient(mockTransactions)], its options left
    at their defaults (no simulated failure; the delays only pass time):
    the [Map] is a list of entries searched by key. *)
Fixpoint Map_get {A} (m : list (string * A)) (key : string) : option A :=
  match m with
  | [] => None
  | (k, v) :: m' => if (k =? key)%string then Some v else Map_get m' key
  end.

Definition createMockConcordiumNodeClient {W}
    (mockTransactions : list (string * ConcordiumTransactionInfo.t))
    : ConcordiumNodeClient W :=
  Build_ConcordiumNodeClient W
    (fun txHash => ret (Map_get mockTransactions txHash))
    (fun txHash _timeoutMs =>
       match Map_get mockTransactions txHash with
       | Some tx =>
           (* Simulate finalization *)
           ret (Some (set_status finalized tx))
       | None => ret None
       end).

End GrpcNode.

(* ===================================================================== *)
(** ** [ConcordiumClient] ([client/concordium.client.ts]) *)
(* ===================================================================== *)

Module Client.

Module TransactionInfo.
Record t : Type := mk {
  txHash : string;
  status : TxStatus;
  sender : string;
  recipient : option string;
  amount : option string;
  contractIndex : option Z;
  contractSubindex : option Z;
  error : option string
}.
End TransactionInfo.

(** What [getTransactionStatus] reads of the SDK's block item status
    through [blockStatus as Record<string, any>]: every step of the
    optional chains may be missing.  [rejectReason] stands for what the
    SDK reports of a rejected transaction; the client never reads it. *)
Module AccountAddress.
Record t : Type := mk { address : option string }.
End AccountAddress.

Module CcdAmount.
Record t : Type := mk { microCcdAmount : option Z }.
End CcdAmount.

Module SdkTransfer.
Record t : Type := mk {
  to : option AccountAddress.t;
  amount : option CcdAmount.t
}.
End SdkTransfer.

Module SdkSummary.
Record t : Type := mk {
  sender : option AccountAddress.t;
  transfer : option SdkTransfer.t;
  rejectReason : option string
}.
End SdkSummary.

Module SdkOutcome.
Record t : Type := mk { summary : option SdkSummary.t }.
End SdkOutcome.

Module SdkBlockItemStatus.
Record t : Type := mk {
  status : string;
  outcome : option SdkOutcome.t
}.
End SdkBlockItemStatus.

(** The two SDK entry points the client calls: [TransactionHash.fromHexString]
    (which may throw) and [ConcordiumGRPCNodeClient.getBlockItemStatus]. *)
Record Sdk (W : Type) : Type := {
  TransactionHash_fromHexString : string -> Outcome string;
  getBlockItemStatus : string -> Async W (option SdkBlockItemStatus.t)
}.
Arguments TransactionHash_fromHexString {W} _ _.
Arguments getBlockItemStatus {W} _ _ _.

Record PaymentVerification : Type := {
  valid : bool;
  reason : option string;
  info : option TransactionInfo.t
}.

(** [a?.f]. *)
Definition chain {A B} (a : option A) (f : A -> option B) : option B :=
  match a with
  | Some x => f x
  | None => None
  end.

Section ConcordiumClient.
Context {W : Type}.
Variable rt : Runtime W.
Variable client : Sdk W.

Definition getTransactionStatus (txHash : string) : Async W TransactionInfo.t :=
  hash <- lift (TransactionHash_fromHexString client txHash) ;;
  blockStatus <- getBlockItemStatus client hash ;;
  match blockStatus with
  | None =>
      ret {| TransactionInfo.txHash := txHash;
             TransactionInfo.status := pending;
             TransactionInfo.sender := "";
             TransactionInfo.recipient := Some "";
             TransactionInfo.amount := Some "";
             TransactionInfo.contractIndex := None;
             TransactionInfo.contractSubindex := None;
             TransactionInfo.error := None |}
  | Some s =>
      let summary := chain (SdkBlockItemStatus.outcome s) SdkOutcome.summary in
      let transfer := chain summary SdkSummary.transfer in
      let sender :=
        nullish (chain (chain summary SdkSummary.sender) AccountAddress.address) "" in
      let recipient :=
        nullish (chain (chain transfer SdkTransfer.to) AccountAddress.address) "" in
      let amount :=
        nullish (option_map BigInt_toString
                   (chain (chain transfer SdkTransfer.amount)
                          CcdAmount.microCcdAmount)) "" in
      let status :=
        if (SdkBlockItemStatus.status s =? "finalized")%string then finalized
        else if (SdkBlockItemStatus.status s =? "committed")%string then committed
        else pending in
      ret {| TransactionInfo.txHash := txHash;
             TransactionInfo.status := status;
             TransactionInfo.sender := sender;
             TransactionInfo.recipient := Some recipient;
             TransactionInfo.amount := Some amount;
             TransactionInfo.contractIndex := None;
             TransactionInfo.contractSubindex := None;
             TransactionInfo.error := None |}
  end.

Definition isStatus (s : TxStatus) (i : TransactionInfo.t) : bool :=
  TxStatus_eqb (TransactionInfo.status i) s.

(** The loop of [waitForFinalization] and the statement after it.  The
    test [if (!info) return null] is on an object and never fires. *)
Fixpoint waitLoop (fuel : nat) (txHash : string) (start timeoutMs : Z)
    : Async W (option TransactionInfo.t) :=
  fun w =>
    match fuel with
    | O => None
    | S fuel' =>
        if Date_now rt w - start <? timeoutMs then
          (info <- getTransactionStatus txHash ;;
           if isStatus finalized info || isStatus failed info
           then ret (Some info)
           else
             _ <- sleep rt 2000 ;;
             waitLoop fuel' txHash start timeoutMs) w
        else
          (info <- getTransactionStatus txHash ;; ret (Some info)) w
    end.

Definition waitForFinalization (fuel : nat) (txHash : string)
    (timeoutMs : option Z) : Async W (option TransactionInfo.t) :=
  fun w =>
    let timeoutMs := nullish timeoutMs 60000 in
    let start := Date_now rt w in
    waitLoop fuel txHash start timeoutMs w.

Definition verifyPayment (txHash : string) (expected_recipient : string)
    (expected_minAmount : Z) : Async W PaymentVerification :=
  info <- getTransactionStatus txHash ;;
  (* if (!info) return { valid: false, reason: "not_found" }: never fires *)
  if isStatus failed info
  then ret {| valid := false; reason := Some "failed"; info := Some info |}
  else if isStatus pending info
  then ret {| valid := false; reason := Some "pending"; info := Some info |}
  else if negb (truthy_opt (TransactionInfo.recipient info))
          || strict_neq (nullish (TransactionInfo.recipient info) "")
                        expected_recipient
  then ret {| valid := false; reason := Some "recipient_mismatch"; info := Some info |}
  else
    paid <- lift (BigInt (nullish (TransactionInfo.amount info) "0")) ;;
    if paid <? expected_minAmount
    then ret {| valid := false; reason := Some "insufficient_amount"; info := Some info |}
    else ret {| valid := true; reason := None; info := Some info |}.

(** The object a [ConcordiumClient] hands out, read through the
    [ConcordiumTransactionInfo] interface of the schemes: the fields it
    does not carry ([blockHash], [asset]) are missing; the schemes never
    read [blockHash]. *)
Definition asConcordiumTransactionInfo (i : TransactionInfo.t)
    : ConcordiumTransactionInfo.t :=
  {| ConcordiumTransactionInfo.txHash := TransactionInfo.txHash i;
     ConcordiumTransactionInfo.blockHash := "";
     ConcordiumTransactionInfo.status := TransactionInfo.status i;
     ConcordiumTransactionInfo.sender := TransactionInfo.sender i;
     ConcordiumTransactionInfo.recipient := TransactionInfo.recipient i;
     ConcordiumTransactionInfo.amount := TransactionInfo.amount i;
     ConcordiumTransactionInfo.asset := None;
     ConcordiumTransactionInfo.error := TransactionInfo.error i |}.

Definition asNodeClient (fuel : nat) : ConcordiumNodeClient W :=
  Build_ConcordiumNodeClient W
    (fun txHash =>
       i <- getTransactionStatus txHash ;;
       ret (Some (asConcordiumTransactionInfo i)))
    (fun txHash timeoutMs =>
       r <- waitForFinalization fuel txHash timeoutMs ;;
       ret (option_map asConcordiumTransactionInfo r)).

End ConcordiumClient.
End Client.

(* ===================================================================== *)
(** ** Observing the calls a scheme makes *)
(* ===================================================================== *)

(** A spy around a node client, in the way the unit tests wrap the client
    methods: each call that settles is appended to a log next to the
    world. *)
Inductive Call : Type :=
| GetTransactionStatusCall (txHash : string)
| WaitForFinalizationCall (txHash : string) (timeoutMs : option Z).

Definition recorded {W A} (c : Call) (m : Async W A) : Async (W * list Call) A :=
  fun wl =>
    match m (fst wl) with
    | Some (o, w') => Some (o, (w', (snd wl ++ [c])%list))
    | None => None
    end.

Definition spyOn {W} (client : ConcordiumNodeClient W)
    : ConcordiumNodeClient (W * list Call) :=
  {| getTransactionStatus := fun txHash =>
       recorded (GetTransactionStatusCall txHash)
                (getTransactionStatus client txHash);
     waitForFinalization := fun txHash timeoutMs =>
       recorded (WaitForFinalizationCall txHash timeoutMs)
                (waitForFinalization client txHash timeoutMs) |}.

(** A scheme configuration whose client is spied on. *)
Definition spiedConfig {W} (client : ConcordiumNodeClient W)
    (requireFinalization : bool) (finalizationTimeoutMs : Z)
    : Config (W * list Call) :=
  {| nodeClient := spyOn client;
     requireFinalization := requireFinalization;
     finalizationTimeoutMs := finalizationTimeoutMs |}.

Definition isLookup (c : Call) : bool :=
  match c with
  | GetTransactionStatusCall _ => true
  | WaitForFinalizationCall _ _ => false
  end.

Definition lookups (calls : list Call) : nat := List.length (filter isLookup calls).

Definition waits (calls : list Call) : nat :=
  List.length (filter (fun c => negb (isLookup c)) calls).

(* ===================================================================== *)
(** ** A simulated host and ledger, for concrete runs *)
(* ===================================================================== *)

Module Sim.

(** The world is the clock alone: milliseconds since the epoch. *)
Definition World : Type := Z.

Definition runtime : Runtime World :=
  {| Date_now := fun w => w; setTimeout := fun ms w => w + ms |}.

(** A gRPC client answering from a ledger that is a function of the hash
    and of the time of the request; requests take no time. *)
Definition grpc (ledger : string -> Z -> Outcome (option GrpcNode.BlockItemStatus.t))
    (subscription :
       option (string -> Z -> Outcome (option GrpcNode.FinalizedTransaction.t)))
    : GrpcNode.ConcordiumGRPCClientLike World :=
  {| GrpcNode.getBlockItemStatus := fun txHash w => Some (ledger txHash w, w);
     GrpcNode.waitForTransactionFinalization :=
       option_map (fun f txHash timeoutMs w =>
                     Some (f txHash timeoutMs, w + timeoutMs)) subscription |}.

Definition sdk (ledger : string -> Z -> Outcome (option Client.SdkBlockItemStatus.t))
    : Client.Sdk World :=
  {| Client.TransactionHash_fromHexString := fun h => Returned h;
     Client.getBlockItemStatus := fun hash w => Some (ledger hash w, w) |}.

End Sim.

(* ===================================================================== *)
(** ** The matcher as an ordered list of checks *)
(* ===================================================================== *)

(** The reading of [verify] the specification gives: a fixed sequence of
    named checks, the first one that does not pass decides.  The order is
    the specification's; what each check tests is read off the scheme at
    hand (the two schemes differ in the last two).  A transport error of
    the lookup has its own tag and sits where the lookup happens, between
    the network check and the existence check. *)
Module Matcher.
Import ConcordiumTransactionInfo.

Inductive CheckResult : Type :=
| Pass
| Fail
| Fault (e : JsError).

Definition isPass (r : CheckResult) : bool :=
  match r with
  | Pass => true
  | _ => false
  end.

Definition passes (b : bool) : CheckResult := if b then Pass else Fail.

Fixpoint firstFailure (payer : string) (checks : list (string * CheckResult))
    : Outcome VerifyResponse :=
  match checks with
  | [] => Returned (valid payer)
  | (_, Pass) :: rest => firstFailure payer rest
  | (reason, Fail) :: _ => Returned (invalid reason payer)
  | (_, Fault e) :: _ => Thrown e
  end.

Definition allPass (checks : list (string * CheckResult)) : bool :=
  forallb (fun c => isPass (snd c)) checks.

(** What the checks read of a payload/requirements pair, for either
    version of the protocol. *)
Record Inputs : Type := {
  payloadScheme : string;
  requiredScheme : string;
  payloadNetwork : string;
  requiredNetwork : string;
  claimedTxHash : string;
  claimedSender : string;
  requiredPayTo : string;
  requiredAmount : string;
  requiredAsset : option string
}.

Definition inputsV2 (payload : PaymentPayload.t)
    (requirements : PaymentRequirements.t) : Inputs :=
  {| payloadScheme := PaymentRequirements.scheme (PaymentPayload.accepted payload);
     requiredScheme := PaymentRequirements.scheme requirements;
     payloadNetwork := PaymentRequirements.network (PaymentPayload.accepted payload);
     requiredNetwork := PaymentRequirements.network requirements;
     claimedTxHash := ExactConcordiumPayload.txHash (PaymentPayload.payload payload);
     claimedSender := ExactConcordiumPayload.sender (PaymentPayload.payload payload);
     requiredPayTo := PaymentRequirements.payTo requirements;
     requiredAmount := PaymentRequirements.amount requirements;
     requiredAsset := PaymentRequirements.asset requirements |}.

Definition inputsV1 (payloadV1 : PaymentPayloadV1.t)
    (requirementsV1 : PaymentRequirementsV1.t) : Inputs :=
  {| payloadScheme := PaymentPayloadV1.scheme payloadV1;
     requiredScheme := PaymentRequirementsV1.scheme requirementsV1;
     payloadNetwork := PaymentPayloadV1.network payloadV1;
     requiredNetwork := PaymentRequirementsV1.network requirementsV1;
     claimedTxHash := ExactConcordiumPayload.txHash (PaymentPayloadV1.payload payloadV1);
     claimedSender := ExactConcordiumPayload.sender (PaymentPayloadV1.payload payloadV1);
     requiredPayTo := PaymentRequirementsV1.payTo requirementsV1;
     requiredAmount := PaymentRequirementsV1.maxAmountRequired requirementsV1;
     requiredAsset := PaymentRequirementsV1.asset requirementsV1 |}.

(** A check on the snapshot has nothing to test when there is none. *)
Definition onSnapshot
    (lookup : Outcome (option ConcordiumTransactionInfo.t))
    (check : ConcordiumTransactionInfo.t -> CheckResult) : CheckResult :=
  match lookup with
  | Returned (Some txInfo) => check txInfo
  | _ => Pass
  end.

(** Checks 1 and 2: decided before the ledger is asked. *)
Definition envelopeChecks (i : Inputs) : list (string * CheckResult) :=
  [ ("unsupported_scheme",
     passes ((payloadScheme i =? "exact")%string
             && (requiredScheme i =? "exact")%string));
    ("network_mismatch",
     passes (payloadNetwork i =? requiredNetwork i)%string) ].

(** The lookup itself and checks 3 to 8. *)
Definition ledgerChecks (requireFinalization : bool) (i : Inputs)
    (lookup : Outcome (option ConcordiumTransactionInfo.t))
    : list (string * CheckResult) :=
  [ ("transaction_lookup_failed",
     passes match lookup with Thrown _ => false | Returned _ => true end);
    ("transaction_not_found",
     passes match lookup with Returned None => false | _ => true end);
    ("transaction_failed",
     onSnapshot lookup (fun tx => passes (negb (TxStatus_eqb (status tx) failed))));
    ("transaction_pending",
     onSnapshot lookup (fun tx => passes (negb (TxStatus_eqb (status tx) pending))));
    ("transaction_not_finalized",
     onSnapshot lookup (fun tx =>
       passes (negb requireFinalization || TxStatus_eqb (status tx) finalized)));
    ("sender_mismatch",
     onSnapshot lookup (fun tx =>
       passes (negb (truthy (sender tx))
               || (toLowerCase (sender tx) =? toLowerCase (claimedSender i))%string)));
    ("recipient_mismatch",
     onSnapshot lookup (fun tx =>
       passes match recipient tx with
              | Some to =>
                  negb (truthy to)
                  || (toLowerCase to =? toLowerCase (requiredPayTo i))%string
              | None => true
              end)) ].

(** [BigInt(paid) < BigInt(required)] fails the check, and either
    conversion may throw (the left one first). *)
Definition compareAmounts (paid required : string) : CheckResult :=
  match BigInt paid with
  | Thrown e => Fault e
  | Returned p =>
      match BigInt required with
      | Thrown e => Fault e
      | Returned r => passes (negb (p <? r))
      end
  end.

Definition assetsAgree (i : Inputs) (tx : ConcordiumTransactionInfo.t) : bool :=
  (or_empty (requiredAsset i) =? or_empty (asset tx))%string.

(** Checks 9 and 10 of the V2 scheme: both are skipped on a missing
    field, the amount check also on an empty one. *)
Definition amountCheckV2 (i : Inputs) (tx : ConcordiumTransactionInfo.t)
    : CheckResult :=
  match amount tx with
  | Some paid => if truthy paid then compareAmounts paid (requiredAmount i) else Pass
  | None => Pass
  end.

Definition assetCheckV2 (i : Inputs) (tx : ConcordiumTransactionInfo.t)
    : CheckResult :=
  match asset tx with
  | Some _ => passes (assetsAgree i tx)
  | None => Pass
  end.

(** Checks 9 and 10 of the V1 scheme: a missing or empty amount fails, a
    missing asset is the native one. *)
Definition amountCheckV1 (i : Inputs) (tx : ConcordiumTransactionInfo.t)
    : CheckResult :=
  match amount tx with
  | Some paid => if truthy paid then compareAmounts paid (requiredAmount i) else Fail
  | None => Fail
  end.

Definition assetCheckV1 (i : Inputs) (tx : ConcordiumTransactionInfo.t)
    : CheckResult :=
  passes (assetsAgree i tx).

Definition checksV2 (requireFinalization : bool) (i : Inputs)
    (lookup : Outcome (option ConcordiumTransactionInfo.t))
    : list (string * CheckResult) :=
  envelopeChecks i ++ ledgerChecks requireFinalization i lookup
  ++ [ ("insufficient_amount", onSnapshot lookup (amountCheckV2 i));
       ("asset_mismatch", onSnapshot lookup (assetCheckV2 i)) ].

Definition checksV1 (requireFinalization : bool) (i : Inputs)
    (lookup : Outcome (option ConcordiumTransactionInfo.t))
    : list (string * CheckResult) :=
  envelopeChecks i ++ ledgerChecks requireFinalization i lookup
  ++ [ ("insufficient_amount", onSnapshot lookup (amountCheckV1 i));
       ("asset_mismatch", onSnapshot lookup (assetCheckV1 i)) ].

(** The order of the tags, as the specification numbers them. *)
Definition reasonsInOrder : list string :=
  [ "unsupported_scheme"; "network_mismatch"; "transaction_lookup_failed";
    "transaction_not_found"; "transaction_failed"; "transaction_pending";
    "transaction_not_finalized"; "sender_mismatch"; "recipient_mismatch";
    "insufficient_amount"; "asset_mismatch" ].

(** The snapshot has passed every check before the amount check. *)
Definition reachesAmountCheck (requireFinalization : bool) (i : Inputs)
    (tx : ConcordiumTransactionInfo.t) : bool :=
  allPass (envelopeChecks i)
  && allPass (ledgerChecks requireFinalization i (Returned (Some tx))).

End Matcher.

(* ===================================================================== *)
(** ** Fixtures of the unit and integration tests *)
(* ===================================================================== *)

Module Fixtures.

Definition CLIENT_ADDRESS : string :=
  "3kBx2h5Y2veb4hZvAE2c1Zr6DYJwWbPr9xQJJBPWyFnXHF9UuN".
Definition MERCHANT_ADDRESS : string :=
  "4FmiTW2L4RvCsSVTjFAavYvrgnPLGNj43eiwPYmbhNqtAcMbWW".
Definition TESTNET : string := "ccd:4221332d34e1694168c2a0c0b3fd0f27".

Definition validTxInfo : ConcordiumTransactionInfo.t :=
  {| ConcordiumTransactionInfo.txHash := "abc123";
     ConcordiumTransactionInfo.blockHash := "block456";
     ConcordiumTransactionInfo.status := finalized;
     ConcordiumTransactionInfo.sender := CLIENT_ADDRESS;
     ConcordiumTransactionInfo.recipient := Some MERCHANT_ADDRESS;
     ConcordiumTransactionInfo.amount := Some "1000000";
     ConcordiumTransactionInfo.asset := Some "";
     ConcordiumTransactionInfo.error := None |}.

Definition validRequirements : PaymentRequirements.t :=
  {| PaymentRequirements.scheme := "exact";
     PaymentRequirements.network := TESTNET;
     PaymentRequirements.asset := Some "";
     PaymentRequirements.amount := "1000000";
     PaymentRequirements.payTo := MERCHANT_ADDRESS |}.

Definition validPayload : PaymentPayload.t :=
  {| PaymentPayload.x402Version := 2;
     PaymentPayload.payload :=
       {| ExactConcordiumPayload.txHash := "abc123";
          ExactConcordiumPayload.sender := CLIENT_ADDRESS;
          ExactConcordiumPayload.blockHash := None |};
     PaymentPayload.accepted := validRequirements |}.

Definition validRequirementsV1 : PaymentRequirementsV1.t :=
  {| PaymentRequirementsV1.scheme := "exact";
     PaymentRequirementsV1.network := "concordium-testnet";
     PaymentRequirementsV1.asset := Some "";
     PaymentRequirementsV1.maxAmountRequired := "1000000";
     PaymentRequirementsV1.payTo := MERCHANT_ADDRESS |}.

Definition validPayloadV1 : PaymentPayloadV1.t :=
  {| PaymentPayloadV1.x402Version := 1;
     PaymentPayloadV1.scheme := "exact";
     PaymentPayloadV1.network := "concordium-testnet";
     PaymentPayloadV1.payload := PaymentPayload.payload validPayload |}.

(** [{ ...validTxInfo, f: v }]. *)
Definition withStatus (s : TxStatus) (i : ConcordiumTransactionInfo.t) :=
  GrpcNode.set_status s i.

Definition withSender (v : string) (i : ConcordiumTransactionInfo.t) :=
  GrpcNode.set_sender v i.

Definition withAmount (v : option string) (i : ConcordiumTransactionInfo.t) :=
  ConcordiumTransactionInfo.mk
    (ConcordiumTransactionInfo.txHash i) (ConcordiumTransactionInfo.blockHash i)
    (ConcordiumTransactionInfo.status i) (ConcordiumTransactionInfo.sender i)
    (ConcordiumTransactionInfo.recipient i) v
    (ConcordiumTransactionInfo.asset i) (ConcordiumTransactionInfo.error i).

Definition withAsset (v : option string) (i : ConcordiumTransactionInfo.t) :=
  ConcordiumTransactionInfo.mk
    (ConcordiumTransactionInfo.txHash i) (ConcordiumTransactionInfo.blockHash i)
    (ConcordiumTransactionInfo.status i) (ConcordiumTransactionInfo.sender i)
    (ConcordiumTransactionInfo.recipient i) (ConcordiumTransactionInfo.amount i)
    v (ConcordiumTransactionInfo.error i).

Definition requiring (asset : option string) (amount : string)
    : PaymentRequirements.t :=
  {| PaymentRequirements.scheme := "exact";
     PaymentRequirements.network := TESTNET;
     PaymentRequirements.asset := asset;
     PaymentRequirements.amount := amount;
     PaymentRequirements.payTo := MERCHANT_ADDRESS |}.

Definition withScheme (scheme : string) (r : PaymentRequirements.t)
    : PaymentRequirements.t :=
  {| PaymentRequirements.scheme := scheme;
     PaymentRequirements.network := PaymentRequirements.network r;
     PaymentRequirements.asset := PaymentRequirements.asset r;
     PaymentRequirements.amount := PaymentRequirements.amount r;
     PaymentRequirements.payTo := PaymentRequirements.payTo r |}.

Definition accepting (r : PaymentRequirements.t) : PaymentPayload.t :=
  {| PaymentPayload.x402Version := 2;
     PaymentPayload.payload := PaymentPayload.payload validPayload;
     PaymentPayload.accepted := r |}.

(** A scheme configuration over the mock client that knows one
    transaction, in a world with nothing in it. *)
Definition mockConfig (tx : ConcordiumTransactionInfo.t)
    (requireFinalization : bool) : Config unit :=
  {| nodeClient := GrpcNode.createMockConcordiumNodeClient
                     [(ConcordiumTransactionInfo.txHash tx, tx)];
     requireFinalization := requireFinalization;
     finalizationTimeoutMs := 60000 |}.

End Fixtures.

(* ===================================================================== *)
(** ** What the specification says of [settle] *)
(* ===================================================================== *)

Module Settlement.
Import Matcher.

(** The settlement record for a payload: it always carries the network,
    the transaction id and the payer of the payload. *)
Definition settlement (i : Inputs) (ok : bool) (reason : option string)
    : SettleResponse :=
  {| success := ok;
     sr_network := payloadNetwork i;
     transaction := claimedTxHash i;
     errorReason := reason;
     sr_payer := claimedSender i |}.

(** The settlement that follows from what [waitForFinalization] did. *)
Definition afterWaiting (i : Inputs)
    (waited : Outcome (option ConcordiumTransactionInfo.t)) : SettleResponse :=
  match waited with
  | Thrown _ => settlement i false (Some "finalization_failed")
  | Returned None => settlement i false (Some "finalization_timeout")
  | Returned (Some finalizedTx) =>
      if TxStatus_eqb (ConcordiumTransactionInfo.status finalizedTx) finalized
      then settlement i true None
      else settlement i false (Some "finalization_timeout")
  end.

(** The contract of [settle], relative to the run of [verify] it starts
    with, for a scheme whose client is spied on. *)
Definition SettlesAsSpecified {W} (client : ConcordiumNodeClient W)
    (requireFinalization : bool) (timeoutMs : Z) (i : Inputs)
    (verifyRun : Async (W * list Call) VerifyResponse)
    (settleRun : Async (W * list Call) SettleResponse) : Prop :=
  forall w calls vr w1 calls1,
    verifyRun (w, calls) = Some (Returned vr, (w1, calls1)) ->
    (* an invalid payment is mirrored, and nothing is awaited *)
    (isValid vr = false ->
     exists reason,
       invalidReason vr = Some reason
       /\ settleRun (w, calls)
          = Some (Returned (settlement i false (Some reason)), (w1, calls1))
       /\ waits calls1 = waits calls)
    (* without the finality requirement a valid payment settles at once *)
    /\ (isValid vr = true -> requireFinalization = false ->
        settleRun (w, calls)
        = Some (Returned (settlement i true None), (w1, calls1))
        /\ waits calls1 = waits calls)
    (* with it, the one call to waitForFinalization decides *)
    /\ (isValid vr = true -> requireFinalization = true ->
        forall waited w2,
          waitForFinalization client (claimedTxHash i) (Some timeoutMs) w1
          = Some (waited, w2) ->
          settleRun (w, calls)
          = Some (Returned (afterWaiting i waited),
                  (w2, (calls1 ++ [WaitForFinalizationCall (claimedTxHash i)
                                     (Some timeoutMs)])%list))).

End Settlement.

(* ===================================================================== *)
(** ** What the waiting loops do, round by round *)
(* ===================================================================== *)

Module Polling.

(** The host's timer does not fire early. *)
Definition ClockAdvances {W} (rt : Runtime W) : Prop :=
  forall ms w, Date_now rt w + ms <= Date_now rt (setTimeout rt ms w).

(** A request that always settles, and during which the clock does not
    run backwards. *)
Definition Answers {W A} (rt : Runtime W) (m : Async W A) : Prop :=
  forall w, exists o w', m w = Some (o, w') /\ Date_now rt w <= Date_now rt w'.

(** Rounds of two seconds needed to use up [remaining] milliseconds. *)
Definition rounds (remaining : Z) : nat := Z.to_nat ((remaining + 1999) / 2000).

(** One round of a waiting loop over [lookup]: past the deadline the loop
    is one more lookup, returned as it is; before the deadline it looks
    up, returns an absent or terminal result at once, and otherwise
    sleeps two seconds and goes round again. *)
Definition PollingContract {W I} (rt : Runtime W) (terminal : I -> bool)
    (lookup : Async W (option I))
    (loop : nat -> Z -> Z -> Async W (option I)) : Prop :=
  forall fuel start timeoutMs w,
    loop O start timeoutMs w = None
    /\ (timeoutMs <= Date_now rt w - start ->
        loop (S fuel) start timeoutMs w = lookup w)
    /\ (Date_now rt w - start < timeoutMs ->
        loop (S fuel) start timeoutMs w =
          match lookup w with
          | None => None
          | Some (Thrown e, w1) => Some (Thrown e, w1)
          | Some (Returned None, w1) => Some (Returned None, w1)
          | Some (Returned (Some info), w1) =>
              if terminal info then Some (Returned (Some info), w1)
              else loop fuel start timeoutMs (setTimeout rt 2000 w1)
          end).

(** How a result of the loop came about. *)
Inductive Origin {W I} (rt : Runtime W) (terminal : I -> bool)
    (lookup : Async W (option I)) (start timeoutMs : Z)
    (r : Outcome (option I)) (w' : W) : Prop :=
| TerminalSeen (info : I) :
    r = Returned (Some info) -> terminal info = true ->
    Origin rt terminal lookup start timeoutMs r w'
| AbsentSeen :
    r = Returned None -> Origin rt terminal lookup start timeoutMs r w'
| LookupThrew (e : JsError) :
    r = Thrown e -> Origin rt terminal lookup start timeoutMs r w'
| DeadlinePassed (w1 : W) :
    timeoutMs <= Date_now rt w1 - start -> lookup w1 = Some (r, w') ->
    Origin rt terminal lookup start timeoutMs r w'.

Definition grpcTerminal (i : ConcordiumTransactionInfo.t) : bool :=
  GrpcNode.isStatus finalized i || GrpcNode.isStatus failed i.

Definition clientTerminal (i : Client.TransactionInfo.t) : bool :=
  Client.isStatus finalized i || Client.isStatus failed i.

(** The lookup of [ConcordiumClient.waitForFinalization], whose result
    is never [null]. *)
Definition clientLookup {W} (client : Client.Sdk W) (txHash : string)
    : Async W (option Client.TransactionInfo.t) :=
  info <- Client.getTransactionStatus client txHash ;; ret (Some info).

End Polling.

(** Ledgers for the simulated host. *)
Module Ledgers.

Definition successSummary : GrpcNode.TransactionSummary.t :=
  {| GrpcNode.TransactionSummary.type := "transfer";
     GrpcNode.TransactionSummary.sender := "sender-addr";
     GrpcNode.TransactionSummary.result :=
       {| GrpcNode.TransactionResult.outcome := "success";
          GrpcNode.TransactionResult.rejectReason := None |};
     GrpcNode.TransactionSummary.transfer :=
       Some {| GrpcNode.Transfer.to := "recipient-addr";
               GrpcNode.Transfer.amount := "5000000" |};
     GrpcNode.TransactionSummary.contractUpdate := None |}.

(** The summary of the test "should map rejected transaction to
    failed". *)
Definition rejectedSummary : GrpcNode.TransactionSummary.t :=
  {| GrpcNode.TransactionSummary.type := "transfer";
     GrpcNode.TransactionSummary.sender := "sender-addr";
     GrpcNode.TransactionSummary.result :=
       {| GrpcNode.TransactionResult.outcome := "reject";
          GrpcNode.TransactionResult.rejectReason := Some "Insufficient funds" |};
     GrpcNode.TransactionSummary.transfer := None;
     GrpcNode.TransactionSummary.contractUpdate := None |}.

Definition blockItem (status : string) (summary : GrpcNode.TransactionSummary.t)
    : GrpcNode.BlockItemStatus.t :=
  {| GrpcNode.BlockItemStatus.status := status;
     GrpcNode.BlockItemStatus.outcome :=
       Some {| GrpcNode.TransactionOutcome.blockHash := Some "block123";
               GrpcNode.TransactionOutcome.summary := Some summary |} |}.

(** A transaction that stays committed. *)
Definition stuckCommitted : string -> Z -> Outcome (option GrpcNode.BlockItemStatus.t) :=
  fun _ _ => Returned (Some (blockItem "committed" successSummary)).

(** A transaction that becomes final three seconds after the epoch. *)
Definition finalAfter3s : string -> Z -> Outcome (option GrpcNode.BlockItemStatus.t) :=
  fun _ now =>
    Returned (Some (blockItem (if now <? 3000 then "committed" else "finalized")
                              successSummary)).

(** A finalized transaction that the ledger rejected. *)
Definition rejectedFinalized : string -> Z -> Outcome (option GrpcNode.BlockItemStatus.t) :=
  fun _ _ => Returned (Some (blockItem "finalized" rejectedSummary)).

(** A node that cannot be reached. *)
Definition unreachable : string -> Z -> Outcome (option GrpcNode.BlockItemStatus.t) :=
  fun _ _ => Thrown (Error "Network error").

(** The subscription of the SDK resolving with the rejected
    transaction. *)
Definition rejectedSubscription
    : string -> Z -> Outcome (option GrpcNode.FinalizedTransaction.t) :=
  fun _ _ =>
    Returned (Some {| GrpcNode.FinalizedTransaction.blockHash := "final-block";
                      GrpcNode.FinalizedTransaction.summary := rejectedSummary |}).

(** The same transaction as the SDK of [ConcordiumClient] shows it. *)
Definition sdkBlockItem (status : string) (rejectReason : option string)
    : Client.SdkBlockItemStatus.t :=
  {| Client.SdkBlockItemStatus.status := status;
     Client.SdkBlockItemStatus.outcome :=
       Some {| Client.SdkOutcome.summary :=
                 Some {| Client.SdkSummary.sender :=
                           Some {| Client.AccountAddress.address := Some "sender" |};
                         Client.SdkSummary.transfer :=
                           Some {| Client.SdkTransfer.to :=
                                     Some {| Client.AccountAddress.address :=
                                               Some "recipient" |};
                                   Client.SdkTransfer.amount :=
                                     Some {| Client.CcdAmount.microCcdAmount :=
                                               Some 1000000 |} |};
                         Client.SdkSummary.rejectReason := rejectReason |} |} |}.

End Ledgers.

From Stdlib Require DecimalZ DecimalPos.

(* ===================================================================== *)
(** ** Further contracts of the schemes *)
(* ===================================================================== *)

Module Soundness.
Import Matcher.

(** What a settlement that was returned allows to conclude, for a scheme
    whose client is spied on. *)
Definition SettlementJustified {W} (client : ConcordiumNodeClient W)
    (requireFinalization : bool) (timeoutMs : Z) (i : Inputs)
    (verifyRun : Async (W * list Call) VerifyResponse)
    (settleRun : Async (W * list Call) SettleResponse) : Prop :=
  forall w calls s w2 calls2,
    settleRun (w, calls) = Some (Returned s, (w2, calls2)) ->
    transaction s = claimedTxHash i
    /\ sr_payer s = claimedSender i
    /\ sr_network s = payloadNetwork i
    /\ (success s = true ->
        errorReason s = None
        /\ exists vr w1 calls1,
            verifyRun (w, calls) = Some (Returned vr, (w1, calls1))
            /\ isValid vr = true
            /\ (requireFinalization = true ->
                exists finalizedTx,
                  waitForFinalization client (claimedTxHash i) (Some timeoutMs) w1
                  = Some (Returned (Some finalizedTx), w2)
                  /\ ConcordiumTransactionInfo.status finalizedTx = finalized))
    /\ (success s = false -> exists reason, errorReason s = Some reason).

(** A snapshot on which the two schemes read the same last two checks. *)
Definition fullyDescribed (tx : ConcordiumTransactionInfo.t) : bool :=
  truthy_opt (ConcordiumTransactionInfo.amount tx)
  && match ConcordiumTransactionInfo.asset tx with
     | Some _ => true
     | None => false
     end.

End Soundness.

(** Readings of a block item status. *)
Module Raw.

(** [status.outcome?.summary]. *)
Definition summaryOf (raw : GrpcNode.BlockItemStatus.t)
    : option GrpcNode.TransactionSummary.t :=
  match GrpcNode.BlockItemStatus.outcome raw with
  | Some oc => GrpcNode.TransactionOutcome.summary oc
  | None => None
  end.

(** The status the raw status stands for when nothing was rejected. *)
Definition plainStatus (sdkStatus : string) : TxStatus :=
  if (sdkStatus =? "committed")%string then committed
  else if (sdkStatus =? "finalized")%string then finalized
  else pending.

Definition rejected (summary : GrpcNode.TransactionSummary.t) : bool :=
  (GrpcNode.TransactionResult.outcome (GrpcNode.TransactionSummary.result summary)
   =? "reject")%string.

End Raw.

(** More ledgers for the simulated host. *)
Module Ledgers2.

(** A finalized transaction of which the node gives no outcome. *)
Definition bareFinalized : string -> Z -> Outcome (option GrpcNode.BlockItemStatus.t) :=
  fun _ _ =>
    Returned (Some {| GrpcNode.BlockItemStatus.status := "finalized";
                      GrpcNode.BlockItemStatus.outcome := None |}).

(** The summary of the test "should handle contract update (CIS-2)". *)
Definition contractUpdateSummary (sender : string) : GrpcNode.TransactionSummary.t :=
  {| GrpcNode.TransactionSummary.type := "update";
     GrpcNode.TransactionSummary.sender := sender;
     GrpcNode.TransactionSummary.result :=
       {| GrpcNode.TransactionResult.outcome := "success";
          GrpcNode.TransactionResult.rejectReason := None |};
     GrpcNode.TransactionSummary.transfer := None;
     GrpcNode.TransactionSummary.contractUpdate :=
       Some {| GrpcNode.ContractUpdate.address := "9390";
               GrpcNode.ContractUpdate.receiveName := "transfer";
               GrpcNode.ContractUpdate.events := Some [] |} |}.

Definition finalizedUpdate (sender : string)
    : string -> Z -> Outcome (option GrpcNode.BlockItemStatus.t) :=
  fun _ _ => Returned (Some (Ledgers.blockItem "finalized" (contractUpdateSummary sender))).

(** A scheme configuration over the gRPC node client of the simulated
    host. *)
Definition grpcConfig
    (ledger : string -> Z -> Outcome (option GrpcNode.BlockItemStatus.t))
    : Config Sim.World :=
  {| nodeClient := GrpcNode.createConcordiumNodeClient Sim.runtime
                     (Sim.grpc ledger None) 100;
     requireFinalization := true;
     finalizationTimeoutMs := 60000 |}.

End Ledgers2.

(* ===================================================================== *)
(** ** Decimal strings *)
(* ===================================================================== *)

Module Digits.

(** The number a run of decimal digits denotes, read after [acc]. *)
Fixpoint valueFrom (acc : Z) (d : Decimal.uint) : Z :=
  match d with
  | Decimal.Nil => acc
  | Decimal.D0 d => valueFrom (acc * 10 + 0) d
  | Decimal.D1 d => valueFrom (acc * 10 + 1) d
  | Decimal.D2 d => valueFrom (acc * 10 + 2) d
  | Decimal.D3 d => valueFrom (acc * 10 + 3) d
  | Decimal.D4 d => valueFrom (acc * 10 + 4) d
  | Decimal.D5 d => valueFrom (acc * 10 + 5) d
  | Decimal.D6 d => valueFrom (acc * 10 + 6) d
  | Decimal.D7 d => valueFrom (acc * 10 + 7) d
  | Decimal.D8 d => valueFrom (acc * 10 + 8) d
  | Decimal.D9 d => valueFrom (acc * 10 + 9) d
  end.

Fixpoint noWhiteSpace (s : string) : bool :=
  match s with
  | EmptyString => true
  | String c s' => negb (isStrWhiteSpaceChar c) && noWhiteSpace s'
  end.

End Digits.

(* ===================================================================== *)
(** ** What [ConcordiumClient] reads of a block item status *)
(* ===================================================================== *)

Module Readings.

Definition summaryOf (s : Client.SdkBlockItemStatus.t) : option Client.SdkSummary.t :=
  Client.chain (Client.SdkBlockItemStatus.outcome s) Client.SdkOutcome.summary.

(** [s.outcome?.summary?.transfer?.to?.address ?? ""]. *)
Definition recipientOf (s : Client.SdkBlockItemStatus.t) : string :=
  nullish (Client.chain
             (Client.chain (Client.chain (summaryOf s) Client.SdkSummary.transfer)
                           Client.SdkTransfer.to)
             Client.AccountAddress.address) "".

(** [s.outcome?.summary?.transfer?.amount?.microCcdAmount]. *)
Definition microCcdOf (s : Client.SdkBlockItemStatus.t) : option Z :=
  Client.chain
    (Client.chain (Client.chain (summaryOf s) Client.SdkSummary.transfer)
                  Client.SdkTransfer.amount)
    Client.CcdAmount.microCcdAmount.

Definition included (s : Client.SdkBlockItemStatus.t) : bool :=
  (Client.SdkBlockItemStatus.status s =? "finalized")%string
  || (Client.SdkBlockItemStatus.status s =? "committed")%string.

(** The verdict of [verifyPayment] in terms of what the node said:
    validity and reason. *)
Definition paymentVerdict (blockStatus : option Client.SdkBlockItemStatus.t)
    (recipient : string) (minAmount : Z) : bool * option string :=
  match blockStatus with
  | None => (false, Some "pending")
  | Some s =>
      if negb (included s) then (false, Some "pending")
      else if (recipientOf s =? "")%string
              || negb (recipientOf s =? recipient)%string
           then (false, Some "recipient_mismatch")
           else if nullish (microCcdOf s) 0 <? minAmount
                then (false, Some "insufficient_amount")
                else (true, None)
  end.

End Readings.

(* ===================================================================== *)
(** ** More of JavaScript: upper case, splitting, [parseInt], objects *)
(* ===================================================================== *)

Module Js.

(** [String.prototype.toUpperCase] on code units below 256: a..z and the
    lower-case letters of the Latin-1 supplement (0xE0..0xFE without the
    division sign 0xF7) move down by 32, and the sharp s (0xDF) becomes
    "SS".  The micro sign (0xB5) and the y with diaeresis (0xFF) have
    their upper case outside the range; they are kept, and stand in an
    upper-cased string for that upper case, so that two strings of the
    range have equal upper case here exactly when they have in
    JavaScript. *)
Definition upper_char (c : ascii) : string :=
  let n := nat_of_ascii c in
  if ((97 <=? n) && (n <=? 122))%nat then String (ascii_of_nat (n - 32)) ""
  else if (n =? 223)%nat then "SS"
  else if ((224 <=? n) && (n <=? 254) && negb (n =? 247))%nat
       then String (ascii_of_nat (n - 32)) ""
       else String c "".

Fixpoint toUpperCase (s : string) : string :=
  match s with
  | EmptyString => EmptyString
  | String c s' => upper_char c ++ toUpperCase s'
  end.

(** [s.startsWith(p)]. *)
Definition startsWith (s p : string) : bool := String.prefix p s.

(** [s.split(sep)] for a separator of one character: never empty, the
    empty string gives one empty part. *)
Fixpoint split (sep : ascii) (s : string) : list string :=
  match s with
  | EmptyString => [EmptyString]
  | String c s' =>
      if Ascii.eqb c sep then EmptyString :: split sep s'
      else match split sep s' with
           | part :: parts => String c part :: parts
           | [] => [String c EmptyString]
           end
  end.

Fixpoint contains (sep : ascii) (s : string) : bool :=
  match s with
  | EmptyString => false
  | String c s' => Ascii.eqb c sep || contains sep s'
  end.

(** A number that holds an integer, or [NaN].  [Int z] is the number
    nearest to [z]: [z] itself as long as it is a safe integer. *)
Inductive JsInt : Type :=
| NaN
| Int (z : Z).

Definition isSafeInteger (z : Z) : Prop := - (2 ^ 53 - 1) <= z <= 2 ^ 53 - 1.

(** The longest run of decimal digits at the head of [s], read after
    [acc]; [seen] tells whether a digit has been read. *)
Fixpoint leadingDigits (seen : bool) (acc : Z) (s : string) : option Z :=
  match s with
  | EmptyString => if seen then Some acc else None
  | String c s' =>
      let n := nat_of_ascii c in
      if ((48 <=? n) && (n <=? 57))%nat
      then leadingDigits true (acc * 10 + (Z.of_nat n - 48)) s'
      else if seen then Some acc else None
  end.

(** [parseInt(s, 10)]: leading white space is skipped, a sign is read,
    then the longest run of decimal digits; no digit gives [NaN]. *)
Definition parseInt10 (s : string) : JsInt :=
  match trimStart s with
  | String "-" rest =>
      match leadingDigits false 0 rest with
      | Some v => Int (- v)
      | None => NaN
      end
  | String "+" rest =>
      match leadingDigits false 0 rest with
      | Some v => Int v
      | None => NaN
      end
  | rest =>
      match leadingDigits false 0 rest with
      | Some v => Int v
      | None => NaN
      end
  end.

(** [`${n}`] for a number holding a safe integer. *)
Definition Number_toString (z : Z) : string := BigInt_toString z.

(** A [TypeError], as the [Error] it is. *)
Definition TypeError (message : string) : JsError :=
  Error ("TypeError: " ++ message).

(** What [object[key]] gives on an object literal used as a table: an
    own property, a member inherited from [Object.prototype] (a function,
    or the prototype itself for [__proto__]: truthy, and without any of
    the fields of the table's values), or [undefined]. *)
Inductive Member (A : Type) : Type :=
| Own (a : A)
| Inherited (key : string)
| Absent.
Arguments Own {A} a.
Arguments Inherited {A} key.
Arguments Absent {A}.

Definition objectPrototypeKeys : list string :=
  [ "constructor"; "__defineGetter__"; "__defineSetter__"; "hasOwnProperty";
    "__lookupGetter__"; "__lookupSetter__"; "isPrototypeOf";
    "propertyIsEnumerable"; "toString"; "valueOf"; "__proto__";
    "toLocaleString" ].

Definition isInherited (key : string) : bool :=
  existsb (String.eqb key) objectPrototypeKeys.

Definition lookup {A} (table : list (string * A)) (key : string) : Member A :=
  match GrpcNode.Map_get table key with
  | Some a => Own a
  | None => if isInherited key then Inherited key else Absent
  end.

(** [a || b] on two lookups. *)
Definition orElse {A} (a b : Member A) : Member A :=
  match a with
  | Absent => b
  | _ => a
  end.

End Js.

(* ===================================================================== *)
(** ** Token registry ([config/tokens.ts]) *)
(* ===================================================================== *)

Module Tokens.

Module CIS2TokenConfig.
Record t : Type := mk {
  symbol : string;
  name : string;
  contractIndex : Z;
  contractSubindex : Z;
  tokenId : string;
  decimals : Z;
  type : string;
  issuer : option string
}.
End CIS2TokenConfig.

Module NetworkTokenRegistry.
Record t : Type := mk {
  network : string;
  nativeToken_symbol : string;
  nativeToken_decimals : Z;
  tokens : list CIS2TokenConfig.t
}.
End NetworkTokenRegistry.

Definition MAINNET_TOKENS : NetworkTokenRegistry.t :=
  {| NetworkTokenRegistry.network := "ccd:9dd9ca4d19e9393877d2c44b70f89acb";
     NetworkTokenRegistry.nativeToken_symbol := "CCD";
     NetworkTokenRegistry.nativeToken_decimals := 6;
     NetworkTokenRegistry.tokens :=
       [ {| CIS2TokenConfig.symbol := "EUROe";
            CIS2TokenConfig.name := "EUROe Stablecoin";
            CIS2TokenConfig.contractIndex := 9390;
            CIS2TokenConfig.contractSubindex := 0;
            CIS2TokenConfig.tokenId := "";
            CIS2TokenConfig.decimals := 6;
            CIS2TokenConfig.type := "stablecoin";
            CIS2TokenConfig.issuer := Some "Membrane Finance" |} ] |}.

Definition TESTNET_TOKENS : NetworkTokenRegistry.t :=
  {| NetworkTokenRegistry.network := "ccd:4221332d34e1694168c2a0c0b3fd0f27";
     NetworkTokenRegistry.nativeToken_symbol := "CCD";
     NetworkTokenRegistry.nativeToken_decimals := 6;
     NetworkTokenRegistry.tokens :=
       [ {| CIS2TokenConfig.symbol := "PLT";
            CIS2TokenConfig.name := "Platform token";
            CIS2TokenConfig.contractIndex := 7260;
            CIS2TokenConfig.contractSubindex := 0;
            CIS2TokenConfig.tokenId := "";
            CIS2TokenConfig.decimals := 6;
            CIS2TokenConfig.type := "platform";
            CIS2TokenConfig.issuer := None |} ] |}.

Definition TOKEN_REGISTRIES : list (string * NetworkTokenRegistry.t) :=
  [ (NetworkTokenRegistry.network MAINNET_TOKENS, MAINNET_TOKENS);
    (NetworkTokenRegistry.network TESTNET_TOKENS, TESTNET_TOKENS) ].

Definition TOKEN_REGISTRIES_V1 : list (string * NetworkTokenRegistry.t) :=
  [ ("concordium", MAINNET_TOKENS);
    ("concordium-testnet", TESTNET_TOKENS) ].

Definition getTokenRegistry (network : string) : Js.Member NetworkTokenRegistry.t :=
  Js.orElse (Js.lookup TOKEN_REGISTRIES network)
            (Js.lookup TOKEN_REGISTRIES_V1 network).

(** [registry.tokens] on what [getTokenRegistry] returned: a member
    inherited from [Object.prototype] has no [tokens], and calling a
    method on [undefined] throws. *)
Definition tokensOf (method : string) (registry : Js.Member NetworkTokenRegistry.t)
    : Outcome (option (list CIS2TokenConfig.t)) :=
  match registry with
  | Js.Absent => Returned None
  | Js.Own r => Returned (Some (NetworkTokenRegistry.tokens r))
  | Js.Inherited _ =>
      Thrown (Js.TypeError ("Cannot read properties of undefined (reading '"
                            ++ method ++ "')"))
  end.

Definition getTokenBySymbol (network symbol : string)
    : Outcome (option CIS2TokenConfig.t) :=
  let registry := getTokenRegistry network in
  match tokensOf "find" registry with
  | Thrown e => Thrown e
  | Returned None => Returned None
  | Returned (Some tokens) =>
      let upperSymbol := Js.toUpperCase symbol in
      Returned (find (fun t => (Js.toUpperCase (CIS2TokenConfig.symbol t)
                                =? upperSymbol)%string) tokens)
  end.

(** The contract index and subindex asked for are integers. *)
Definition getTokenByContract (network : string) (contractIndex : Z)
    (contractSubindex : option Z) : Outcome (option CIS2TokenConfig.t) :=
  let contractSubindex := nullish contractSubindex 0 in
  let registry := getTokenRegistry network in
  match tokensOf "find" registry with
  | Thrown e => Thrown e
  | Returned None => Returned None
  | Returned (Some tokens) =>
      Returned (find (fun t => (CIS2TokenConfig.contractIndex t =? contractIndex)
                               && (CIS2TokenConfig.contractSubindex t
                                   =? contractSubindex)) tokens)
  end.

Definition getStablecoins (network : string) : Outcome (list CIS2TokenConfig.t) :=
  let registry := getTokenRegistry network in
  match tokensOf "filter" registry with
  | Thrown e => Thrown e
  | Returned None => Returned []
  | Returned (Some tokens) =>
      Returned (filter (fun t => (CIS2TokenConfig.type t =? "stablecoin")%string)
                       tokens)
  end.

Definition formatAssetString (token : CIS2TokenConfig.t) : string :=
  Js.Number_toString (CIS2TokenConfig.contractIndex token) ++ ":"
  ++ Js.Number_toString (CIS2TokenConfig.contractSubindex token) ++ ":"
  ++ CIS2TokenConfig.tokenId token.

Record ParsedAsset : Type := {
  isNative : bool;
  contractIndex : option Js.JsInt;
  contractSubindex : option Js.JsInt;
  tokenId : option string
}.

Definition native : ParsedAsset :=
  {| isNative := true; contractIndex := None; contractSubindex := None;
     tokenId := None |}.

Definition parseAssetString (asset : string) : ParsedAsset :=
  if negb (truthy asset) || (asset =? "")%string then native
  else
    match Js.split ":" asset with
    | part0 :: part1 :: rest =>
        {| isNative := false;
           contractIndex := Some (Js.parseInt10 part0);
           contractSubindex := Some (Js.parseInt10 part1);
           tokenId := Some (or_empty (nth_error rest 0)) |}
    | _ => native
    end.

Definition isNativeCCD (asset : string) : bool :=
  negb (truthy asset) || (asset =? "")%string.

End Tokens.

(* ===================================================================== *)
(** ** Chain configuration ([config/chains.ts]) *)
(* ===================================================================== *)

Module Chains.

Module ConcordiumChainConfig.
Record t : Type := mk {
  name : string;
  networkId : string;
  network : string;
  v1Network : string;
  grpcUrl : string;
  grpcUrlFallbacks : option (list string);
  explorerUrl : string;
  nativeToken_symbol : string;
  nativeToken_decimals : Z;
  avgFinalitySeconds : Z
}.
End ConcordiumChainConfig.
Import ConcordiumChainConfig.

Definition CONCORDIUM_MAINNET : ConcordiumChainConfig.t :=
  {| name := "Concordium Mainnet";
     networkId := "mainnet";
     network := "ccd:9dd9ca4d19e9393877d2c44b70f89acb";
     v1Network := "concordium";
     grpcUrl := "grpc.mainnet.concordium.com:20000";
     grpcUrlFallbacks := Some ["grpc.mainnet.concordium.software:20000"];
     explorerUrl := "https://dashboard.mainnet.concordium.software";
     nativeToken_symbol := "CCD";
     nativeToken_decimals := 6;
     avgFinalitySeconds := 10 |}.

Definition CONCORDIUM_TESTNET : ConcordiumChainConfig.t :=
  {| name := "Concordium Testnet";
     networkId := "testnet";
     network := "ccd:4221332d34e1694168c2a0c0b3fd0f27";
     v1Network := "concordium-testnet";
     grpcUrl := "grpc.testnet.concordium.com:20000";
     grpcUrlFallbacks := Some ["grpc.testnet.concordium.software:20000"];
     explorerUrl := "https://dashboard.testnet.concordium.software";
     nativeToken_symbol := "CCD";
     nativeToken_decimals := 6;
     avgFinalitySeconds := 10 |}.

Definition CONCORDIUM_CHAINS : list (string * ConcordiumChainConfig.t) :=
  [ ("concordium", CONCORDIUM_MAINNET);
    ("concordium-testnet", CONCORDIUM_TESTNET) ].

Definition CONCORDIUM_CHAINS_BY_CAIP2 : list (string * ConcordiumChainConfig.t) :=
  [ (network CONCORDIUM_MAINNET, CONCORDIUM_MAINNET);
    (network CONCORDIUM_TESTNET, CONCORDIUM_TESTNET) ].

Definition getChainConfig (network : string) : Js.Member ConcordiumChainConfig.t :=
  match Js.lookup CONCORDIUM_CHAINS network with
  | Js.Absent =>
      match Js.lookup CONCORDIUM_CHAINS_BY_CAIP2 network with
      | Js.Absent =>
          if Js.startsWith network "ccd:" then Js.Absent else Js.Absent
      | found => found
      end
  | found => found
  end.

Definition getChainConfigOrThrow (network : string)
    : Outcome (Js.Member ConcordiumChainConfig.t) :=
  match getChainConfig network with
  | Js.Absent => Thrown (Error ("Unknown Concordium network: " ++ network))
  | config => Returned config
  end.

(** [config?.field] on a lookup: only an own entry has the field. *)
Definition field {A B} (f : A -> B) (config : Js.Member A) : option B :=
  match config with
  | Js.Own c => Some (f c)
  | _ => None
  end.

Definition v1ToV2Network (v1Network : string) : option string :=
  field network (Js.lookup CONCORDIUM_CHAINS v1Network).

Definition v2ToV1Network (v2Network : string) : option string :=
  field ConcordiumChainConfig.v1Network
        (Js.lookup CONCORDIUM_CHAINS_BY_CAIP2 v2Network).

(** [`${config.explorerUrl}`]: a member inherited from [Object.prototype]
    has no [explorerUrl], and the template prints [undefined]. *)
Definition explorerUrlOf (config : Js.Member ConcordiumChainConfig.t) : string :=
  match config with
  | Js.Own c => explorerUrl c
  | _ => "undefined"
  end.

Definition getExplorerTxUrl (network txHash : string) : option string :=
  match getChainConfig network with
  | Js.Absent => None
  | config => Some (explorerUrlOf config ++ "/transaction/" ++ txHash)
  end.

Definition getExplorerAccountUrl (network address : string) : option string :=
  match getChainConfig network with
  | Js.Absent => None
  | config => Some (explorerUrlOf config ++ "/account/" ++ address)
  end.

End Chains.

(* ===================================================================== *)
(** ** Building a [ConcordiumClient] ([client/concordium.client.ts]) *)
(* ===================================================================== *)

Module ClientSetup.

(** [ConcordiumClientConfig], as given to the constructor. *)
Record ConcordiumClientConfig : Type := {
  host : string;
  port : option Js.JsInt;
  useTls : option bool;
  timeoutMs : option Js.JsInt
}.

(** [Required<ConcordiumClientConfig>], as the client keeps it. *)
Record RequiredConfig : Type := {
  config_host : string;
  config_port : Js.JsInt;
  config_useTls : bool;
  config_timeoutMs : Js.JsInt
}.

Definition new_ConcordiumClient (config : ConcordiumClientConfig) : RequiredConfig :=
  {| config_host := host config;
     config_port := nullish (port config) (Js.Int 20000);
     config_useTls := nullish (useTls config) true;
     config_timeoutMs := nullish (timeoutMs config) (Js.Int 30000) |}.

(** [n || d] on numbers: [NaN] and zero are falsy. *)
Definition number_or (n d : Js.JsInt) : Js.JsInt :=
  match n with
  | Js.NaN => d
  | Js.Int 0 => d
  | _ => n
  end.

(** [parseInt(port, 10)] on a part of a split that may be missing:
    [undefined] is read as the string "undefined", which has no digit. *)
Definition parsePort (port : option string) : Js.JsInt :=
  match port with
  | Some p => Js.parseInt10 p
  | None => Js.parseInt10 "undefined"
  end.

Definition fromNetwork (network : string) : Outcome RequiredConfig :=
  match Chains.getChainConfig network with
  | Js.Absent => Thrown (Error ("Unknown network: " ++ network))
  | Js.Inherited _ =>
      Thrown (Js.TypeError "Cannot read properties of undefined (reading 'split')")
  | Js.Own chain =>
      let parts := Js.split ":" (Chains.ConcordiumChainConfig.grpcUrl chain) in
      (* [split] always gives a first part *)
      let host := hd EmptyString parts in
      let port := nth_error parts 1 in
      Returned (new_ConcordiumClient
                  {| host := host;
                     port := Some (number_or (parsePort port) (Js.Int 20000));
                     useTls := None;
                     timeoutMs := None |})
  end.

End ClientSetup.

(* ===================================================================== *)
(** ** Server scheme: the asset registry ([exact/server/scheme.ts]) *)
(* ===================================================================== *)

Module Server.

Module ConcordiumAssetInfo.
Record t : Type := mk {
  contractIndex : string;
  contractSubindex : string;
  tokenId : string;
  name : string;
  decimals : Z
}.
End ConcordiumAssetInfo.
Import ConcordiumAssetInfo.

Definition CCD_NATIVE : ConcordiumAssetInfo.t :=
  {| contractIndex := ""; contractSubindex := ""; tokenId := "";
     name := "CCD"; decimals := 6 |}.

(** [Map.prototype.set]: an entry with the key keeps its place and takes
    the value, a new key goes to the end. *)
Fixpoint Map_set {A} (m : list (string * A)) (key : string) (value : A)
    : list (string * A) :=
  match m with
  | [] => [(key, value)]
  | (k, v) :: m' =>
      if (k =? key)%string then (k, value) :: m'
      else (k, v) :: Map_set m' key value
  end.

Definition Map_keys {A} (m : list (string * A)) : list string := map fst m.

(** [this.assets], threaded through the calls that change it. *)
Definition Assets : Type := list (string * ConcordiumAssetInfo.t).

Definition new_assets : Assets := [].

Definition assetKey (network symbol : string) : string :=
  network ++ ":" ++ Js.toUpperCase symbol.

Definition registerAsset (assets : Assets) (network symbol : string)
    (asset : ConcordiumAssetInfo.t) : Assets :=
  let key := assetKey network symbol in
  Map_set assets key asset.

(** [scheme.registerAsset(...).registerAsset(...)]: the calls made on a
    scheme, in order, each with its network, symbol and asset. *)
Fixpoint registerAll (assets : Assets)
    (calls : list (string * string * ConcordiumAssetInfo.t)) : Assets :=
  match calls with
  | [] => assets
  | (network, symbol, asset) :: rest =>
      registerAll (registerAsset assets network symbol asset) rest
  end.

Definition getAsset (assets : Assets) (network symbol : string)
    : option ConcordiumAssetInfo.t :=
  match GrpcNode.Map_get assets (assetKey network symbol) with
  | Some exact => Some exact
  | None => GrpcNode.Map_get assets (assetKey "ccd:*" symbol)
  end.

(** [Array.prototype.pop] as an expression: the last element. *)
Fixpoint pop (parts : list string) : option string :=
  match parts with
  | [] => None
  | [part] => Some part
  | _ :: parts' => pop parts'
  end.

(** [[...new Set(symbols)]]: first occurrences, in order. *)
Fixpoint distinct (seen symbols : list string) : list string :=
  match symbols with
  | [] => []
  | symbol :: rest =>
      if existsb (String.eqb symbol) seen then distinct seen rest
      else symbol :: distinct (symbol :: seen) rest
  end.

Definition listRegisteredSymbols (assets : Assets) (network : string)
    : list string :=
  let symbols :=
    flat_map (fun key =>
      if Js.startsWith key (network ++ ":") || Js.startsWith key "ccd:*:"
      then match pop (Js.split ":" key) with
           | Some symbol => if truthy symbol then [symbol] else []
           | None => []
           end
      else []) (Map_keys assets) in
  distinct [] symbols.

(** A value of type [unknown], as far as [resolveAsset] looks at it: a
    string, or something else with its [typeof] and its truthiness. *)
Inductive Unknown : Type :=
| Str (s : string)
| NotString (typeofName : string) (isTruthy : bool).

Definition quote : string := String "034"%char EmptyString.

(** [extraAsset] is [extra?.asset]: [None] when there is no [extra] or no
    [asset] in it. *)
Definition resolveAsset (assets : Assets) (network : string)
    (extraAsset : option Unknown) : Outcome ConcordiumAssetInfo.t :=
  match extraAsset with
  | None => Returned CCD_NATIVE
  | Some (NotString typeofName isTruthy) =>
      if negb isTruthy then Returned CCD_NATIVE
      else Thrown (Error ("extra.asset must be a string symbol. Got: "
                          ++ typeofName))
  | Some (Str symbol) =>
      if negb (truthy symbol) then Returned CCD_NATIVE
      else if (Js.toUpperCase symbol =? "CCD")%string then Returned CCD_NATIVE
      else
        match getAsset assets network symbol with
        | Some asset => Returned asset
        | None =>
            let registered := listRegisteredSymbols assets network in
            Thrown (Error
              ("Unknown asset " ++ quote ++ symbol ++ quote ++ " on "
               ++ network ++ ". "
               ++ "Registered: CCD"
               ++ (match registered with
                   | [] => ""
                   | _ => ", " ++ String.concat ", " registered
                   end) ++ ". "
               ++ "Use registerAsset() to add."))
        end
  end.

(** The asset string [parsePriceWithExtra] builds from the resolved
    asset. *)
Definition assetString (asset : ConcordiumAssetInfo.t) : string :=
  if truthy (contractIndex asset)
  then contractIndex asset ++ ":" ++ contractSubindex asset ++ ":"
       ++ tokenId asset
  else "".

(** The asset of the example in the documentation of [registerAsset]. *)
Definition EUROe : ConcordiumAssetInfo.t :=
  {| contractIndex := "9390"; contractSubindex := "0"; tokenId := "";
     name := "EUROe Stablecoin"; decimals := 6 |}.

End Server.

(* ===================================================================== *)
(** ** The V1 client scheme ([exact/v1/client/scheme.ts]) *)
(* ===================================================================== *)

Module ClientV1.

(** What the wallet's callback resolves with. *)
Record Broadcast : Type := {
  txHash : string;
  sender : string;
  blockHash : option string
}.

(** The configuration of the client scheme, as [createPaymentPayload]
    uses it: the callback that pays from the wallet, called with the
    recipient, the amount and the asset. *)
Record ExactConcordiumSchemeConfig (W : Type) : Type := {
  createAndBroadcastTransaction :
    string -> string -> option string -> Async W Broadcast
}.
Arguments createAndBroadcastTransaction {W} _ _ _ _.

Definition createPaymentPayload {W} (config : ExactConcordiumSchemeConfig W)
    (x402Version : Z) (requirementsV1 : PaymentRequirementsV1.t)
    : Async W PaymentPayloadV1.t :=
  (broadcast <- createAndBroadcastTransaction config
                  (PaymentRequirementsV1.payTo requirementsV1)
                  (PaymentRequirementsV1.maxAmountRequired requirementsV1)
                  (PaymentRequirementsV1.asset requirementsV1) ;;
   let payload :=
     {| ExactConcordiumPayload.txHash := txHash broadcast;
        ExactConcordiumPayload.sender := sender broadcast;
        ExactConcordiumPayload.blockHash := blockHash broadcast |} in
   ret {| PaymentPayloadV1.x402Version := x402Version;
          PaymentPayloadV1.scheme := PaymentRequirementsV1.scheme requirementsV1;
          PaymentPayloadV1.network := PaymentRequirementsV1.network requirementsV1;
          PaymentPayloadV1.payload := payload |})%async.

End ClientV1.

Module Wallets.

(** A wallet whose transaction is the one of the fixtures. *)
Definition fixture : ClientV1.ExactConcordiumSchemeConfig unit :=
  {| ClientV1.createAndBroadcastTransaction := fun _payTo _amount _asset =>
       ret {| ClientV1.txHash := "abc123";
              ClientV1.sender := Fixtures.CLIENT_ADDRESS;
              ClientV1.blockHash := None |} |}.

End Wallets.

(* ===================================================================== *)
(** ** Properties *)
(* ===================================================================== *)

Import Matcher.

Example BigInt_examples :
  StringToBigInt "1000000" = Some 1000000 /\
  StringToBigInt "  42 " = Some 42 /\
  StringToBigInt "" = Some 0 /\
  StringToBigInt "-7" = Some (-7) /\
  StringToBigInt "0x1F" = Some 31 /\
  StringToBigInt "abc" = None /\
  StringToBigInt "1.5" = None /\
  StringToBigInt "-0x10" = None /\
  StringToBigInt "+" = None /\
  BigInt_toString 1000000 = "1000000" /\
  BigInt_toString 0 = "0" /\
  BigInt_toString (-5) = "-5" /\
  toLowerCase "3kBx2H" = "3kbx2h".
Proof. repeat split; reflexivity. Qed.

Lemma TxStatus_eqb_spec a b : reflect (a = b) (TxStatus_eqb a b).
Proof. destruct a, b; constructor; congruence. Qed.

(** *** [firstFailure] is "the first check that does not pass" *)

Lemma firstFailure_allPass payer cs :
  allPass cs = true -> firstFailure payer cs = Returned (valid payer).
Proof.
  induction cs as [|[reason r] cs IH]; simpl; [reflexivity|].
  destruct r; simpl; try discriminate. exact IH.
Qed.

Lemma firstFailure_app_pass payer pre post :
  allPass pre = true ->
  firstFailure payer (pre ++ post) = firstFailure payer post.
Proof.
  induction pre as [|[reason r] pre IH]; simpl; [reflexivity|].
  destruct r; simpl; try discriminate. exact IH.
Qed.

Lemma firstFailure_app_stop payer pre post :
  allPass pre = false ->
  firstFailure payer (pre ++ post) = firstFailure payer pre.
Proof.
  induction pre as [|[reason r] pre IH]; simpl; [discriminate|].
  destruct r; simpl; auto.
Qed.

Lemma firstFailure_valid payer cs r :
  firstFailure payer cs = Returned r -> isValid r = true ->
  invalidReason r = None /\ allPass cs = true.
Proof.
  induction cs as [|[reason c] cs IH]; simpl.
  - intros [= <-] _. split; reflexivity.
  - destruct c; simpl; intros H Hv.
    + apply IH; assumption.
    + injection H as <-. discriminate.
    + discriminate.
Qed.

(** *** Running the schemes *)

(** Case analysis on the innermost test of the goal. *)
Ltac case_atom b :=
  lazymatch b with
  | negb ?c => case_atom c
  | andb ?c _ => case_atom c
  | orb ?c _ => case_atom c
  | (if ?c then _ else _) => case_atom c
  | match ?c with _ => _ end => case_atom c
  | _ => destruct b eqn:?
  end.

Ltac step :=
  match goal with
  | |- context [if ?b then _ else _] => case_atom b
  | |- context [match ?x with _ => _ end] => case_atom x
  end; simpl in *; try discriminate; try reflexivity.

Lemma verifyV2_unfold W (config : Config W) payload requirements w :
  let i := inputsV2 payload requirements in
  Facilitator.verify config payload requirements w =
    if allPass (envelopeChecks i) then
      match getTransactionStatus (nodeClient config) (claimedTxHash i) w with
      | Some (lookup, w') =>
          Some (firstFailure (claimedSender i)
                  (checksV2 (requireFinalization config) i lookup), w')
      | None => None
      end
    else Some (firstFailure (claimedSender i) (envelopeChecks i), w).
Proof.
  unfold Facilitator.verify, checksV2, envelopeChecks, ledgerChecks, allPass,
    amountCheckV2, assetCheckV2, assetsAgree, compareAmounts, onSnapshot,
    passes, strict_neq, bind, attempt, ret, lift; simpl.
  repeat step.
Qed.

Lemma verifyV1_unfold W (config : Config W) payloadV1 requirementsV1 w :
  let i := inputsV1 payloadV1 requirementsV1 in
  FacilitatorV1.verify config payloadV1 requirementsV1 w =
    if allPass (envelopeChecks i) then
      match getTransactionStatus (nodeClient config) (claimedTxHash i) w with
      | Some (lookup, w') =>
          Some (firstFailure (claimedSender i)
                  (checksV1 (requireFinalization config) i lookup), w')
      | None => None
      end
    else Some (firstFailure (claimedSender i) (envelopeChecks i), w).
Proof.
  unfold FacilitatorV1.verify, checksV1, envelopeChecks, ledgerChecks, allPass,
    amountCheckV1, assetCheckV1, assetsAgree, compareAmounts, onSnapshot,
    passes, strict_neq, bind, attempt, ret, lift; simpl.
  repeat step.
Qed.

(** *** C1: the order of the checks *)

(** C1.  For every payload/requirements pair, for the V2 scheme and for
    the V1 scheme alike, the outcome of [verify] is the outcome of going
    through the checks in the fixed order scheme tag, network, (lookup),
    snapshot existence, failed state, pending state, finalization
    requirement, sender, recipient, amount, asset, and stopping at the
    first one that does not pass: the reason returned is the tag of that
    check, and [isValid = true], with no reason, is returned only when
    every check passes.  The first two checks are decided without asking
    the ledger. *)
Theorem verify_checks_in_fixed_order :
  forall (W : Type) (config : Config W) (w : W),
    (forall payload requirements,
        let i := inputsV2 payload requirements in
        Facilitator.verify config payload requirements w =
          if allPass (envelopeChecks i) then
            match getTransactionStatus (nodeClient config) (claimedTxHash i) w with
            | Some (lookup, w') =>
                Some (firstFailure (claimedSender i)
                        (checksV2 (requireFinalization config) i lookup), w')
            | None => None
            end
          else Some (firstFailure (claimedSender i) (envelopeChecks i), w))
    /\ (forall payloadV1 requirementsV1,
        let i := inputsV1 payloadV1 requirementsV1 in
        FacilitatorV1.verify config payloadV1 requirementsV1 w =
          if allPass (envelopeChecks i) then
            match getTransactionStatus (nodeClient config) (claimedTxHash i) w with
            | Some (lookup, w') =>
                Some (firstFailure (claimedSender i)
                        (checksV1 (requireFinalization config) i lookup), w')
            | None => None
            end
          else Some (firstFailure (claimedSender i) (envelopeChecks i), w))
    /\ (forall rf i lookup,
        map fst (checksV2 rf i lookup) = reasonsInOrder
        /\ map fst (checksV1 rf i lookup) = reasonsInOrder)
    /\ (forall payer passed reason rest,
        allPass passed = true ->
        firstFailure payer (passed ++ (reason, Fail) :: rest)
        = Returned (invalid reason payer))
    /\ (forall payer checks r,
        firstFailure payer checks = Returned r -> isValid r = true ->
        invalidReason r = None /\ allPass checks = true)
    /\ (forall payer checks,
        allPass checks = true -> firstFailure payer checks = Returned (valid payer)).
Proof.
  intros W config w. repeat split.
  - intros. apply verifyV2_unfold.
  - intros. apply verifyV1_unfold.
  - intros payer passed reason rest Hp.
    rewrite firstFailure_app_pass by assumption. reflexivity.
  - eapply firstFailure_valid; eassumption.
  - eapply firstFailure_valid; eassumption.
  - intros. apply firstFailure_allPass. assumption.
Qed.

(** A snapshot that is wrong in its sender, its amount and its asset at
    once is reported for its sender, the earliest of the three. *)
Lemma verify_checks_in_fixed_order_witness :
  Facilitator.verify
    (Fixtures.mockConfig
       (Fixtures.withSender "someone-else"
          (Fixtures.withAmount (Some "5")
             (Fixtures.withAsset (Some "9390:0:") Fixtures.validTxInfo))) true)
    Fixtures.validPayload Fixtures.validRequirements tt
  = Some (Returned (invalid "sender_mismatch" Fixtures.CLIENT_ADDRESS), tt)
  /\ firstFailure "payer" ([("first", Pass)] ++ ("second", Fail) :: [("third", Fail)])
     = Returned (invalid "second" "payer")
  /\ (invalidReason (valid "payer") = None
      /\ allPass [("first", Pass); ("second", Pass)] = true)
  /\ firstFailure "payer" [("first", Pass); ("second", Pass)]
     = Returned (valid "payer").
Proof.
  destruct (verify_checks_in_fixed_order unit
              (Fixtures.mockConfig
                 (Fixtures.withSender "someone-else"
                    (Fixtures.withAmount (Some "5")
                       (Fixtures.withAsset (Some "9390:0:") Fixtures.validTxInfo))) true)
              tt) as (HV2 & _ & _ & Hstop & Hvalid & Hall).
  split; [|split; [|split]].
  - rewrite HV2. vm_compute. reflexivity.
  - apply Hstop. reflexivity.
  - apply (Hvalid "payer" [("first", Pass); ("second", Pass)] (valid "payer"));
      reflexivity.
  - apply Hall. reflexivity.
Defined.

(** *** The calls [verify] makes *)

Lemma lookups_snoc calls txHash :
  lookups (calls ++ [GetTransactionStatusCall txHash]) = (lookups calls + 1)%nat.
Proof.
  unfold lookups. rewrite filter_app, length_app. reflexivity.
Qed.

Lemma waits_snoc_lookup calls txHash :
  waits (calls ++ [GetTransactionStatusCall txHash]) = waits calls.
Proof.
  unfold waits. rewrite filter_app, length_app. simpl. lia.
Qed.

Lemma spied_lookup W (client : ConcordiumNodeClient W) rf timeout txHash w calls :
  getTransactionStatus (nodeClient (spiedConfig client rf timeout)) txHash (w, calls) =
    match getTransactionStatus client txHash w with
    | Some (o, w') => Some (o, (w', (calls ++ [GetTransactionStatusCall txHash])%list))
    | None => None
    end.
Proof. reflexivity. Qed.

(** The run of V2 [verify] over a spied client. *)
Lemma verifyV2_spied W (client : ConcordiumNodeClient W) rf timeout
    payload requirements w calls :
  let i := inputsV2 payload requirements in
  Facilitator.verify (spiedConfig client rf timeout) payload requirements (w, calls) =
    if allPass (envelopeChecks i) then
      match getTransactionStatus client (claimedTxHash i) w with
      | Some (lookup, w') =>
          Some (firstFailure (claimedSender i) (checksV2 rf i lookup),
                (w', (calls ++ [GetTransactionStatusCall (claimedTxHash i)])%list))
      | None => None
      end
    else Some (firstFailure (claimedSender i) (envelopeChecks i), (w, calls)).
Proof.
  intros i. rewrite verifyV2_unfold. fold i.
  destruct (allPass (envelopeChecks i)); [|reflexivity].
  rewrite spied_lookup.
  destruct (getTransactionStatus client (claimedTxHash i) w) as [[lookup w']|];
    reflexivity.
Qed.

Lemma verifyV1_spied W (client : ConcordiumNodeClient W) rf timeout
    payloadV1 requirementsV1 w calls :
  let i := inputsV1 payloadV1 requirementsV1 in
  FacilitatorV1.verify (spiedConfig client rf timeout) payloadV1 requirementsV1 (w, calls) =
    if allPass (envelopeChecks i) then
      match getTransactionStatus client (claimedTxHash i) w with
      | Some (lookup, w') =>
          Some (firstFailure (claimedSender i) (checksV1 rf i lookup),
                (w', (calls ++ [GetTransactionStatusCall (claimedTxHash i)])%list))
      | None => None
      end
    else Some (firstFailure (claimedSender i) (envelopeChecks i), (w, calls)).
Proof.
  intros i. rewrite verifyV1_unfold. fold i.
  destruct (allPass (envelopeChecks i)); [|reflexivity].
  rewrite spied_lookup.
  destruct (getTransactionStatus client (claimedTxHash i) w) as [[lookup w']|];
    reflexivity.
Qed.

(** The envelope checks never throw. *)
Lemma envelope_failure i :
  allPass (envelopeChecks i) = false ->
  exists reason,
    firstFailure (claimedSender i) (envelopeChecks i)
    = Returned (invalid reason (claimedSender i)).
Proof.
  unfold envelopeChecks, allPass, passes. simpl.
  destruct ((payloadScheme i =? "exact")%string
            && (requiredScheme i =? "exact")%string); simpl.
  - destruct (payloadNetwork i =? requiredNetwork i)%string; simpl;
      [discriminate|]. intros _. eexists. reflexivity.
  - intros _. eexists. reflexivity.
Qed.

Lemma firstFailure_invalid payer cs r :
  firstFailure payer cs = Returned r -> isValid r = false ->
  exists reason, r = invalid reason payer.
Proof.
  induction cs as [|[reason c] cs IH]; simpl.
  - intros [= <-]. discriminate.
  - destruct c; intros H Hv.
    + apply IH; assumption.
    + injection H as <-. eauto.
    + discriminate.
Qed.

Lemma verifyV2_spied_inv W (client : ConcordiumNodeClient W) rf timeout
    payload requirements w calls o w1 calls1 :
  let i := inputsV2 payload requirements in
  Facilitator.verify (spiedConfig client rf timeout) payload requirements (w, calls)
  = Some (o, (w1, calls1)) ->
  (exists cs, o = firstFailure (claimedSender i) cs)
  /\ (calls1 = calls
      \/ calls1 = (calls ++ [GetTransactionStatusCall (claimedTxHash i)])%list).
Proof.
  intros i. rewrite verifyV2_spied. fold i.
  destruct (allPass (envelopeChecks i)).
  - destruct (getTransactionStatus client (claimedTxHash i) w) as [[lookup w']|];
      [|discriminate].
    intros H. split; [exists (checksV2 rf i lookup) | right]; congruence.
  - intros H. split; [exists (envelopeChecks i) | left]; congruence.
Qed.

Lemma verifyV1_spied_inv W (client : ConcordiumNodeClient W) rf timeout
    payloadV1 requirementsV1 w calls o w1 calls1 :
  let i := inputsV1 payloadV1 requirementsV1 in
  FacilitatorV1.verify (spiedConfig client rf timeout) payloadV1 requirementsV1 (w, calls)
  = Some (o, (w1, calls1)) ->
  (exists cs, o = firstFailure (claimedSender i) cs)
  /\ (calls1 = calls
      \/ calls1 = (calls ++ [GetTransactionStatusCall (claimedTxHash i)])%list).
Proof.
  intros i. rewrite verifyV1_spied. fold i.
  destruct (allPass (envelopeChecks i)).
  - destruct (getTransactionStatus client (claimedTxHash i) w) as [[lookup w']|];
      [|discriminate].
    intros H. split; [exists (checksV1 rf i lookup) | right]; congruence.
  - intros H. split; [exists (envelopeChecks i) | left]; congruence.
Qed.

Lemma calls_after_verify calls calls1 txHash :
  calls1 = calls \/ calls1 = (calls ++ [GetTransactionStatusCall txHash])%list ->
  waits calls1 = waits calls /\ (lookups calls1 <= lookups calls + 1)%nat.
Proof.
  intros [->| ->].
  - split; [reflexivity | lia].
  - rewrite waits_snoc_lookup, lookups_snoc. split; [reflexivity | lia].
Qed.

(** A committed snapshot under the finality requirement. *)
Lemma committed_not_finalized i tx :
  allPass (envelopeChecks i) = true ->
  ConcordiumTransactionInfo.status tx = committed ->
  firstFailure (claimedSender i) (checksV2 true i (Returned (Some tx)))
  = Returned (invalid "transaction_not_finalized" (claimedSender i)).
Proof.
  intros He Hs. unfold checksV2.
  rewrite firstFailure_app_pass by assumption.
  unfold ledgerChecks, onSnapshot. simpl. rewrite Hs. reflexivity.
Qed.

(** *** C9: one lookup at most, and no waiting *)

(** C9 (as amended).  For every payload/requirements pair the V2 [verify]
    asks the ledger at most once and never calls [waitForFinalization]:
    it performs exactly one lookup when the scheme and network checks
    pass, and none at all when one of them fails (it then returns the
    failure without touching the client).  It settles as soon as the
    lookup does.  When finalization is required and the snapshot looked
    up is committed, it returns [transaction_not_finalized]. *)
Theorem verify_one_lookup_at_most_and_no_wait :
  forall (W : Type) (client : ConcordiumNodeClient W) (rf : bool) (timeout : Z)
         payload requirements (w : W) (calls : list Call),
    let i := inputsV2 payload requirements in
    let run := Facilitator.verify (spiedConfig client rf timeout)
                 payload requirements (w, calls) in
    (allPass (envelopeChecks i) = false ->
     exists reason,
       run = Some (Returned (invalid reason (claimedSender i)), (w, calls)))
    /\ (allPass (envelopeChecks i) = true ->
        forall lookup w',
          getTransactionStatus client (claimedTxHash i) w = Some (lookup, w') ->
          exists o,
            run = Some (o, (w', (calls ++ [GetTransactionStatusCall
                                             (claimedTxHash i)])%list)))
    /\ (forall o w' calls',
          run = Some (o, (w', calls')) ->
          waits calls' = waits calls
          /\ (lookups calls' <= lookups calls + 1)%nat)
    /\ (allPass (envelopeChecks i) = true -> rf = true ->
        forall tx w',
          getTransactionStatus client (claimedTxHash i) w
          = Some (Returned (Some tx), w') ->
          ConcordiumTransactionInfo.status tx = committed ->
          exists calls',
            run = Some (Returned (invalid "transaction_not_finalized"
                                    (claimedSender i)), (w', calls'))).
Proof.
  intros W client rf timeout payload requirements w calls i run.
  split; [|split; [|split]].
  - intros He. destruct (envelope_failure i He) as [reason Hr].
    exists reason. unfold run. rewrite verifyV2_spied. fold i.
    rewrite He, Hr. reflexivity.
  - intros He lookup w' Hl. unfold run. rewrite verifyV2_spied. fold i.
    rewrite He, Hl. eexists. reflexivity.
  - intros o w' calls' Hrun.
    apply (calls_after_verify calls calls' (claimedTxHash i)).
    exact (proj2 (verifyV2_spied_inv W client rf timeout payload requirements
                    w calls o w' calls' Hrun)).
  - intros He -> tx w' Hl Hs. unfold run. rewrite verifyV2_spied. fold i.
    rewrite He, Hl, (committed_not_finalized i tx He Hs).
    eexists. reflexivity.
Qed.

(** The committed snapshot of scenario D, and a payload of another
    scheme. *)
Lemma verify_one_lookup_at_most_and_no_wait_witness :
  (exists reason,
     Facilitator.verify
       (spiedConfig (GrpcNode.createMockConcordiumNodeClient
                       [("abc123", Fixtures.validTxInfo)]) true 60000)
       (Fixtures.accepting (Fixtures.withScheme "other" Fixtures.validRequirements))
       Fixtures.validRequirements (tt, [])
     = Some (Returned (invalid reason Fixtures.CLIENT_ADDRESS), (tt, [])))
  /\ (exists calls',
     Facilitator.verify
       (spiedConfig (GrpcNode.createMockConcordiumNodeClient
                       [("abc123", Fixtures.withStatus committed Fixtures.validTxInfo)])
                    true 60000)
       Fixtures.validPayload Fixtures.validRequirements (tt, [])
     = Some (Returned (invalid "transaction_not_finalized" Fixtures.CLIENT_ADDRESS),
             (tt, calls'))).
Proof.
  split.
  - apply (proj1 (verify_one_lookup_at_most_and_no_wait unit
             (GrpcNode.createMockConcordiumNodeClient
                [("abc123", Fixtures.validTxInfo)]) true 60000
             (Fixtures.accepting (Fixtures.withScheme "other" Fixtures.validRequirements))
             Fixtures.validRequirements tt [])).
    reflexivity.
  - apply (proj2 (proj2 (proj2 (verify_one_lookup_at_most_and_no_wait unit
             (GrpcNode.createMockConcordiumNodeClient
                [("abc123", Fixtures.withStatus committed Fixtures.validTxInfo)])
             true 60000 Fixtures.validPayload Fixtures.validRequirements tt [])))
           eq_refl eq_refl (Fixtures.withStatus committed Fixtures.validTxInfo) tt);
      reflexivity.
Defined.

(** C9 as stated fails: a payload whose scheme is not [exact] is turned
    down without any lookup, so "exactly one lookup for every pair" does
    not hold. *)
Lemma verify_exactly_one_lookup_counterexample :
  ~ (forall payload requirements o w' calls',
       Facilitator.verify
         (spiedConfig (GrpcNode.createMockConcordiumNodeClient
                         [("abc123", Fixtures.validTxInfo)]) true 60000)
         payload requirements (tt, []) = Some (o, (w', calls')) ->
       lookups calls' = 1%nat).
Proof.
  intros H.
  specialize (H (Fixtures.accepting
                   (Fixtures.withScheme "other" Fixtures.validRequirements))
                Fixtures.validRequirements
                (Returned (invalid "unsupported_scheme" Fixtures.CLIENT_ADDRESS))
                tt [] eq_refl).
  discriminate H.
Qed.

(** *** C3: settlement *)

Import Settlement.

Lemma settleV2_as_specified W (client : ConcordiumNodeClient W) rf timeout
    payload requirements :
  SettlesAsSpecified client rf timeout (inputsV2 payload requirements)
    (Facilitator.verify (spiedConfig client rf timeout) payload requirements)
    (Facilitator.settle (spiedConfig client rf timeout) payload requirements).
Proof.
  intros w calls vr w1 calls1 Hv.
  pose proof (verifyV2_spied_inv W client rf timeout payload requirements
                w calls _ _ _ Hv) as [[cs Hcs] Hcalls].
  apply calls_after_verify in Hcalls. destruct Hcalls as [Hwaits _].
  unfold Facilitator.settle, bind. rewrite Hv.
  split; [|split].
  - intros Hinv. rewrite Hinv. simpl.
    destruct (firstFailure_invalid _ _ _ (eq_sym Hcs) Hinv) as [reason ->].
    exists reason. repeat split; auto.
  - intros Hval ->. rewrite Hval. simpl. split; auto.
  - intros Hval -> waited w2 Hw. rewrite Hval. simpl.
    unfold attempt, recorded. simpl in Hw |- *. rewrite Hw.
    unfold afterWaiting, ret.
    destruct waited as [[finalizedTx|]|e]; try reflexivity.
    destruct (TxStatus_eqb (ConcordiumTransactionInfo.status finalizedTx) finalized);
      reflexivity.
Qed.

Lemma settleV1_as_specified W (client : ConcordiumNodeClient W) rf timeout
    payloadV1 requirementsV1 :
  SettlesAsSpecified client rf timeout (inputsV1 payloadV1 requirementsV1)
    (FacilitatorV1.verify (spiedConfig client rf timeout) payloadV1 requirementsV1)
    (FacilitatorV1.settle (spiedConfig client rf timeout) payloadV1 requirementsV1).
Proof.
  intros w calls vr w1 calls1 Hv.
  pose proof (verifyV1_spied_inv W client rf timeout payloadV1 requirementsV1
                w calls _ _ _ Hv) as [[cs Hcs] Hcalls].
  apply calls_after_verify in Hcalls. destruct Hcalls as [Hwaits _].
  unfold FacilitatorV1.settle, bind. rewrite Hv.
  split; [|split].
  - intros Hinv. rewrite Hinv. simpl.
    destruct (firstFailure_invalid _ _ _ (eq_sym Hcs) Hinv) as [reason ->].
    exists reason. repeat split; auto.
  - intros Hval ->. rewrite Hval. simpl. split; auto.
  - intros Hval -> waited w2 Hw. rewrite Hval. simpl.
    unfold attempt, recorded. simpl in Hw |- *. rewrite Hw.
    unfold afterWaiting, ret.
    destruct waited as [[finalizedTx|]|e]; try reflexivity.
    destruct (TxStatus_eqb (ConcordiumTransactionInfo.status finalizedTx) finalized);
      reflexivity.
Qed.

(** C3.  For every payload/requirements pair, in the V2 and in the V1
    scheme: [settle] begins with the run of [verify]; when that run
    returns an invalid verdict, [settle] returns [success = false] with
    the verdict's reason as [errorReason] and [waitForFinalization] is not
    called; when the verdict is valid and finality is not required it
    returns [success = true] at once; when finality is required it calls
    [waitForFinalization] once with the configured timeout and returns
    [finalization_timeout] if that returns nothing or a snapshot that is
    not finalized, [finalization_failed] if it throws, and otherwise
    [success = true]; every settlement carries the transaction id and the
    payer.  A [verify] that throws or does not settle makes [settle] do
    the same. *)
Theorem settle_follows_verify_then_waits :
  forall (W : Type) (client : ConcordiumNodeClient W) (rf : bool) (timeout : Z),
    (forall payload requirements,
        SettlesAsSpecified client rf timeout (inputsV2 payload requirements)
          (Facilitator.verify (spiedConfig client rf timeout) payload requirements)
          (Facilitator.settle (spiedConfig client rf timeout) payload requirements))
    /\ (forall payloadV1 requirementsV1,
        SettlesAsSpecified client rf timeout (inputsV1 payloadV1 requirementsV1)
          (FacilitatorV1.verify (spiedConfig client rf timeout) payloadV1 requirementsV1)
          (FacilitatorV1.settle (spiedConfig client rf timeout) payloadV1 requirementsV1))
    /\ (forall payload requirements s,
        match Facilitator.verify (spiedConfig client rf timeout) payload requirements s with
        | Some (Returned _, _) => True
        | Some (Thrown e, s') =>
            Facilitator.settle (spiedConfig client rf timeout) payload requirements s
            = Some (Thrown e, s')
        | None =>
            Facilitator.settle (spiedConfig client rf timeout) payload requirements s
            = None
        end)
    /\ (forall i ok reason,
        transaction (settlement i ok reason) = claimedTxHash i
        /\ sr_payer (settlement i ok reason) = claimedSender i).
Proof.
  intros W client rf timeout. split; [|split; [|split]].
  - intros. apply settleV2_as_specified.
  - intros. apply settleV1_as_specified.
  - intros payload requirements s. unfold Facilitator.settle, bind.
    destruct (Facilitator.verify _ payload requirements s) as [[[vr|e] s']|];
      auto.
  - intros. split; reflexivity.
Qed.

(** Scenario D of the specification: the snapshot is finalized by the
    time [settle] runs, and the mock's [waitForFinalization] confirms
    it. *)
Lemma settle_follows_verify_then_waits_witness :
  Facilitator.settle
    (spiedConfig (GrpcNode.createMockConcordiumNodeClient
                    [("abc123", Fixtures.validTxInfo)]) true 60000)
    Fixtures.validPayload Fixtures.validRequirements (tt, [])
  = Some (Returned
            (settlement (inputsV2 Fixtures.validPayload Fixtures.validRequirements)
               true None),
          (tt, [GetTransactionStatusCall "abc123";
                WaitForFinalizationCall "abc123" (Some 60000)])).
Proof.
  apply (proj2 (proj2
           (proj1 (settle_follows_verify_then_waits unit
                     (GrpcNode.createMockConcordiumNodeClient
                        [("abc123", Fixtures.validTxInfo)]) true 60000)
                  Fixtures.validPayload Fixtures.validRequirements
                  tt [] (valid Fixtures.CLIENT_ADDRESS) tt
                  [GetTransactionStatusCall "abc123"] eq_refl))
         eq_refl eq_refl (Returned (Some Fixtures.validTxInfo)) tt eq_refl).
Defined.

(** *** The last two checks *)

Lemma reachesAmountCheck_inv rf i tx :
  reachesAmountCheck rf i tx = true ->
  allPass (envelopeChecks i) = true
  /\ allPass (ledgerChecks rf i (Returned (Some tx))) = true.
Proof. unfold reachesAmountCheck. apply andb_prop. Qed.

Lemma verifyV2_last_checks W (config : Config W) payload requirements w w' tx :
  let i := inputsV2 payload requirements in
  getTransactionStatus (nodeClient config) (claimedTxHash i) w
  = Some (Returned (Some tx), w') ->
  reachesAmountCheck (requireFinalization config) i tx = true ->
  Facilitator.verify config payload requirements w
  = Some (firstFailure (claimedSender i)
            [("insufficient_amount", amountCheckV2 i tx);
             ("asset_mismatch", assetCheckV2 i tx)], w').
Proof.
  intros i Hl Hr. apply reachesAmountCheck_inv in Hr. destruct Hr as [He Hc].
  rewrite verifyV2_unfold. fold i. rewrite He, Hl. unfold checksV2.
  rewrite !firstFailure_app_pass by assumption. reflexivity.
Qed.

Lemma verifyV1_last_checks W (config : Config W) payloadV1 requirementsV1 w w' tx :
  let i := inputsV1 payloadV1 requirementsV1 in
  getTransactionStatus (nodeClient config) (claimedTxHash i) w
  = Some (Returned (Some tx), w') ->
  reachesAmountCheck (requireFinalization config) i tx = true ->
  FacilitatorV1.verify config payloadV1 requirementsV1 w
  = Some (firstFailure (claimedSender i)
            [("insufficient_amount", amountCheckV1 i tx);
             ("asset_mismatch", assetCheckV1 i tx)], w').
Proof.
  intros i Hl Hr. apply reachesAmountCheck_inv in Hr. destruct Hr as [He Hc].
  rewrite verifyV1_unfold. fold i. rewrite He, Hl. unfold checksV1.
  rewrite !firstFailure_app_pass by assumption. reflexivity.
Qed.

Lemma truthy_nonempty s : s <> "" -> truthy s = true.
Proof.
  intros H. unfold truthy. destruct (String.eqb_spec s ""); [contradiction|reflexivity].
Qed.

Lemma compareAmounts_parsed paid required p r :
  StringToBigInt paid = Some p -> StringToBigInt required = Some r ->
  compareAmounts paid required = passes (negb (p <? r)).
Proof. intros Hp Hr. unfold compareAmounts, BigInt. rewrite Hp, Hr. reflexivity. Qed.

(** A fault leaves [verify] only through the amount comparison. *)
Lemma checksV2_fault rf i lookup payer e :
  firstFailure payer (checksV2 rf i lookup) = Thrown e ->
  exists tx paid,
    lookup = Returned (Some tx)
    /\ ConcordiumTransactionInfo.amount tx = Some paid
    /\ compareAmounts paid (requiredAmount i) = Fault e.
Proof.
  unfold checksV2, envelopeChecks, ledgerChecks, amountCheckV2, assetCheckV2,
    onSnapshot, passes.
  destruct lookup as [[tx|]|e0]; simpl;
    repeat (match goal with
            | |- context [if ?b then _ else _] => case_atom b
            | |- context [match ?x with _ => _ end] => case_atom x
            end; simpl; try discriminate).
  all: intros [= <-]; eauto.
Qed.

(** *** C4: faults escaping [verify] and [settle] *)

(** C4 (the code departs from it).  [verify] converts the two amount
    strings with [BigInt] outside of any [try]: on a requirement whose
    amount is not an integer literal (here "1.5"), or on a snapshot whose
    amount is not one (here "abc"), the conversion throws a [SyntaxError]
    that leaves [verify], and [settle] with it, in the V2 scheme and in
    the V1 scheme; no outcome record is returned. *)
Theorem verify_throws_on_malformed_amount :
  Facilitator.verify (Fixtures.mockConfig Fixtures.validTxInfo true)
    (Fixtures.accepting (Fixtures.requiring (Some "") "1.5"))
    (Fixtures.requiring (Some "") "1.5") tt
  = Some (Thrown (SyntaxError "Cannot convert 1.5 to a BigInt"), tt)
  /\ Facilitator.settle (Fixtures.mockConfig Fixtures.validTxInfo true)
       (Fixtures.accepting (Fixtures.requiring (Some "") "1.5"))
       (Fixtures.requiring (Some "") "1.5") tt
     = Some (Thrown (SyntaxError "Cannot convert 1.5 to a BigInt"), tt)
  /\ Facilitator.verify
       (Fixtures.mockConfig (Fixtures.withAmount (Some "abc") Fixtures.validTxInfo) true)
       Fixtures.validPayload Fixtures.validRequirements tt
     = Some (Thrown (SyntaxError "Cannot convert abc to a BigInt"), tt)
  /\ FacilitatorV1.verify
       (Fixtures.mockConfig (Fixtures.withAmount (Some "abc") Fixtures.validTxInfo) true)
       Fixtures.validPayloadV1 Fixtures.validRequirementsV1 tt
     = Some (Thrown (SyntaxError "Cannot convert abc to a BigInt"), tt)
  /\ FacilitatorV1.settle
       (Fixtures.mockConfig (Fixtures.withAmount (Some "abc") Fixtures.validTxInfo) true)
       Fixtures.validPayloadV1 Fixtures.validRequirementsV1 tt
     = Some (Thrown (SyntaxError "Cannot convert abc to a BigInt"), tt).
Proof. repeat split; vm_compute; reflexivity. Qed.

(** *** C5: the amount check *)

(** C5 as stated fails: the V1 scheme turns a snapshot without an amount
    down with [insufficient_amount], and the V2 scheme lets a snapshot
    whose amount is the empty string through although it reads as zero. *)
Lemma amount_check_counterexample :
  FacilitatorV1.verify
    (Fixtures.mockConfig (Fixtures.withAmount None Fixtures.validTxInfo) true)
    Fixtures.validPayloadV1 Fixtures.validRequirementsV1 tt
  = Some (Returned (invalid "insufficient_amount" Fixtures.CLIENT_ADDRESS), tt)
  /\ Facilitator.verify
       (Fixtures.mockConfig (Fixtures.withAmount (Some "") Fixtures.validTxInfo) true)
       Fixtures.validPayload Fixtures.validRequirements tt
     = Some (Returned (valid Fixtures.CLIENT_ADDRESS), tt).
Proof. split; vm_compute; reflexivity. Qed.

(** C5 (as amended).  For a snapshot that has passed every earlier check
    and carries a non-empty amount, both schemes compare the amount and
    the required amount as arbitrary-precision integers whenever both
    strings are integer literals: strictly less yields
    [insufficient_amount]; greater or equal passes the check, the verdict
    being the one of the asset check.  A snapshot whose amount is absent
    or empty skips the check in the V2 scheme, and fails with
    [insufficient_amount] in the V1 scheme. *)
Theorem amount_check_compares_integers :
  forall (W : Type) (config : Config W) (w w' : W)
         (tx : ConcordiumTransactionInfo.t),
    (forall payload requirements,
        let i := inputsV2 payload requirements in
        let run := Facilitator.verify config payload requirements w in
        let rest := Some (firstFailure (claimedSender i)
                            [("asset_mismatch", assetCheckV2 i tx)], w') in
        getTransactionStatus (nodeClient config) (claimedTxHash i) w
        = Some (Returned (Some tx), w') ->
        reachesAmountCheck (requireFinalization config) i tx = true ->
        (forall paid p r,
            ConcordiumTransactionInfo.amount tx = Some paid -> paid <> "" ->
            StringToBigInt paid = Some p ->
            StringToBigInt (requiredAmount i) = Some r ->
            (p < r -> run = Some (Returned (invalid "insufficient_amount"
                                              (claimedSender i)), w'))
            /\ (r <= p -> run = rest))
        /\ (ConcordiumTransactionInfo.amount tx = None
            \/ ConcordiumTransactionInfo.amount tx = Some "" -> run = rest))
    /\ (forall payloadV1 requirementsV1,
        let i := inputsV1 payloadV1 requirementsV1 in
        let run := FacilitatorV1.verify config payloadV1 requirementsV1 w in
        let rest := Some (firstFailure (claimedSender i)
                            [("asset_mismatch", assetCheckV1 i tx)], w') in
        getTransactionStatus (nodeClient config) (claimedTxHash i) w
        = Some (Returned (Some tx), w') ->
        reachesAmountCheck (requireFinalization config) i tx = true ->
        (forall paid p r,
            ConcordiumTransactionInfo.amount tx = Some paid -> paid <> "" ->
            StringToBigInt paid = Some p ->
            StringToBigInt (requiredAmount i) = Some r ->
            (p < r -> run = Some (Returned (invalid "insufficient_amount"
                                              (claimedSender i)), w'))
            /\ (r <= p -> run = rest))
        /\ (ConcordiumTransactionInfo.amount tx = None
            \/ ConcordiumTransactionInfo.amount tx = Some "" ->
            run = Some (Returned (invalid "insufficient_amount"
                                    (claimedSender i)), w'))).
Proof.
  intros W config w w' tx. split.
  - intros payload requirements i run rest Hl Hr. unfold run, rest.
    rewrite (verifyV2_last_checks W config payload requirements w w' tx Hl Hr).
    fold i. unfold amountCheckV2. split.
    + intros paid p r Ha Hne Hp Hq. rewrite Ha, (truthy_nonempty paid Hne).
      rewrite (compareAmounts_parsed _ _ p r Hp Hq). simpl.
      split; intros Hlt.
      * apply Z.ltb_lt in Hlt. rewrite Hlt. reflexivity.
      * apply Z.ltb_ge in Hlt. rewrite Hlt. reflexivity.
    + intros [-> | ->]; reflexivity.
  - intros payloadV1 requirementsV1 i run rest Hl Hr. unfold run, rest.
    rewrite (verifyV1_last_checks W config payloadV1 requirementsV1 w w' tx Hl Hr).
    fold i. unfold amountCheckV1. split.
    + intros paid p r Ha Hne Hp Hq. rewrite Ha, (truthy_nonempty paid Hne).
      rewrite (compareAmounts_parsed _ _ p r Hp Hq). simpl.
      split; intros Hlt.
      * apply Z.ltb_lt in Hlt. rewrite Hlt. reflexivity.
      * apply Z.ltb_ge in Hlt. rewrite Hlt. reflexivity.
    + intros [-> | ->]; reflexivity.
Qed.

(** Scenario B of the specification (500000 paid, 1000000 required), and
    the V1 scheme on a snapshot without an amount. *)
Lemma amount_check_compares_integers_witness :
  Facilitator.verify
    (Fixtures.mockConfig (Fixtures.withAmount (Some "500000") Fixtures.validTxInfo) true)
    Fixtures.validPayload Fixtures.validRequirements tt
  = Some (Returned (invalid "insufficient_amount" Fixtures.CLIENT_ADDRESS), tt)
  /\ FacilitatorV1.verify
       (Fixtures.mockConfig (Fixtures.withAmount None Fixtures.validTxInfo) true)
       Fixtures.validPayloadV1 Fixtures.validRequirementsV1 tt
     = Some (Returned (invalid "insufficient_amount" Fixtures.CLIENT_ADDRESS), tt).
Proof.
  split.
  - apply (proj1 (proj1 (proj1 (amount_check_compares_integers unit
             (Fixtures.mockConfig
                (Fixtures.withAmount (Some "500000") Fixtures.validTxInfo) true)
             tt tt (Fixtures.withAmount (Some "500000") Fixtures.validTxInfo))
             Fixtures.validPayload Fixtures.validRequirements eq_refl eq_refl)
           "500000" 500000 1000000 eq_refl
           (fun H : "500000" = "" => eq_ind "500000"
              (fun s => match s with EmptyString => False | String _ _ => True end)
              I "" H)
           eq_refl eq_refl)).
    reflexivity.
  - apply (proj2 (proj2 (amount_check_compares_integers unit
             (Fixtures.mockConfig (Fixtures.withAmount None Fixtures.validTxInfo) true)
             tt tt (Fixtures.withAmount None Fixtures.validTxInfo))
             Fixtures.validPayloadV1 Fixtures.validRequirementsV1 eq_refl eq_refl)).
    left. reflexivity.
Defined.

(** *** C6: the asset check *)

(** C6 as stated fails: in the V2 scheme a requirement naming a token is
    satisfied by a snapshot that carries no asset field at all. *)
Lemma asset_check_counterexample :
  Facilitator.verify
    (Fixtures.mockConfig (Fixtures.withAsset None Fixtures.validTxInfo) true)
    (Fixtures.accepting (Fixtures.requiring (Some "9390:0:") "1000000"))
    (Fixtures.requiring (Some "9390:0:") "1000000") tt
  = Some (Returned (valid Fixtures.CLIENT_ADDRESS), tt).
Proof. vm_compute. reflexivity. Qed.

(** C6 (as amended).  For a snapshot that has passed every earlier check,
    the amount check included: the V1 scheme compares
    [requirement.asset || ""] with [snapshot.asset || ""] by exact string
    equality, so that an absent or empty asset is the native one on both
    sides, a native requirement matches a snapshot whose asset is empty or
    absent, and any other difference is an [asset_mismatch]; the V2 scheme
    does the same when the snapshot has an asset field, and accepts,
    without comparing, a snapshot that has none. *)
Theorem asset_check_exact_equality :
  forall (W : Type) (config : Config W) (w w' : W)
         (tx : ConcordiumTransactionInfo.t),
    (forall payloadV1 requirementsV1,
        let i := inputsV1 payloadV1 requirementsV1 in
        getTransactionStatus (nodeClient config) (claimedTxHash i) w
        = Some (Returned (Some tx), w') ->
        reachesAmountCheck (requireFinalization config) i tx = true ->
        amountCheckV1 i tx = Pass ->
        FacilitatorV1.verify config payloadV1 requirementsV1 w
        = Some (Returned (if (or_empty (requiredAsset i)
                              =? or_empty (ConcordiumTransactionInfo.asset tx))%string
                          then valid (claimedSender i)
                          else invalid "asset_mismatch" (claimedSender i)), w'))
    /\ (forall payload requirements,
        let i := inputsV2 payload requirements in
        getTransactionStatus (nodeClient config) (claimedTxHash i) w
        = Some (Returned (Some tx), w') ->
        reachesAmountCheck (requireFinalization config) i tx = true ->
        amountCheckV2 i tx = Pass ->
        Facilitator.verify config payload requirements w
        = Some (Returned
                  (match ConcordiumTransactionInfo.asset tx with
                   | Some _ =>
                       if (or_empty (requiredAsset i)
                           =? or_empty (ConcordiumTransactionInfo.asset tx))%string
                       then valid (claimedSender i)
                       else invalid "asset_mismatch" (claimedSender i)
                   | None => valid (claimedSender i)
                   end), w'))
    /\ (or_empty None = "" /\ or_empty (Some "") = ""
        /\ forall a, a <> "" -> or_empty (Some a) = a).
Proof.
  intros W config w w' tx. split; [|split].
  - intros payloadV1 requirementsV1 i Hl Hr Ha.
    rewrite (verifyV1_last_checks W config payloadV1 requirementsV1 w w' tx Hl Hr).
    fold i. simpl. rewrite Ha. unfold assetCheckV1, assetsAgree, passes.
    destruct (_ =? _)%string; reflexivity.
  - intros payload requirements i Hl Hr Ha.
    rewrite (verifyV2_last_checks W config payload requirements w w' tx Hl Hr).
    fold i. simpl. rewrite Ha. unfold assetCheckV2, assetsAgree, passes.
    destruct (ConcordiumTransactionInfo.asset tx); [|reflexivity].
    destruct (_ =? _)%string; reflexivity.
  - repeat split. intros a Ha. unfold or_empty.
    rewrite (truthy_nonempty a Ha). reflexivity.
Qed.

(** The native requirement against a snapshot without an asset field in
    the V1 scheme, and the "wrong asset" test of the V2 suite. *)
Lemma asset_check_exact_equality_witness :
  FacilitatorV1.verify
    (Fixtures.mockConfig (Fixtures.withAsset None Fixtures.validTxInfo) true)
    Fixtures.validPayloadV1 Fixtures.validRequirementsV1 tt
  = Some (Returned (valid Fixtures.CLIENT_ADDRESS), tt)
  /\ Facilitator.verify
       (Fixtures.mockConfig (Fixtures.withAsset (Some "9390:0:") Fixtures.validTxInfo) true)
       Fixtures.validPayload Fixtures.validRequirements tt
     = Some (Returned (invalid "asset_mismatch" Fixtures.CLIENT_ADDRESS), tt)
  /\ or_empty (Some "9390:0:") = "9390:0:".
Proof.
  split; [|split].
  - apply (proj1 (asset_check_exact_equality unit
             (Fixtures.mockConfig (Fixtures.withAsset None Fixtures.validTxInfo) true)
             tt tt (Fixtures.withAsset None Fixtures.validTxInfo))
             Fixtures.validPayloadV1 Fixtures.validRequirementsV1
             eq_refl eq_refl eq_refl).
  - apply (proj1 (proj2 (asset_check_exact_equality unit
             (Fixtures.mockConfig
                (Fixtures.withAsset (Some "9390:0:") Fixtures.validTxInfo) true)
             tt tt (Fixtures.withAsset (Some "9390:0:") Fixtures.validTxInfo)))
             Fixtures.validPayload Fixtures.validRequirements
             eq_refl eq_refl eq_refl).
  - apply (proj2 (proj2 (proj2 (asset_check_exact_equality unit
             (Fixtures.mockConfig Fixtures.validTxInfo true) tt tt
             Fixtures.validTxInfo)))).
    discriminate.
Defined.

(** *** C8: an absent record and a failed lookup *)

Lemma grpc_getTransactionStatus_unfold W
    (grpcClient : GrpcNode.ConcordiumGRPCClientLike W) txHash w :
  GrpcNode.getTransactionStatus grpcClient txHash w =
    match GrpcNode.getBlockItemStatus grpcClient txHash w with
    | Some (Returned (Some status), w') =>
        Some (Returned (Some (GrpcNode.mapTransactionStatus txHash status)), w')
    | Some (Returned None, w') => Some (Returned None, w')
    | Some (Thrown _, w') => Some (Returned None, w')
    | None => None
    end.
Proof.
  unfold GrpcNode.getTransactionStatus, bind, attempt, ret.
  destruct (GrpcNode.getBlockItemStatus grpcClient txHash w)
    as [[[[status|]|e] w']|]; reflexivity.
Qed.

(** C8 as stated fails: when the gRPC call throws, the node client built
    by [createConcordiumNodeClient] does not throw but reports the
    transaction absent, and [verify] over it answers
    [transaction_not_found]: the transport error and the missing record
    are not told apart. *)
Lemma lookup_error_reported_absent_counterexample :
  GrpcNode.getTransactionStatus (Sim.grpc Ledgers.unreachable None) "abc123" 0
  = Some (Returned None, 0)
  /\ Facilitator.verify
       {| nodeClient := GrpcNode.createConcordiumNodeClient Sim.runtime
                          (Sim.grpc Ledgers.unreachable None) 100;
          requireFinalization := true;
          finalizationTimeoutMs := 60000 |}
       Fixtures.validPayload Fixtures.validRequirements 0
     = Some (Returned (invalid "transaction_not_found" Fixtures.CLIENT_ADDRESS), 0).
Proof. split; vm_compute; reflexivity. Qed.

(** C8 (as amended).  [getTransactionStatus] of the gRPC node client
    never throws: it returns absent when the node has no record of the
    transaction and also when the gRPC call fails, and the mapped
    snapshot otherwise.  In [verify] of either scheme, once scheme and
    network have passed, a lookup that throws yields
    [transaction_lookup_failed] and a lookup that returns absent yields
    [transaction_not_found]. *)
Theorem lookup_absent_and_lookup_error :
  forall (W : Type),
    (forall (grpcClient : GrpcNode.ConcordiumGRPCClientLike W) txHash w,
        GrpcNode.getTransactionStatus grpcClient txHash w =
          match GrpcNode.getBlockItemStatus grpcClient txHash w with
          | Some (Returned (Some status), w') =>
              Some (Returned (Some (GrpcNode.mapTransactionStatus txHash status)), w')
          | Some (Returned None, w') => Some (Returned None, w')
          | Some (Thrown _, w') => Some (Returned None, w')
          | None => None
          end)
    /\ (forall (config : Config W) payload requirements w w',
        let i := inputsV2 payload requirements in
        allPass (envelopeChecks i) = true ->
        (forall e,
            getTransactionStatus (nodeClient config) (claimedTxHash i) w
            = Some (Thrown e, w') ->
            Facilitator.verify config payload requirements w
            = Some (Returned (invalid "transaction_lookup_failed"
                                (claimedSender i)), w'))
        /\ (getTransactionStatus (nodeClient config) (claimedTxHash i) w
            = Some (Returned None, w') ->
            Facilitator.verify config payload requirements w
            = Some (Returned (invalid "transaction_not_found"
                                (claimedSender i)), w')))
    /\ (forall (config : Config W) payloadV1 requirementsV1 w w',
        let i := inputsV1 payloadV1 requirementsV1 in
        allPass (envelopeChecks i) = true ->
        (forall e,
            getTransactionStatus (nodeClient config) (claimedTxHash i) w
            = Some (Thrown e, w') ->
            FacilitatorV1.verify config payloadV1 requirementsV1 w
            = Some (Returned (invalid "transaction_lookup_failed"
                                (claimedSender i)), w'))
        /\ (getTransactionStatus (nodeClient config) (claimedTxHash i) w
            = Some (Returned None, w') ->
            FacilitatorV1.verify config payloadV1 requirementsV1 w
            = Some (Returned (invalid "transaction_not_found"
                                (claimedSender i)), w'))).
Proof.
  intros W. split; [|split].
  - apply grpc_getTransactionStatus_unfold.
  - intros config payload requirements w w' i He. split.
    + intros e Hl. rewrite verifyV2_unfold. fold i. rewrite He, Hl.
      unfold checksV2. rewrite firstFailure_app_pass by assumption. reflexivity.
    + intros Hl. rewrite verifyV2_unfold. fold i. rewrite He, Hl.
      unfold checksV2. rewrite firstFailure_app_pass by assumption. reflexivity.
  - intros config payloadV1 requirementsV1 w w' i He. split.
    + intros e Hl. rewrite verifyV1_unfold. fold i. rewrite He, Hl.
      unfold checksV1. rewrite firstFailure_app_pass by assumption. reflexivity.
    + intros Hl. rewrite verifyV1_unfold. fold i. rewrite He, Hl.
      unfold checksV1. rewrite firstFailure_app_pass by assumption. reflexivity.
Qed.

(** Scenario C of the specification (the mock knows no transaction), and
    a client whose lookup throws. *)
Lemma lookup_absent_and_lookup_error_witness :
  Facilitator.verify
    {| nodeClient := GrpcNode.createMockConcordiumNodeClient [];
       requireFinalization := true; finalizationTimeoutMs := 60000 |}
    Fixtures.validPayload Fixtures.validRequirements tt
  = Some (Returned (invalid "transaction_not_found" Fixtures.CLIENT_ADDRESS), tt)
  /\ FacilitatorV1.verify
       {| nodeClient :=
            {| getTransactionStatus := fun _ w => Some (Thrown (Error "Network error"), w);
               waitForFinalization := fun _ _ w => Some (Returned None, w) |};
          requireFinalization := true; finalizationTimeoutMs := 60000 |}
       Fixtures.validPayloadV1 Fixtures.validRequirementsV1 tt
     = Some (Returned (invalid "transaction_lookup_failed" Fixtures.CLIENT_ADDRESS), tt).
Proof.
  split.
  - apply (proj2 (proj1 (proj2 (lookup_absent_and_lookup_error unit))
             {| nodeClient := GrpcNode.createMockConcordiumNodeClient [];
                requireFinalization := true; finalizationTimeoutMs := 60000 |}
             Fixtures.validPayload Fixtures.validRequirements tt tt eq_refl)).
    reflexivity.
  - apply (proj1 (proj2 (proj2 (lookup_absent_and_lookup_error unit))
             {| nodeClient :=
                  {| getTransactionStatus :=
                       fun _ w => Some (Thrown (Error "Network error"), w);
                     waitForFinalization := fun _ _ w => Some (Returned None, w) |};
                requireFinalization := true; finalizationTimeoutMs := 60000 |}
             Fixtures.validPayloadV1 Fixtures.validRequirementsV1 tt tt eq_refl)
           (Error "Network error")).
    reflexivity.
Defined.

(** *** C2: a rejection and the raw status *)

(** The mapping of [getTransactionStatus] does let the rejection win,
    whatever the raw status. *)
Lemma mapStatusEnum_rejected sdkStatus outcome :
  GrpcNode.isRejected outcome = true ->
  GrpcNode.mapStatusEnum sdkStatus outcome = failed.
Proof. intros H. unfold GrpcNode.mapStatusEnum. rewrite H. reflexivity. Qed.

Lemma mapTransactionStatus_rejected txHash status :
  GrpcNode.isRejected (GrpcNode.BlockItemStatus.outcome status) = true ->
  ConcordiumTransactionInfo.status (GrpcNode.mapTransactionStatus txHash status)
  = failed.
Proof.
  unfold GrpcNode.mapTransactionStatus, GrpcNode.isRejected.
  destruct (GrpcNode.BlockItemStatus.outcome status) as [oc|]; [|discriminate].
  destruct (GrpcNode.TransactionOutcome.summary oc) as [summary|]; [|discriminate].
  intros ->.
  destruct (GrpcNode.TransactionSummary.transfer summary);
    destruct (GrpcNode.TransactionSummary.contractUpdate summary); reflexivity.
Qed.

(** C2 (the code departs from it).  One finalized transaction that the
    ledger rejected ("Insufficient funds"), seen along each path:
    [getTransactionStatus] and the polling fallback of
    [waitForFinalization] report it [failed]; the subscription path of
    [waitForFinalization] reports it [finalized], with no error; and
    [ConcordiumClient.getTransactionStatus] reports it [finalized]
    too. *)
Theorem rejection_lost_on_subscription_path :
  option_map (fun r => fst r)
    (GrpcNode.getTransactionStatus (Sim.grpc Ledgers.rejectedFinalized None) "tx123" 0)
  = Some (Returned (Some
      {| ConcordiumTransactionInfo.txHash := "tx123";
         ConcordiumTransactionInfo.blockHash := "block123";
         ConcordiumTransactionInfo.status := failed;
         ConcordiumTransactionInfo.sender := "sender-addr";
         ConcordiumTransactionInfo.recipient := None;
         ConcordiumTransactionInfo.amount := None;
         ConcordiumTransactionInfo.asset := None;
         ConcordiumTransactionInfo.error := Some "Insufficient funds" |}))
  /\ option_map (fun r => fst r)
       (GrpcNode.waitForFinalization Sim.runtime
          (Sim.grpc Ledgers.rejectedFinalized None) 100 "tx123" (Some 5000) 0)
     = option_map (fun r => fst r)
         (GrpcNode.getTransactionStatus (Sim.grpc Ledgers.rejectedFinalized None)
            "tx123" 0)
  /\ option_map (fun r => fst r)
       (GrpcNode.waitForFinalization Sim.runtime
          (Sim.grpc Ledgers.rejectedFinalized (Some Ledgers.rejectedSubscription))
          100 "tx123" (Some 5000) 0)
     = Some (Returned (Some
         {| ConcordiumTransactionInfo.txHash := "tx123";
            ConcordiumTransactionInfo.blockHash := "final-block";
            ConcordiumTransactionInfo.status := finalized;
            ConcordiumTransactionInfo.sender := "sender-addr";
            ConcordiumTransactionInfo.recipient := None;
            ConcordiumTransactionInfo.amount := None;
            ConcordiumTransactionInfo.asset := None;
            ConcordiumTransactionInfo.error := None |}))
  /\ option_map (fun r => fst r)
       (Client.getTransactionStatus
          (Sim.sdk (fun _ _ => Returned (Some (Ledgers.sdkBlockItem "finalized"
                                                 (Some "Insufficient funds")))))
          "tx123" 0)
     = Some (Returned
         {| Client.TransactionInfo.txHash := "tx123";
            Client.TransactionInfo.status := finalized;
            Client.TransactionInfo.sender := "sender";
            Client.TransactionInfo.recipient := Some "recipient";
            Client.TransactionInfo.amount := Some "1000000";
            Client.TransactionInfo.contractIndex := None;
            Client.TransactionInfo.contractSubindex := None;
            Client.TransactionInfo.error := None |}).
Proof. repeat split; vm_compute; reflexivity. Qed.

(** *** C7: waiting for finality *)

Import Polling.

Lemma grpc_pollLoop_contract W (rt : Runtime W)
    (grpcClient : GrpcNode.ConcordiumGRPCClientLike W) txHash :
  PollingContract rt grpcTerminal
    (GrpcNode.getTransactionStatus grpcClient txHash)
    (fun fuel => GrpcNode.pollLoop rt grpcClient fuel txHash).
Proof.
  intros fuel start timeoutMs w. split; [reflexivity|split]; intros H; simpl.
  - apply Z.ltb_ge in H. rewrite H. reflexivity.
  - apply Z.ltb_lt in H. rewrite H. unfold bind, ret, sleep, grpcTerminal.
    destruct (GrpcNode.getTransactionStatus grpcClient txHash w)
      as [[[[info|]|e] w1]|]; try reflexivity.
    destruct (GrpcNode.isStatus finalized info); [reflexivity|].
    destruct (GrpcNode.isStatus failed info); reflexivity.
Qed.

Lemma client_waitLoop_contract W (rt : Runtime W) (client : Client.Sdk W) txHash :
  PollingContract rt clientTerminal (clientLookup client txHash)
    (fun fuel => Client.waitLoop rt client fuel txHash).
Proof.
  intros fuel start timeoutMs w. split; [reflexivity|split]; intros H; simpl.
  - apply Z.ltb_ge in H. rewrite H. reflexivity.
  - apply Z.ltb_lt in H. rewrite H.
    unfold clientLookup, bind, ret, sleep, clientTerminal.
    destruct (Client.getTransactionStatus client txHash w)
      as [[[info|e] w1]|]; try reflexivity.
    destruct (Client.isStatus finalized info || Client.isStatus failed info);
      reflexivity.
Qed.

Lemma polling_origin W I (rt : Runtime W) (terminal : I -> bool) lookup loop :
  PollingContract rt terminal lookup loop ->
  forall fuel start timeoutMs w r w',
    loop fuel start timeoutMs w = Some (r, w') ->
    Origin rt terminal lookup start timeoutMs r w'.
Proof.
  intros HC fuel start timeoutMs.
  induction fuel as [|fuel IH]; intros w r w' Hrun.
  - rewrite (proj1 (HC O start timeoutMs w)) in Hrun. discriminate.
  - destruct (HC fuel start timeoutMs w) as (_ & Hpast & Hbefore).
    destruct (Z_lt_le_dec (Date_now rt w - start) timeoutMs) as [Hlt|Hge].
    + rewrite (Hbefore Hlt) in Hrun.
      destruct (lookup w) as [[[[info|]|e] w1]|]; try discriminate.
      * destruct (terminal info) eqn:Ht.
        -- injection Hrun as <- <-. eapply TerminalSeen; eauto.
        -- eapply IH; eassumption.
      * injection Hrun as <- <-. apply AbsentSeen. reflexivity.
      * injection Hrun as <- <-. eapply LookupThrew. reflexivity.
    + rewrite (Hpast Hge) in Hrun. eapply DeadlinePassed; eassumption.
Qed.

Lemma rounds_step x x' :
  0 < x -> x' <= x - 2000 -> (rounds x' + 1 <= rounds x)%nat.
Proof.
  intros Hx Hx'. unfold rounds.
  assert (H1 : (x' + 1999) / 2000 <= (x + 1999) / 2000 - 1).
  { replace ((x + 1999) / 2000 - 1) with ((x - 2000 + 1999) / 2000).
    - apply Z.div_le_mono; lia.
    - replace (x - 2000 + 1999) with (x + 1999 + (-1) * 2000) by lia.
      rewrite Z.div_add by lia. lia. }
  assert (H2 : 1 <= (x + 1999) / 2000).
  { apply Z.div_le_lower_bound; lia. }
  lia.
Qed.

Lemma polling_terminates W I (rt : Runtime W) (terminal : I -> bool) lookup loop :
  PollingContract rt terminal lookup loop ->
  ClockAdvances rt -> Answers rt lookup ->
  forall fuel start timeoutMs w,
    (rounds (start + timeoutMs - Date_now rt w) < fuel)%nat ->
    exists r w', loop fuel start timeoutMs w = Some (r, w').
Proof.
  intros HC Hclock Hans fuel start timeoutMs.
  induction fuel as [|fuel IH]; intros w Hfuel; [lia|].
  destruct (HC fuel start timeoutMs w) as (_ & Hpast & Hbefore).
  destruct (Hans w) as (o & w1 & Hl & Hmono).
  destruct (Z_lt_le_dec (Date_now rt w - start) timeoutMs) as [Hlt|Hge].
  - rewrite (Hbefore Hlt), Hl.
    destruct o as [[info|]|e]; eauto.
    destruct (terminal info); eauto.
    apply IH.
    pose proof (Hclock 2000 w1) as Hs.
    pose proof (rounds_step (start + timeoutMs - Date_now rt w)
                  (start + timeoutMs - Date_now rt (setTimeout rt 2000 w1))
                  ltac:(lia) ltac:(lia)).
    lia.
  - rewrite (Hpast Hge), Hl. eauto.
Qed.

Lemma grpc_lookup_answers W (rt : Runtime W)
    (grpcClient : GrpcNode.ConcordiumGRPCClientLike W) txHash :
  Answers rt (GrpcNode.getBlockItemStatus grpcClient txHash) ->
  Answers rt (GrpcNode.getTransactionStatus grpcClient txHash).
Proof.
  intros H w. destruct (H w) as (o & w' & Hl & Hm).
  rewrite grpc_getTransactionStatus_unfold, Hl.
  destruct o as [[status|]|e]; eauto.
Qed.

Lemma client_lookup_answers W (rt : Runtime W) (client : Client.Sdk W) txHash :
  (forall hash, Answers rt (Client.getBlockItemStatus client hash)) ->
  Answers rt (clientLookup client txHash).
Proof.
  intros H w. unfold clientLookup, Client.getTransactionStatus, bind, lift, ret.
  destruct (Client.TransactionHash_fromHexString client txHash) as [hash|e].
  - destruct (H hash w) as (o & w' & Hl & Hm). rewrite Hl.
    destruct o as [[s|]|e]; eauto.
  - exists (Thrown e), w. split; [reflexivity|lia].
Qed.

(** C7.  The code departs from the claim, and from what the interface
    [ConcordiumNodeClient] promises of [waitForFinalization] (the
    transaction once finalized, or nothing on timeout), when the timeout
    elapses: with a transaction that stays committed, the polling of the
    gRPC node client, called as such and through [waitForFinalization]
    of the client [createConcordiumNodeClient] builds, and the loop of
    [ConcordiumClient] run into the timeout (4 seconds here) and then
    return the snapshot of one more lookup, which is still committed,
    instead of nothing. *)
Theorem stale_snapshot_returned_at_timeout :
  (exists info,
      GrpcNode.pollForFinalization Sim.runtime
        (Sim.grpc Ledgers.stuckCommitted None) 100 "tx123" 4000 0
      = Some (Returned (Some info), 4000)
      /\ ConcordiumTransactionInfo.status info = committed)
  /\ (exists info,
      waitForFinalization
        (GrpcNode.createConcordiumNodeClient Sim.runtime
           (Sim.grpc Ledgers.stuckCommitted None) 100)
        "tx123" (Some 4000) 0
      = Some (Returned (Some info), 4000)
      /\ ConcordiumTransactionInfo.status info = committed)
  /\ (exists info,
      Client.waitForFinalization Sim.runtime
        (Sim.sdk (fun _ _ => Returned (Some (Ledgers.sdkBlockItem "committed" None))))
        100 "tx123" (Some 4000) 0
      = Some (Returned (Some info), 4000)
      /\ Client.TransactionInfo.status info = committed).
Proof.
  split; [|split]; eexists; split; vm_compute; reflexivity.
Qed.

(** X23.  The polling loop of the gRPC node client and the
    loop of [ConcordiumClient.waitForFinalization] work in rounds: before
    the timeout has elapsed a round looks the transaction up and returns
    at once a snapshot that is finalized or failed (and an absent result,
    and an error of the lookup), and otherwise sleeps two seconds; once
    the timeout has elapsed the loop returns the result of one further
    lookup as it is.  So every result is a terminal snapshot, an absent
    result, an error, or the last lookup made after the deadline, which
    may be a snapshot that is still pending or committed.  With a timer
    that does not fire early and a node that answers, the loop settles
    within [rounds timeoutMs] rounds. *)
Theorem waiting_returns_terminal_or_last_lookup :
  forall (W : Type) (rt : Runtime W),
    (forall grpcClient txHash,
        PollingContract rt grpcTerminal
          (GrpcNode.getTransactionStatus grpcClient txHash)
          (fun fuel => GrpcNode.pollLoop rt grpcClient fuel txHash))
    /\ (forall client txHash,
        PollingContract rt clientTerminal (clientLookup client txHash)
          (fun fuel => Client.waitLoop rt client fuel txHash))
    /\ (forall grpcClient txHash fuel timeoutMs w r w',
        GrpcNode.pollForFinalization rt grpcClient fuel txHash timeoutMs w
        = Some (r, w') ->
        Origin rt grpcTerminal (GrpcNode.getTransactionStatus grpcClient txHash)
          (Date_now rt w) timeoutMs r w')
    /\ (forall client txHash fuel timeoutMs w r w',
        Client.waitForFinalization rt client fuel txHash timeoutMs w
        = Some (r, w') ->
        Origin rt clientTerminal (clientLookup client txHash)
          (Date_now rt w) (nullish timeoutMs 60000) r w')
    /\ (ClockAdvances rt ->
        forall grpcClient txHash fuel timeoutMs w,
          Answers rt (GrpcNode.getBlockItemStatus grpcClient txHash) ->
          (rounds timeoutMs < fuel)%nat ->
          exists r w',
            GrpcNode.pollForFinalization rt grpcClient fuel txHash timeoutMs w
            = Some (r, w'))
    /\ (ClockAdvances rt ->
        forall client txHash fuel timeoutMs w,
          (forall hash, Answers rt (Client.getBlockItemStatus client hash)) ->
          (rounds (nullish timeoutMs 60000%Z) < fuel)%nat ->
          exists r w',
            Client.waitForFinalization rt client fuel txHash timeoutMs w
            = Some (r, w')).
Proof.
  intros W rt. split; [|split; [|split; [|split; [|split]]]].
  - intros. apply grpc_pollLoop_contract.
  - intros. apply client_waitLoop_contract.
  - intros grpcClient txHash fuel timeoutMs w r w' Hrun.
    exact (polling_origin W _ rt _ _ _ (grpc_pollLoop_contract W rt grpcClient txHash)
             fuel (Date_now rt w) timeoutMs w r w' Hrun).
  - intros client txHash fuel timeoutMs w r w' Hrun.
    exact (polling_origin W _ rt _ _ _ (client_waitLoop_contract W rt client txHash)
             fuel (Date_now rt w) (nullish timeoutMs 60000) w r w' Hrun).
  - intros Hclock grpcClient txHash fuel timeoutMs w Hans Hfuel.
    apply (polling_terminates W _ rt _ _ _
             (grpc_pollLoop_contract W rt grpcClient txHash) Hclock
             (grpc_lookup_answers W rt grpcClient txHash Hans)
             fuel (Date_now rt w) timeoutMs w).
    replace (Date_now rt w + timeoutMs - Date_now rt w) with timeoutMs by lia.
    exact Hfuel.
  - intros Hclock client txHash fuel timeoutMs w Hans Hfuel.
    apply (polling_terminates W _ rt _ _ _
             (client_waitLoop_contract W rt client txHash) Hclock
             (client_lookup_answers W rt client txHash Hans)
             fuel (Date_now rt w) (nullish timeoutMs 60000) w).
    replace (Date_now rt w + nullish timeoutMs 60000 - Date_now rt w)
      with (nullish timeoutMs 60000) by lia.
    exact Hfuel.
Qed.

Lemma Sim_clock_advances : ClockAdvances Sim.runtime.
Proof. intros ms w. simpl. lia. Qed.

Lemma Sim_grpc_answers ledger subscription txHash :
  Answers Sim.runtime
    (GrpcNode.getBlockItemStatus (Sim.grpc ledger subscription) txHash).
Proof.
  intros w. exists (ledger txHash w), w. split; [reflexivity|simpl; lia].
Qed.

(** Scenario D of the specification on the simulated host: the
    transaction is committed, becomes final after three seconds, and is
    returned by the poll at four seconds. *)
Lemma waiting_returns_terminal_or_last_lookup_witness :
  (exists r w',
      GrpcNode.pollForFinalization Sim.runtime
        (Sim.grpc Ledgers.finalAfter3s None) 31 "tx123" 60000 0 = Some (r, w'))
  /\ Origin Sim.runtime grpcTerminal
       (GrpcNode.getTransactionStatus (Sim.grpc Ledgers.finalAfter3s None) "tx123")
       0 60000
       (Returned (Some (GrpcNode.mapTransactionStatus "tx123"
                          (Ledgers.blockItem "finalized" Ledgers.successSummary))))
       4000.
Proof.
  split.
  - apply (proj1 (proj2 (proj2 (proj2 (proj2
             (waiting_returns_terminal_or_last_lookup Sim.World Sim.runtime)))))
           Sim_clock_advances (Sim.grpc Ledgers.finalAfter3s None) "tx123"
           31%nat 60000 0 (Sim_grpc_answers _ _ _)).
    vm_compute. lia.
  - apply (proj1 (proj2 (proj2
             (waiting_returns_terminal_or_last_lookup Sim.World Sim.runtime)))
           (Sim.grpc Ledgers.finalAfter3s None) "tx123" 31%nat 60000 0).
    vm_compute. reflexivity.
Defined.

(** *** C10: the statuses [ConcordiumClient] can report *)

Lemma client_status_cases W (client : Client.Sdk W) txHash w info w' :
  Client.getTransactionStatus client txHash w = Some (Returned info, w') ->
  exists hash,
    Client.TransactionHash_fromHexString client txHash = Returned hash
    /\ ((Client.getBlockItemStatus client hash w = Some (Returned None, w')
         /\ Client.TransactionInfo.status info = pending)
        \/ (exists s,
             Client.getBlockItemStatus client hash w = Some (Returned (Some s), w')
             /\ Client.TransactionInfo.status info =
                  if (Client.SdkBlockItemStatus.status s =? "finalized")%string
                  then finalized
                  else if (Client.SdkBlockItemStatus.status s =? "committed")%string
                       then committed else pending)).
Proof.
  unfold Client.getTransactionStatus, bind, lift, ret.
  destruct (Client.TransactionHash_fromHexString client txHash) as [hash|e];
    [|discriminate].
  destruct (Client.getBlockItemStatus client hash w) as [[[[s|]|e] w1]|] eqn:Hb;
    simpl; try discriminate; intros H; exists hash; split; try reflexivity;
    injection H as Hi Hw; subst w1; subst info.
  - right. exists s. split; [exact Hb | reflexivity].
  - left. split; [exact Hb | reflexivity].
Qed.

Lemma client_status_not_failed W (client : Client.Sdk W) txHash w info w' :
  Client.getTransactionStatus client txHash w = Some (Returned info, w') ->
  Client.TransactionInfo.status info = pending
  \/ Client.TransactionInfo.status info = committed
  \/ Client.TransactionInfo.status info = finalized.
Proof.
  intros H. destruct (client_status_cases W client txHash w info w' H)
    as (hash & _ & [[_ Hs] | (s & _ & Hs)]); rewrite Hs; auto.
  destruct (_ =? _)%string; auto. destruct (_ =? _)%string; auto.
Qed.

(** With a lookup that is never absent and never a failed snapshot, the
    two verdicts of those cases cannot come out. *)
Lemma checks_never_absent_or_failed rf i lookup payer r :
  lookup <> Returned None ->
  (forall tx, lookup = Returned (Some tx) ->
              ConcordiumTransactionInfo.status tx <> failed) ->
  firstFailure payer (checksV2 rf i lookup) = Returned r
  \/ firstFailure payer (checksV1 rf i lookup) = Returned r ->
  invalidReason r <> Some "transaction_not_found"
  /\ invalidReason r <> Some "transaction_failed".
Proof.
  intros Habsent Hfailed.
  destruct lookup as [[tx|]|e]; [|contradiction|].
  - assert (Hs : TxStatus_eqb (ConcordiumTransactionInfo.status tx) failed = false).
    { destruct (TxStatus_eqb_spec (ConcordiumTransactionInfo.status tx) failed);
        [|reflexivity]. exfalso. eapply Hfailed; eauto. }
    unfold checksV2, checksV1, envelopeChecks, ledgerChecks, amountCheckV2,
      amountCheckV1, assetCheckV2, assetCheckV1, onSnapshot, passes.
    simpl. rewrite Hs. simpl.
    intros [H|H]; revert H;
      repeat (match goal with
              | |- context [if ?b then _ else _] => case_atom b
              | |- context [match ?x with _ => _ end] => case_atom x
              end; simpl; try discriminate);
      intros [= <-]; split; discriminate.
  - unfold checksV2, checksV1, envelopeChecks, ledgerChecks, passes. simpl.
    intros [H|H]; revert H;
      repeat (match goal with
              | |- context [if ?b then _ else _] => case_atom b
              end; simpl; try discriminate);
      intros [= <-]; split; discriminate.
Qed.

Lemma verifyV2_outcome W (config : Config W) payload requirements w o w' :
  let i := inputsV2 payload requirements in
  Facilitator.verify config payload requirements w = Some (o, w') ->
  exists lookup,
    o = firstFailure (claimedSender i) (checksV2 (requireFinalization config) i lookup)
    /\ (lookup = Thrown (Error "")
        \/ getTransactionStatus (nodeClient config) (claimedTxHash i) w
           = Some (lookup, w')).
Proof.
  intros i. rewrite verifyV2_unfold. fold i.
  destruct (allPass (envelopeChecks i)) eqn:He.
  - destruct (getTransactionStatus (nodeClient config) (claimedTxHash i) w)
      as [[lookup w1]|]; [|discriminate].
    intros H. exists lookup. split; [congruence|right; congruence].
  - intros H. exists (Thrown (Error "")). split; [|left; reflexivity].
    unfold checksV2. rewrite firstFailure_app_stop by assumption. congruence.
Qed.

Lemma verifyV1_outcome W (config : Config W) payloadV1 requirementsV1 w o w' :
  let i := inputsV1 payloadV1 requirementsV1 in
  FacilitatorV1.verify config payloadV1 requirementsV1 w = Some (o, w') ->
  exists lookup,
    o = firstFailure (claimedSender i) (checksV1 (requireFinalization config) i lookup)
    /\ (lookup = Thrown (Error "")
        \/ getTransactionStatus (nodeClient config) (claimedTxHash i) w
           = Some (lookup, w')).
Proof.
  intros i. rewrite verifyV1_unfold. fold i.
  destruct (allPass (envelopeChecks i)) eqn:He.
  - destruct (getTransactionStatus (nodeClient config) (claimedTxHash i) w)
      as [[lookup w1]|]; [|discriminate].
    intros H. exists lookup. split; [congruence|right; congruence].
  - intros H. exists (Thrown (Error "")). split; [|left; reflexivity].
    unfold checksV1. rewrite firstFailure_app_stop by assumption. congruence.
Qed.

(** What a [ConcordiumClient] used as node client hands to [verify]. *)
Lemma asNodeClient_lookup W (rt : Runtime W) (client : Client.Sdk W) fuel
    txHash w lookup w' :
  getTransactionStatus (Client.asNodeClient rt client fuel) txHash w
  = Some (lookup, w') ->
  lookup <> Returned None
  /\ (forall tx, lookup = Returned (Some tx) ->
                 ConcordiumTransactionInfo.status tx <> failed).
Proof.
  simpl. unfold bind, ret.
  destruct (Client.getTransactionStatus client txHash w) as [[[info|e] w1]|] eqn:Hc;
    try discriminate; intros H.
  - assert (Hl : lookup = Returned (Some (Client.asConcordiumTransactionInfo info)))
      by congruence.
    subst lookup. split; [discriminate|].
    intros tx [= <-]. simpl.
    destruct (client_status_not_failed W client txHash w info w1 Hc)
      as [-> | [-> | ->]]; discriminate.
  - assert (Hl : lookup = Thrown e) by congruence.
    subst lookup. split; [discriminate|]. intros tx Htx. discriminate.
Qed.

(** C10.  [ConcordiumClient.getTransactionStatus], whenever it returns,
    returns a snapshot whose status is pending, committed or finalized,
    never failed, and never an absent result: a transaction the node does
    not know is a pending snapshot with empty sender, recipient and
    amount; the status of a known one is read off the raw status alone,
    so a rejected outcome is not turned into failed.  Hence with this
    client behind a scheme the verdicts [transaction_not_found] and
    [transaction_failed] cannot come out of [verify], nor [not_found] and
    [failed] out of the client's own [verifyPayment]. *)
Theorem client_never_reports_failed_or_absent :
  forall (W : Type) (client : Client.Sdk W),
    (forall txHash w info w',
        Client.getTransactionStatus client txHash w = Some (Returned info, w') ->
        Client.TransactionInfo.status info = pending
        \/ Client.TransactionInfo.status info = committed
        \/ Client.TransactionInfo.status info = finalized)
    /\ (forall txHash hash w w',
        Client.TransactionHash_fromHexString client txHash = Returned hash ->
        Client.getBlockItemStatus client hash w = Some (Returned None, w') ->
        Client.getTransactionStatus client txHash w
        = Some (Returned
                  {| Client.TransactionInfo.txHash := txHash;
                     Client.TransactionInfo.status := pending;
                     Client.TransactionInfo.sender := "";
                     Client.TransactionInfo.recipient := Some "";
                     Client.TransactionInfo.amount := Some "";
                     Client.TransactionInfo.contractIndex := None;
                     Client.TransactionInfo.contractSubindex := None;
                     Client.TransactionInfo.error := None |}, w'))
    /\ (forall txHash hash s w w',
        Client.TransactionHash_fromHexString client txHash = Returned hash ->
        Client.getBlockItemStatus client hash w = Some (Returned (Some s), w') ->
        exists info,
          Client.getTransactionStatus client txHash w = Some (Returned info, w')
          /\ Client.TransactionInfo.status info =
               (if (Client.SdkBlockItemStatus.status s =? "finalized")%string
                then finalized
                else if (Client.SdkBlockItemStatus.status s =? "committed")%string
                     then committed else pending)
          /\ Client.TransactionInfo.error info = None)
    /\ (forall rt fuel rf timeout payload requirements w r w',
        Facilitator.verify
          {| nodeClient := Client.asNodeClient rt client fuel;
             requireFinalization := rf; finalizationTimeoutMs := timeout |}
          payload requirements w = Some (Returned r, w') ->
        invalidReason r <> Some "transaction_not_found"
        /\ invalidReason r <> Some "transaction_failed")
    /\ (forall rt fuel rf timeout payloadV1 requirementsV1 w r w',
        FacilitatorV1.verify
          {| nodeClient := Client.asNodeClient rt client fuel;
             requireFinalization := rf; finalizationTimeoutMs := timeout |}
          payloadV1 requirementsV1 w = Some (Returned r, w') ->
        invalidReason r <> Some "transaction_not_found"
        /\ invalidReason r <> Some "transaction_failed")
    /\ (forall txHash recipient minAmount w v w',
        Client.verifyPayment client txHash recipient minAmount w
        = Some (Returned v, w') ->
        Client.reason v <> Some "not_found" /\ Client.reason v <> Some "failed").
Proof.
  intros W client. split; [|split; [|split; [|split; [|split]]]].
  - intros txHash w info w'. apply client_status_not_failed.
  - intros txHash hash w w' Hh Hb.
    unfold Client.getTransactionStatus, bind, lift, ret. rewrite Hh, Hb.
    reflexivity.
  - intros txHash hash s w w' Hh Hb.
    unfold Client.getTransactionStatus, bind, lift, ret. rewrite Hh, Hb.
    eexists. split; [reflexivity|]. split; reflexivity.
  - intros rt fuel rf timeout payload requirements w r w' Hv.
    destruct (verifyV2_outcome W _ payload requirements w _ w' Hv)
      as (lookup & Ho & Hl).
    assert (Hnice : lookup <> Returned None
                    /\ (forall tx, lookup = Returned (Some tx) ->
                                   ConcordiumTransactionInfo.status tx <> failed)).
    { destruct Hl as [-> | Hl].
      - split; [discriminate|]. intros tx Htx. discriminate.
      - exact (asNodeClient_lookup W rt client fuel _ w lookup w' Hl). }
    destruct Hnice as [Ha Hf].
    eapply checks_never_absent_or_failed; [exact Ha | exact Hf |].
    left. symmetry. exact Ho.
  - intros rt fuel rf timeout payloadV1 requirementsV1 w r w' Hv.
    destruct (verifyV1_outcome W _ payloadV1 requirementsV1 w _ w' Hv)
      as (lookup & Ho & Hl).
    assert (Hnice : lookup <> Returned None
                    /\ (forall tx, lookup = Returned (Some tx) ->
                                   ConcordiumTransactionInfo.status tx <> failed)).
    { destruct Hl as [-> | Hl].
      - split; [discriminate|]. intros tx Htx. discriminate.
      - exact (asNodeClient_lookup W rt client fuel _ w lookup w' Hl). }
    destruct Hnice as [Ha Hf].
    eapply checks_never_absent_or_failed; [exact Ha | exact Hf |].
    right. symmetry. exact Ho.
  - intros txHash recipient minAmount w v w'.
    unfold Client.verifyPayment, bind, lift, ret.
    destruct (Client.getTransactionStatus client txHash w)
      as [[[info|e] w1]|] eqn:Hc; try discriminate.
    pose proof (client_status_not_failed W client txHash w info w1 Hc) as Hs.
    unfold Client.isStatus.
    destruct Hs as [-> | [-> | ->]]; simpl;
      repeat (match goal with
              | |- context [if ?b then _ else _] => case_atom b
              | |- context [match ?x with _ => _ end] => case_atom x
              end; simpl; try discriminate);
      intros [= <-]; split; discriminate.
Qed.

(** The rejected, finalized transaction again: the client reports it
    finalized; and a transaction the node does not know. *)
Lemma client_never_reports_failed_or_absent_witness :
  (exists info,
      Client.getTransactionStatus
        (Sim.sdk (fun _ _ => Returned (Some (Ledgers.sdkBlockItem "finalized"
                                               (Some "Insufficient funds")))))
        "tx123" 0 = Some (Returned info, 0)
      /\ Client.TransactionInfo.status info = finalized
      /\ Client.TransactionInfo.error info = None)
  /\ Client.getTransactionStatus (Sim.sdk (fun _ _ => Returned None)) "tx123" 0
     = Some (Returned
               {| Client.TransactionInfo.txHash := "tx123";
                  Client.TransactionInfo.status := pending;
                  Client.TransactionInfo.sender := "";
                  Client.TransactionInfo.recipient := Some "";
                  Client.TransactionInfo.amount := Some "";
                  Client.TransactionInfo.contractIndex := None;
                  Client.TransactionInfo.contractSubindex := None;
                  Client.TransactionInfo.error := None |}, 0)
  /\ (invalidReason (invalid "transaction_pending" Fixtures.CLIENT_ADDRESS)
      <> Some "transaction_not_found"
      /\ invalidReason (invalid "transaction_pending" Fixtures.CLIENT_ADDRESS)
         <> Some "transaction_failed").
Proof.
  split; [|split].
  - apply (proj1 (proj2 (proj2 (client_never_reports_failed_or_absent Sim.World
             (Sim.sdk (fun _ _ => Returned (Some (Ledgers.sdkBlockItem "finalized"
                                                    (Some "Insufficient funds"))))))))
           "tx123" "tx123" (Ledgers.sdkBlockItem "finalized" (Some "Insufficient funds"))
           0 0 eq_refl eq_refl).
  - apply (proj1 (proj2 (client_never_reports_failed_or_absent Sim.World
             (Sim.sdk (fun _ _ => Returned None))))
           "tx123" "tx123" 0 0 eq_refl eq_refl).
  - apply (proj1 (proj2 (proj2 (proj2 (client_never_reports_failed_or_absent
             Sim.World (Sim.sdk (fun _ _ => Returned None))))))
           Sim.runtime 10%nat true 60000
           Fixtures.validPayload Fixtures.validRequirements 0
           (invalid "transaction_pending" Fixtures.CLIENT_ADDRESS) 0).
    vm_compute. reflexivity.
Defined.

(* ===================================================================== *)
(** ** Further properties of the schemes *)
(* ===================================================================== *)

Import Soundness.

Lemma firstFailure_shape p cs r :
  firstFailure p cs = Returned r ->
  r = valid p
  \/ exists reason, In reason (map fst cs) /\ r = invalid reason p.
Proof.
  induction cs as [|[reason c] cs IH]; simpl.
  - intros [= <-]. left. reflexivity.
  - destruct c; intros H.
    + destruct (IH H) as [->|(reason' & Hin & ->)]; [left; reflexivity|].
      right. exists reason'. split; [right; exact Hin | reflexivity].
    + injection H as <-. right. exists reason. split; [left|]; reflexivity.
    + discriminate.
Qed.

Lemma response_shape p cs r :
  map fst cs = reasonsInOrder ->
  firstFailure p cs = Returned r ->
  payer r = p
  /\ ((isValid r = true /\ invalidReason r = None)
      \/ (isValid r = false
          /\ exists reason, invalidReason r = Some reason
                            /\ In reason reasonsInOrder)).
Proof.
  intros Htags H. destruct (firstFailure_shape p cs r H) as [->|(reason & Hin & ->)].
  - split; [reflexivity|]. left. split; reflexivity.
  - split; [reflexivity|]. right. split; [reflexivity|].
    exists reason. split; [reflexivity|]. rewrite <- Htags. exact Hin.
Qed.

(** X1.  Whatever [verify] of either scheme returns carries the sender of
    the payload as payer, and is either valid without a reason or invalid
    with one of the eleven tags of the scheme as reason. *)
Theorem verify_response_well_formed :
  forall (W : Type) (config : Config W) (w w' : W) (r : VerifyResponse),
    (forall payload requirements,
        Facilitator.verify config payload requirements w = Some (Returned r, w') ->
        payer r = ExactConcordiumPayload.sender (PaymentPayload.payload payload)
        /\ ((isValid r = true /\ invalidReason r = None)
            \/ (isValid r = false
                /\ exists reason, invalidReason r = Some reason
                                  /\ In reason reasonsInOrder)))
    /\ (forall payloadV1 requirementsV1,
        FacilitatorV1.verify config payloadV1 requirementsV1 w
        = Some (Returned r, w') ->
        payer r = ExactConcordiumPayload.sender (PaymentPayloadV1.payload payloadV1)
        /\ ((isValid r = true /\ invalidReason r = None)
            \/ (isValid r = false
                /\ exists reason, invalidReason r = Some reason
                                  /\ In reason reasonsInOrder))).
Proof.
  intros W config w w' r. split.
  - intros payload requirements Hv.
    destruct (verifyV2_outcome W config payload requirements w _ w' Hv)
      as (lookup & Ho & _).
    eapply response_shape; [|symmetry; exact Ho]. reflexivity.
  - intros payloadV1 requirementsV1 Hv.
    destruct (verifyV1_outcome W config payloadV1 requirementsV1 w _ w' Hv)
      as (lookup & Ho & _).
    eapply response_shape; [|symmetry; exact Ho]. reflexivity.
Qed.

Lemma verify_response_well_formed_witness :
  payer (invalid "transaction_not_found" Fixtures.CLIENT_ADDRESS)
  = Fixtures.CLIENT_ADDRESS
  /\ ((isValid (invalid "transaction_not_found" Fixtures.CLIENT_ADDRESS) = true
       /\ invalidReason (invalid "transaction_not_found" Fixtures.CLIENT_ADDRESS)
          = None)
      \/ (isValid (invalid "transaction_not_found" Fixtures.CLIENT_ADDRESS) = false
          /\ exists reason,
              invalidReason (invalid "transaction_not_found" Fixtures.CLIENT_ADDRESS)
              = Some reason /\ In reason reasonsInOrder)).
Proof.
  apply (proj1 (verify_response_well_formed unit
           {| nodeClient := GrpcNode.createMockConcordiumNodeClient [];
              requireFinalization := true; finalizationTimeoutMs := 60000 |}
           tt tt (invalid "transaction_not_found" Fixtures.CLIENT_ADDRESS))
         Fixtures.validPayload Fixtures.validRequirements).
  reflexivity.
Defined.

(** *** What a returned settlement stands for *)

Lemma settleV2_justified W (client : ConcordiumNodeClient W) rf timeout
    payload requirements :
  SettlementJustified client rf timeout (inputsV2 payload requirements)
    (Facilitator.verify (spiedConfig client rf timeout) payload requirements)
    (Facilitator.settle (spiedConfig client rf timeout) payload requirements).
Proof.
  intros w calls s w2 calls2. unfold Facilitator.settle, bind.
  destruct (Facilitator.verify (spiedConfig client rf timeout) payload requirements
              (w, calls)) as [[[vr|e] [w1 calls1]]|] eqn:Hv; try discriminate.
  destruct (isValid vr) eqn:Hval; simpl.
  - destruct rf; simpl.
    + unfold attempt, recorded; simpl.
      destruct (waitForFinalization client
                  (ExactConcordiumPayload.txHash (PaymentPayload.payload payload))
                  (Some timeout) w1) as [[[[finalizedTx|]|e] w3]|] eqn:Hw;
        try discriminate.
      * destruct (TxStatus_eqb_spec
                    (ConcordiumTransactionInfo.status finalizedTx) finalized)
          as [Hs|Hs]; simpl; intros H; injection H as <- <- <-;
          (repeat split; try reflexivity; try discriminate).
        -- exists vr, w1, calls1. repeat split; auto.
           intros _. exists finalizedTx. split; [exact Hw | exact Hs].
        -- intros _. eexists. reflexivity.
      * intros H. injection H as <- <- <-.
        repeat split; try reflexivity; try discriminate.
        intros _. eexists. reflexivity.
      * intros H. injection H as <- <- <-.
        repeat split; try reflexivity; try discriminate.
        intros _. eexists. reflexivity.
    + intros H. injection H as <- <- <-.
      repeat split; try reflexivity; try discriminate.
      exists vr, w1, calls1. repeat split; auto. discriminate.
  - intros H. injection H as <- <- <-.
    repeat split; try reflexivity; try discriminate.
    intros _. eexists. reflexivity.
Qed.

Lemma settleV1_justified W (client : ConcordiumNodeClient W) rf timeout
    payloadV1 requirementsV1 :
  SettlementJustified client rf timeout (inputsV1 payloadV1 requirementsV1)
    (FacilitatorV1.verify (spiedConfig client rf timeout) payloadV1 requirementsV1)
    (FacilitatorV1.settle (spiedConfig client rf timeout) payloadV1 requirementsV1).
Proof.
  intros w calls s w2 calls2. unfold FacilitatorV1.settle, bind.
  destruct (FacilitatorV1.verify (spiedConfig client rf timeout) payloadV1
              requirementsV1 (w, calls)) as [[[vr|e] [w1 calls1]]|] eqn:Hv;
    try discriminate.
  destruct (isValid vr) eqn:Hval; simpl.
  - destruct rf; simpl.
    + unfold attempt, recorded; simpl.
      destruct (waitForFinalization client
                  (ExactConcordiumPayload.txHash (PaymentPayloadV1.payload payloadV1))
                  (Some timeout) w1) as [[[[finalizedTx|]|e] w3]|] eqn:Hw;
        try discriminate.
      * destruct (TxStatus_eqb_spec
                    (ConcordiumTransactionInfo.status finalizedTx) finalized)
          as [Hs|Hs]; simpl; intros H; injection H as <- <- <-;
          (repeat split; try reflexivity; try discriminate).
        -- exists vr, w1, calls1. repeat split; auto.
           intros _. exists finalizedTx. split; [exact Hw | exact Hs].
        -- intros _. eexists. reflexivity.
      * intros H. injection H as <- <- <-.
        repeat split; try reflexivity; try discriminate.
        intros _. eexists. reflexivity.
      * intros H. injection H as <- <- <-.
        repeat split; try reflexivity; try discriminate.
        intros _. eexists. reflexivity.
    + intros H. injection H as <- <- <-.
      repeat split; try reflexivity; try discriminate.
      exists vr, w1, calls1. repeat split; auto. discriminate.
  - intros H. injection H as <- <- <-.
    repeat split; try reflexivity; try discriminate.
    intros _. eexists. reflexivity.
Qed.

(** X2.  A settlement reporting success is never returned unless
    [verify] returned a valid verdict and, when finality is required,
    [waitForFinalization] returned a snapshot that is finalized; it then
    has no error reason.  A settlement reporting failure always has one.
    Every settlement carries the transaction id, the payer and the network
    of the payload.  This holds for both schemes. *)
Theorem settle_success_is_justified :
  forall (W : Type) (client : ConcordiumNodeClient W) (rf : bool) (timeout : Z),
    (forall payload requirements,
        SettlementJustified client rf timeout (inputsV2 payload requirements)
          (Facilitator.verify (spiedConfig client rf timeout) payload requirements)
          (Facilitator.settle (spiedConfig client rf timeout) payload requirements))
    /\ (forall payloadV1 requirementsV1,
        SettlementJustified client rf timeout (inputsV1 payloadV1 requirementsV1)
          (FacilitatorV1.verify (spiedConfig client rf timeout) payloadV1 requirementsV1)
          (FacilitatorV1.settle (spiedConfig client rf timeout) payloadV1 requirementsV1)).
Proof.
  intros W client rf timeout. split.
  - intros. apply settleV2_justified.
  - intros. apply settleV1_justified.
Qed.

Lemma settle_success_is_justified_witness :
  exists reason,
    errorReason (settlement (inputsV2 Fixtures.validPayload Fixtures.validRequirements)
                   false (Some "transaction_not_found")) = Some reason.
Proof.
  apply (proj2 (proj2 (proj2 (proj2
           (proj1 (settle_success_is_justified unit
                     (GrpcNode.createMockConcordiumNodeClient []) true 60000)
                  Fixtures.validPayload Fixtures.validRequirements tt []
                  (settlement (inputsV2 Fixtures.validPayload Fixtures.validRequirements)
                     false (Some "transaction_not_found"))
                  tt [GetTransactionStatusCall "abc123"] eq_refl))))).
  reflexivity.
Defined.

(** *** The two schemes side by side *)

Lemma checks_agree rf i lookup :
  (forall tx, lookup = Returned (Some tx) -> fullyDescribed tx = true) ->
  checksV1 rf i lookup = checksV2 rf i lookup.
Proof.
  intros H. unfold checksV1, checksV2. do 2 f_equal.
  destruct lookup as [[tx|]|e]; try reflexivity.
  specialize (H tx eq_refl). unfold fullyDescribed in H.
  apply andb_prop in H. destruct H as [Ha Hs].
  unfold onSnapshot, amountCheckV1, amountCheckV2, assetCheckV1, assetCheckV2.
  destruct (ConcordiumTransactionInfo.amount tx) as [paid|]; [|discriminate].
  simpl in Ha. rewrite Ha.
  destruct (ConcordiumTransactionInfo.asset tx); [reflexivity|discriminate].
Qed.

(** X3.  On a payload and requirements that say the same in both
    versions of the protocol, and a snapshot that carries a non-empty
    amount and an asset field, the V1 scheme and the V2 scheme built on
    the same configuration return the same outcome. *)
Theorem schemes_agree_on_described_snapshots :
  forall (W : Type) (config : Config W) payload requirements
         payloadV1 requirementsV1 (w : W),
    inputsV1 payloadV1 requirementsV1 = inputsV2 payload requirements ->
    (forall tx w',
        getTransactionStatus (nodeClient config)
          (ExactConcordiumPayload.txHash (PaymentPayload.payload payload)) w
        = Some (Returned (Some tx), w') ->
        fullyDescribed tx = true) ->
    FacilitatorV1.verify config payloadV1 requirementsV1 w
    = Facilitator.verify config payload requirements w.
Proof.
  intros W config payload requirements payloadV1 requirementsV1 w Hi Hfull.
  rewrite verifyV1_unfold, verifyV2_unfold. rewrite Hi.
  destruct (allPass (envelopeChecks (inputsV2 payload requirements)));
    [|reflexivity].
  simpl claimedTxHash in *.
  destruct (getTransactionStatus (nodeClient config)
              (ExactConcordiumPayload.txHash (PaymentPayload.payload payload)) w)
    as [[lookup w']|] eqn:Hl; [|reflexivity].
  rewrite checks_agree; [reflexivity|].
  intros tx ->. exact (Hfull tx w' eq_refl).
Qed.

Lemma schemes_agree_on_described_snapshots_witness :
  FacilitatorV1.verify (Fixtures.mockConfig Fixtures.validTxInfo true)
    {| PaymentPayloadV1.x402Version := 1;
       PaymentPayloadV1.scheme := "exact";
       PaymentPayloadV1.network := Fixtures.TESTNET;
       PaymentPayloadV1.payload := PaymentPayload.payload Fixtures.validPayload |}
    {| PaymentRequirementsV1.scheme := "exact";
       PaymentRequirementsV1.network := Fixtures.TESTNET;
       PaymentRequirementsV1.asset := Some "";
       PaymentRequirementsV1.maxAmountRequired := "1000000";
       PaymentRequirementsV1.payTo := Fixtures.MERCHANT_ADDRESS |} tt
  = Facilitator.verify (Fixtures.mockConfig Fixtures.validTxInfo true)
      Fixtures.validPayload Fixtures.validRequirements tt.
Proof.
  apply schemes_agree_on_described_snapshots.
  - reflexivity.
  - intros tx w' H. injection H as <- _. reflexivity.
Defined.

(** *** The finality requirement *)

Lemma committed_as_finalized_V2 i tx :
  ConcordiumTransactionInfo.status tx = committed ->
  checksV2 false i (Returned (Some tx))
  = checksV2 true i (Returned (Some (GrpcNode.set_status finalized tx))).
Proof. destruct tx; simpl; intros ->; reflexivity. Qed.

Lemma committed_as_finalized_V1 i tx :
  ConcordiumTransactionInfo.status tx = committed ->
  checksV1 false i (Returned (Some tx))
  = checksV1 true i (Returned (Some (GrpcNode.set_status finalized tx))).
Proof. destruct tx; simpl; intros ->; reflexivity. Qed.

Lemma committed_not_finalized_V1 i tx :
  allPass (envelopeChecks i) = true ->
  ConcordiumTransactionInfo.status tx = committed ->
  firstFailure (claimedSender i) (checksV1 true i (Returned (Some tx)))
  = Returned (invalid "transaction_not_finalized" (claimedSender i)).
Proof.
  intros He Hs. unfold checksV1.
  rewrite firstFailure_app_pass by assumption.
  unfold ledgerChecks, onSnapshot. simpl. rewrite Hs. reflexivity.
Qed.

(** X4.  A scheme constructed without options requires finality (and
    waits up to 60000 ms): it answers [transaction_not_finalized] for
    every committed snapshot once scheme and network have passed.  A
    scheme constructed with [requireFinalization: false] gives a
    committed snapshot the verdict a strict scheme gives the same
    snapshot once finalized.  Both hold for the V2 and the V1 scheme. *)
Theorem committed_accepted_only_without_finality_requirement :
  forall (W : Type) (client : ConcordiumNodeClient W) (timeout : option Z)
         (w w' : W) (tx : ConcordiumTransactionInfo.t),
    ConcordiumTransactionInfo.status tx = committed ->
    let byDefault :=
      new_config {| cfg_nodeClient := client; cfg_requireFinalization := None;
                    cfg_finalizationTimeoutMs := None |} in
    let lenient :=
      new_config {| cfg_nodeClient := client; cfg_requireFinalization := Some false;
                    cfg_finalizationTimeoutMs := timeout |} in
    (requireFinalization byDefault = true
     /\ finalizationTimeoutMs byDefault = 60000)
    /\ (forall payload requirements,
        let i := inputsV2 payload requirements in
        allPass (envelopeChecks i) = true ->
        getTransactionStatus client (claimedTxHash i) w
        = Some (Returned (Some tx), w') ->
        Facilitator.verify byDefault payload requirements w
        = Some (Returned (invalid "transaction_not_finalized" (claimedSender i)), w')
        /\ Facilitator.verify lenient payload requirements w
           = Some (firstFailure (claimedSender i)
                     (checksV2 true i
                        (Returned (Some (GrpcNode.set_status finalized tx)))), w'))
    /\ (forall payloadV1 requirementsV1,
        let i := inputsV1 payloadV1 requirementsV1 in
        allPass (envelopeChecks i) = true ->
        getTransactionStatus client (claimedTxHash i) w
        = Some (Returned (Some tx), w') ->
        FacilitatorV1.verify byDefault payloadV1 requirementsV1 w
        = Some (Returned (invalid "transaction_not_finalized" (claimedSender i)), w')
        /\ FacilitatorV1.verify lenient payloadV1 requirementsV1 w
           = Some (firstFailure (claimedSender i)
                     (checksV1 true i
                        (Returned (Some (GrpcNode.set_status finalized tx)))), w')).
Proof.
  intros W client timeout w w' tx Hs byDefault lenient.
  split; [split; reflexivity|]. split.
  - intros payload requirements i He Hl. split.
    + rewrite verifyV2_unfold. fold i. rewrite He. simpl nodeClient. rewrite Hl.
      simpl requireFinalization.
      rewrite (committed_not_finalized i tx He Hs). reflexivity.
    + rewrite verifyV2_unfold. fold i. rewrite He. simpl nodeClient. rewrite Hl.
      simpl requireFinalization.
      rewrite (committed_as_finalized_V2 i tx Hs). reflexivity.
  - intros payloadV1 requirementsV1 i He Hl. split.
    + rewrite verifyV1_unfold. fold i. rewrite He. simpl nodeClient. rewrite Hl.
      simpl requireFinalization.
      rewrite (committed_not_finalized_V1 i tx He Hs). reflexivity.
    + rewrite verifyV1_unfold. fold i. rewrite He. simpl nodeClient. rewrite Hl.
      simpl requireFinalization.
      rewrite (committed_as_finalized_V1 i tx Hs). reflexivity.
Qed.

Lemma committed_accepted_only_without_finality_requirement_witness :
  Facilitator.verify
    (new_config
       {| cfg_nodeClient :=
            GrpcNode.createMockConcordiumNodeClient
              [("abc123", Fixtures.withStatus committed Fixtures.validTxInfo)];
          cfg_requireFinalization := Some false;
          cfg_finalizationTimeoutMs := None |})
    Fixtures.validPayload Fixtures.validRequirements tt
  = Some (Returned (valid Fixtures.CLIENT_ADDRESS), tt).
Proof.
  apply (proj2 (proj1 (proj2
           (committed_accepted_only_without_finality_requirement unit
              (GrpcNode.createMockConcordiumNodeClient
                 [("abc123", Fixtures.withStatus committed Fixtures.validTxInfo)])
              None tt tt (Fixtures.withStatus committed Fixtures.validTxInfo)
              eq_refl))
           Fixtures.validPayload Fixtures.validRequirements eq_refl eq_refl)).
Defined.

(** *** What the gRPC node client makes of a block item status *)

Lemma isRejected_summaryOf raw :
  GrpcNode.isRejected (GrpcNode.BlockItemStatus.outcome raw)
  = match Raw.summaryOf raw with
    | Some summary => Raw.rejected summary
    | None => false
    end.
Proof.
  unfold GrpcNode.isRejected, Raw.summaryOf, Raw.rejected.
  destruct (GrpcNode.BlockItemStatus.outcome raw) as [oc|]; [|reflexivity].
  destruct (GrpcNode.TransactionOutcome.summary oc); reflexivity.
Qed.

Lemma mapStatusEnum_plain sdkStatus outcome :
  GrpcNode.isRejected outcome = false ->
  GrpcNode.mapStatusEnum sdkStatus outcome = Raw.plainStatus sdkStatus.
Proof.
  intros H. unfold GrpcNode.mapStatusEnum, Raw.plainStatus. rewrite H.
  destruct (String.eqb_spec sdkStatus "received") as [->|]; [reflexivity|].
  destruct (sdkStatus =? "committed")%string; [reflexivity|].
  destruct (sdkStatus =? "finalized")%string; reflexivity.
Qed.

(** X5.  The snapshot [mapTransactionStatus] builds: it keeps the hash
    asked for; its status is [failed] exactly when the summary carries a
    rejection, and otherwise follows the raw status, anything but
    committed and finalized being pending; it has an error only when
    rejected; sender, recipient and amount are those of the summary and
    of its transfer; the asset is the address of the contract update when
    there is one (also next to a transfer), the empty string for a plain
    transfer, and missing otherwise.  Without a summary nothing but hash,
    block hash and status is filled in. *)
Theorem mapTransactionStatus_reads_the_summary :
  forall (txHash : string) (raw : GrpcNode.BlockItemStatus.t),
    let info := GrpcNode.mapTransactionStatus txHash raw in
    ConcordiumTransactionInfo.txHash info = txHash
    /\ (ConcordiumTransactionInfo.status info = failed
        <-> exists summary,
              Raw.summaryOf raw = Some summary /\ Raw.rejected summary = true)
    /\ (ConcordiumTransactionInfo.status info <> failed ->
        ConcordiumTransactionInfo.status info
        = Raw.plainStatus (GrpcNode.BlockItemStatus.status raw)
        /\ ConcordiumTransactionInfo.error info = None)
    /\ match Raw.summaryOf raw with
       | None =>
           ConcordiumTransactionInfo.sender info = ""
           /\ ConcordiumTransactionInfo.recipient info = None
           /\ ConcordiumTransactionInfo.amount info = None
           /\ ConcordiumTransactionInfo.asset info = None
           /\ ConcordiumTransactionInfo.error info = None
       | Some summary =>
           ConcordiumTransactionInfo.sender info
           = GrpcNode.TransactionSummary.sender summary
           /\ ConcordiumTransactionInfo.recipient info
              = option_map GrpcNode.Transfer.to
                  (GrpcNode.TransactionSummary.transfer summary)
           /\ ConcordiumTransactionInfo.amount info
              = option_map GrpcNode.Transfer.amount
                  (GrpcNode.TransactionSummary.transfer summary)
           /\ ConcordiumTransactionInfo.asset info
              = match GrpcNode.TransactionSummary.contractUpdate summary,
                      GrpcNode.TransactionSummary.transfer summary with
                | Some update, _ => Some (GrpcNode.ContractUpdate.address update)
                | None, Some _ => Some ""
                | None, None => None
                end
           /\ (Raw.rejected summary = true ->
               ConcordiumTransactionInfo.error info
               = GrpcNode.TransactionResult.rejectReason
                   (GrpcNode.TransactionSummary.result summary))
       end.
Proof.
  intros txHash raw info. subst info.
  pose proof (isRejected_summaryOf raw) as Hrej.
  pose proof (mapStatusEnum_plain (GrpcNode.BlockItemStatus.status raw)
                (GrpcNode.BlockItemStatus.outcome raw)) as Hplain.
  unfold GrpcNode.mapTransactionStatus, Raw.summaryOf, Raw.rejected in *.
  destruct (GrpcNode.BlockItemStatus.outcome raw) as [oc|].
  - destruct (GrpcNode.TransactionOutcome.summary oc) as [summary|].
    + destruct (GrpcNode.TransactionResult.outcome
                  (GrpcNode.TransactionSummary.result summary) =? "reject")%string
        eqn:Hr.
      * destruct (GrpcNode.TransactionSummary.transfer summary);
          destruct (GrpcNode.TransactionSummary.contractUpdate summary); simpl;
          (split; [reflexivity|]); (split; [split; [eauto|reflexivity]|]);
          (split; [intros Hc; contradiction Hc; reflexivity|]);
          repeat split; reflexivity.
      * specialize (Hplain Hrej).
        destruct (GrpcNode.TransactionSummary.transfer summary);
          destruct (GrpcNode.TransactionSummary.contractUpdate summary); simpl;
          rewrite Hplain;
          (split; [reflexivity|]);
          (split; [split; [unfold Raw.plainStatus;
                            repeat (destruct (_ =? _)%string); discriminate
                          | intros (s & [= <-] & Hs); congruence]|]);
          (split; [intros _; split; reflexivity|]);
          repeat split; try reflexivity; discriminate.
    + specialize (Hplain Hrej). simpl. rewrite Hplain.
      split; [reflexivity|].
      split; [split; [unfold Raw.plainStatus;
                      repeat (destruct (_ =? _)%string); discriminate
                     | intros (s & [=] & _)]|].
      split; [intros _; split; reflexivity|]. repeat split; reflexivity.
  - specialize (Hplain Hrej). simpl. rewrite Hplain.
    split; [reflexivity|].
    split; [split; [unfold Raw.plainStatus;
                    repeat (destruct (_ =? _)%string); discriminate
                   | intros (s & [=] & _)]|].
    split; [intros _; split; reflexivity|]. repeat split; reflexivity.
Qed.

Lemma mapTransactionStatus_reads_the_summary_witness :
  ConcordiumTransactionInfo.status
    (GrpcNode.mapTransactionStatus "tx123"
       (Ledgers.blockItem "committed" Ledgers.successSummary))
  = Raw.plainStatus "committed"
  /\ ConcordiumTransactionInfo.error
       (GrpcNode.mapTransactionStatus "tx123"
          (Ledgers.blockItem "committed" Ledgers.successSummary)) = None.
Proof.
  apply (proj1 (proj2 (proj2 (mapTransactionStatus_reads_the_summary "tx123"
                                (Ledgers.blockItem "committed" Ledgers.successSummary))))).
  discriminate.
Defined.

(** *** Snapshots that say little *)

Lemma grpc_client_lookup W (rt : Runtime W)
    (grpcClient : GrpcNode.ConcordiumGRPCClientLike W) fuel txHash w raw w' :
  GrpcNode.getBlockItemStatus grpcClient txHash w = Some (Returned (Some raw), w') ->
  getTransactionStatus (GrpcNode.createConcordiumNodeClient rt grpcClient fuel) txHash w
  = Some (Returned (Some (GrpcNode.mapTransactionStatus txHash raw)), w').
Proof.
  intros H. simpl. rewrite grpc_getTransactionStatus_unfold, H. reflexivity.
Qed.

Lemma bare_snapshot txHash raw :
  GrpcNode.BlockItemStatus.status raw = "finalized" ->
  Raw.summaryOf raw = None ->
  exists blockHash,
    GrpcNode.mapTransactionStatus txHash raw
    = ConcordiumTransactionInfo.mk txHash blockHash finalized "" None None None None.
Proof.
  destruct raw as [st [[bh [summary|]]|]]; unfold Raw.summaryOf; simpl;
    intros -> H; try discriminate; eexists; reflexivity.
Qed.

(** X6.  A transaction the node reports finalized without an outcome
    summary is mapped to a snapshot with no sender, recipient, amount or
    asset.  Over the gRPC node client the V2 scheme accepts it for every
    payload and requirements whose scheme and network pass, whoever the
    claimed sender and whatever recipient, amount and asset are required;
    the V1 scheme turns it down with [insufficient_amount]. *)
Theorem finalized_without_summary_passes_V2 :
  forall (W : Type) (rt : Runtime W)
         (grpcClient : GrpcNode.ConcordiumGRPCClientLike W) (fuel : nat)
         (rf : bool) (timeout : Z) (w w' : W) (raw : GrpcNode.BlockItemStatus.t),
    GrpcNode.BlockItemStatus.status raw = "finalized" ->
    Raw.summaryOf raw = None ->
    let config :=
      {| nodeClient := GrpcNode.createConcordiumNodeClient rt grpcClient fuel;
         requireFinalization := rf; finalizationTimeoutMs := timeout |} in
    (forall payload requirements,
        let i := inputsV2 payload requirements in
        allPass (envelopeChecks i) = true ->
        GrpcNode.getBlockItemStatus grpcClient (claimedTxHash i) w
        = Some (Returned (Some raw), w') ->
        Facilitator.verify config payload requirements w
        = Some (Returned (valid (claimedSender i)), w'))
    /\ (forall payloadV1 requirementsV1,
        let i := inputsV1 payloadV1 requirementsV1 in
        allPass (envelopeChecks i) = true ->
        GrpcNode.getBlockItemStatus grpcClient (claimedTxHash i) w
        = Some (Returned (Some raw), w') ->
        FacilitatorV1.verify config payloadV1 requirementsV1 w
        = Some (Returned (invalid "insufficient_amount" (claimedSender i)), w')).
Proof.
  intros W rt grpcClient fuel rf timeout w w' raw Hst Hsum config. split.
  - intros payload requirements i He Hl.
    rewrite verifyV2_unfold. fold i. rewrite He.
    unfold config at 1. simpl nodeClient.
    rewrite (grpc_client_lookup W rt grpcClient fuel _ w raw w' Hl).
    destruct (bare_snapshot (claimedTxHash i) raw Hst Hsum) as [bh ->].
    unfold checksV2. rewrite firstFailure_app_pass by assumption.
    destruct rf; reflexivity.
  - intros payloadV1 requirementsV1 i He Hl.
    rewrite verifyV1_unfold. fold i. rewrite He.
    unfold config at 1. simpl nodeClient.
    rewrite (grpc_client_lookup W rt grpcClient fuel _ w raw w' Hl).
    destruct (bare_snapshot (claimedTxHash i) raw Hst Hsum) as [bh ->].
    unfold checksV1. rewrite firstFailure_app_pass by assumption.
    destruct rf; reflexivity.
Qed.

(** A requirement of a million units of a token for the merchant is met
    by a finalized transaction about which nothing is known. *)
Lemma finalized_without_summary_passes_V2_witness :
  Facilitator.verify (Ledgers2.grpcConfig Ledgers2.bareFinalized)
    (Fixtures.accepting (Fixtures.requiring (Some "9390:0:") "1000000"))
    (Fixtures.requiring (Some "9390:0:") "1000000") 0
  = Some (Returned (valid Fixtures.CLIENT_ADDRESS), 0).
Proof.
  apply (proj1 (finalized_without_summary_passes_V2 Sim.World Sim.runtime
                  (Sim.grpc Ledgers2.bareFinalized None) 100 true 60000 0 0
                  {| GrpcNode.BlockItemStatus.status := "finalized";
                     GrpcNode.BlockItemStatus.outcome := None |}
                  eq_refl eq_refl)
           (Fixtures.accepting (Fixtures.requiring (Some "9390:0:") "1000000"))
           (Fixtures.requiring (Some "9390:0:") "1000000") eq_refl eq_refl).
Defined.

Lemma update_snapshot txHash raw summary update :
  GrpcNode.BlockItemStatus.status raw = "finalized" ->
  Raw.summaryOf raw = Some summary ->
  Raw.rejected summary = false ->
  GrpcNode.TransactionSummary.transfer summary = None ->
  GrpcNode.TransactionSummary.contractUpdate summary = Some update ->
  exists blockHash,
    GrpcNode.mapTransactionStatus txHash raw
    = ConcordiumTransactionInfo.mk txHash blockHash finalized
        (GrpcNode.TransactionSummary.sender summary) None None
        (Some (GrpcNode.ContractUpdate.address update)) None.
Proof.
  destruct raw as [st [[bh [s|]]|]]; unfold Raw.summaryOf, Raw.rejected; simpl;
    intros -> [= ->] Hr Ht Hu;
    unfold GrpcNode.mapTransactionStatus, GrpcNode.mapStatusEnum, GrpcNode.isRejected;
    simpl; rewrite Hr, Ht, Hu; eexists; reflexivity.
Qed.

(** X7.  A finalized, successful contract update (a CIS-2 payment) is
    mapped to a snapshot with the contract address as asset and neither
    recipient nor amount.  Over the gRPC node client the V2 scheme
    therefore checks only the sender and the asset of such a payment: the
    verdict does not depend on the recipient or the amount required.  The
    V1 scheme never accepts it: it fails with [sender_mismatch] or with
    [insufficient_amount]. *)
Theorem contract_update_checked_for_sender_and_asset_only :
  forall (W : Type) (rt : Runtime W)
         (grpcClient : GrpcNode.ConcordiumGRPCClientLike W) (fuel : nat)
         (rf : bool) (timeout : Z) (w w' : W)
         (raw : GrpcNode.BlockItemStatus.t)
         (summary : GrpcNode.TransactionSummary.t)
         (update : GrpcNode.ContractUpdate.t),
    GrpcNode.BlockItemStatus.status raw = "finalized" ->
    Raw.summaryOf raw = Some summary ->
    Raw.rejected summary = false ->
    GrpcNode.TransactionSummary.transfer summary = None ->
    GrpcNode.TransactionSummary.contractUpdate summary = Some update ->
    let config :=
      {| nodeClient := GrpcNode.createConcordiumNodeClient rt grpcClient fuel;
         requireFinalization := rf; finalizationTimeoutMs := timeout |} in
    let senderMatches (i : Inputs) :=
      negb (truthy (GrpcNode.TransactionSummary.sender summary))
      || (toLowerCase (GrpcNode.TransactionSummary.sender summary)
          =? toLowerCase (claimedSender i))%string in
    (forall payload requirements,
        let i := inputsV2 payload requirements in
        allPass (envelopeChecks i) = true ->
        GrpcNode.getBlockItemStatus grpcClient (claimedTxHash i) w
        = Some (Returned (Some raw), w') ->
        Facilitator.verify config payload requirements w
        = Some (Returned
                  (if negb (senderMatches i)
                   then invalid "sender_mismatch" (claimedSender i)
                   else if (or_empty (requiredAsset i)
                            =? or_empty (Some (GrpcNode.ContractUpdate.address update)))%string
                        then valid (claimedSender i)
                        else invalid "asset_mismatch" (claimedSender i)), w'))
    /\ (forall payloadV1 requirementsV1,
        let i := inputsV1 payloadV1 requirementsV1 in
        allPass (envelopeChecks i) = true ->
        GrpcNode.getBlockItemStatus grpcClient (claimedTxHash i) w
        = Some (Returned (Some raw), w') ->
        FacilitatorV1.verify config payloadV1 requirementsV1 w
        = Some (Returned
                  (if negb (senderMatches i)
                   then invalid "sender_mismatch" (claimedSender i)
                   else invalid "insufficient_amount" (claimedSender i)), w')).
Proof.
  intros W rt grpcClient fuel rf timeout w w' raw summary update
         Hst Hsum Hrej Htr Hup config senderMatches.
  split.
  - intros payload requirements i He Hl.
    rewrite verifyV2_unfold. fold i. rewrite He.
    unfold config at 1. simpl nodeClient.
    rewrite (grpc_client_lookup W rt grpcClient fuel _ w raw w' Hl).
    destruct (update_snapshot (claimedTxHash i) raw summary update
                Hst Hsum Hrej Htr Hup) as [bh ->].
    unfold checksV2. rewrite firstFailure_app_pass by assumption.
    unfold senderMatches, ledgerChecks, onSnapshot, assetCheckV2, assetsAgree,
      amountCheckV2, passes. simpl.
    destruct rf; simpl;
      destruct (negb (truthy (GrpcNode.TransactionSummary.sender summary))
                || (toLowerCase (GrpcNode.TransactionSummary.sender summary)
                    =? toLowerCase
                         (ExactConcordiumPayload.sender
                            (PaymentPayload.payload payload)))%string);
      simpl; try reflexivity;
      destruct (_ =? _)%string; reflexivity.
  - intros payloadV1 requirementsV1 i He Hl.
    rewrite verifyV1_unfold. fold i. rewrite He.
    unfold config at 1. simpl nodeClient.
    rewrite (grpc_client_lookup W rt grpcClient fuel _ w raw w' Hl).
    destruct (update_snapshot (claimedTxHash i) raw summary update
                Hst Hsum Hrej Htr Hup) as [bh ->].
    unfold checksV1. rewrite firstFailure_app_pass by assumption.
    unfold senderMatches, ledgerChecks, onSnapshot, passes. simpl.
    destruct rf; simpl;
      destruct (negb (truthy (GrpcNode.TransactionSummary.sender summary))
                || (toLowerCase (GrpcNode.TransactionSummary.sender summary)
                    =? toLowerCase
                         (ExactConcordiumPayload.sender
                            (PaymentPayloadV1.payload payloadV1)))%string);
      simpl; reflexivity.
Qed.

(** The update of contract 9390 pays a requirement in asset "9390",
    whatever amount and recipient it names. *)
Lemma contract_update_checked_for_sender_and_asset_only_witness :
  Facilitator.verify
    (Ledgers2.grpcConfig (Ledgers2.finalizedUpdate Fixtures.CLIENT_ADDRESS))
    (Fixtures.accepting (Fixtures.requiring (Some "9390") "999999999"))
    (Fixtures.requiring (Some "9390") "999999999") 0
  = Some (Returned (valid Fixtures.CLIENT_ADDRESS), 0).
Proof.
  apply (proj1 (contract_update_checked_for_sender_and_asset_only
                  Sim.World Sim.runtime
                  (Sim.grpc (Ledgers2.finalizedUpdate Fixtures.CLIENT_ADDRESS) None)
                  100 true 60000 0 0
                  (Ledgers.blockItem "finalized"
                     (Ledgers2.contractUpdateSummary Fixtures.CLIENT_ADDRESS))
                  (Ledgers2.contractUpdateSummary Fixtures.CLIENT_ADDRESS)
                  {| GrpcNode.ContractUpdate.address := "9390";
                     GrpcNode.ContractUpdate.receiveName := "transfer";
                     GrpcNode.ContractUpdate.events := Some [] |}
                  eq_refl eq_refl eq_refl eq_refl eq_refl)
           (Fixtures.accepting (Fixtures.requiring (Some "9390") "999999999"))
           (Fixtures.requiring (Some "9390") "999999999") eq_refl eq_refl).
Defined.

(** *** [BigInt] reads back what [toString] writes *)

Lemma parseDigitsFrom_decimal d : forall acc,
  parseDigitsFrom 10 acc (NilEmpty.string_of_uint d) = Some (Digits.valueFrom acc d).
Proof.
  induction d; intros acc; simpl; try reflexivity; apply IHd.
Qed.

Lemma valueFrom_pos d : forall acc,
  Digits.valueFrom (Z.pos acc) d = Z.pos (Pos.of_uint_acc d acc).
Proof.
  induction d; intros acc; cbn [Digits.valueFrom Pos.of_uint_acc];
    try reflexivity; rewrite <- IHd; f_equal; lia.
Qed.

Lemma valueFrom_zero d : Digits.valueFrom 0 d = Z.of_uint d.
Proof.
  unfold Z.of_uint.
  induction d; simpl; try reflexivity; try exact IHd;
    rewrite valueFrom_pos; reflexivity.
Qed.

Lemma trimEnd_noWhiteSpace s : Digits.noWhiteSpace s = true -> trimEnd s = s.
Proof.
  induction s as [|c s IH]; simpl; [reflexivity|].
  intros H. apply andb_prop in H. destruct H as [Hc Hs].
  rewrite (IH Hs). apply negb_true_iff in Hc. rewrite Hc.
  destruct s; reflexivity.
Qed.

Lemma trim_noWhiteSpace s : Digits.noWhiteSpace s = true -> trim s = s.
Proof.
  intros H. unfold trim.
  assert (Hs : trimStart s = s).
  { destruct s as [|c s]; [reflexivity|]. simpl in *.
    apply andb_prop in H. destruct H as [Hc _].
    apply negb_true_iff in Hc. rewrite Hc. reflexivity. }
  rewrite Hs. apply trimEnd_noWhiteSpace. exact H.
Qed.

Lemma decimal_noWhiteSpace d :
  Digits.noWhiteSpace (NilEmpty.string_of_uint d) = true.
Proof. induction d; simpl; auto. Qed.

Lemma StringToBigInt_decimal d :
  d <> Decimal.Nil ->
  StringToBigInt (NilEmpty.string_of_uint d) = Some (Z.of_uint d)
  /\ StringToBigInt (String "-" (NilEmpty.string_of_uint d))
     = Some (- Z.of_uint d).
Proof.
  intros Hd. split.
  - unfold StringToBigInt. rewrite (trim_noWhiteSpace _ (decimal_noWhiteSpace d)).
    rewrite <- valueFrom_zero.
    assert (Hp : parseDigits 10 (NilEmpty.string_of_uint d)
                 = Some (Digits.valueFrom 0 d)).
    { unfold parseDigits. rewrite <- parseDigitsFrom_decimal.
      destruct d; try reflexivity. contradiction. }
    rewrite <- Hp.
    destruct d as [|d|d|d|d|d|d|d|d|d|d]; try reflexivity; try contradiction.
    destruct d; reflexivity.
  - unfold StringToBigInt.
    rewrite trim_noWhiteSpace
      by (simpl; apply decimal_noWhiteSpace).
    assert (Hp : parseDigits 10 (NilEmpty.string_of_uint d)
                 = Some (Digits.valueFrom 0 d)).
    { unfold parseDigits. rewrite <- parseDigitsFrom_decimal.
      destruct d; try reflexivity. contradiction. }
    simpl. rewrite Hp, valueFrom_zero. reflexivity.
Qed.

Lemma BigInt_toString_roundtrip z : BigInt (BigInt_toString z) = Returned z.
Proof.
  unfold BigInt, BigInt_toString.
  assert (H : StringToBigInt (NilZero.string_of_int (Z.to_int z)) = Some z).
  { rewrite <- (DecimalZ.of_to z) at 2.
    destruct z as [|p|p]; simpl.
    - reflexivity.
    - unfold NilZero.string_of_uint.
      pose proof (DecimalPos.Unsigned.to_uint_nonnil p) as Hn.
      destruct (Pos.to_uint p) eqn:Hp; try contradiction;
        rewrite <- Hp in *;
        exact (proj1 (StringToBigInt_decimal (Pos.to_uint p) Hn)).
    - unfold NilZero.string_of_uint.
      pose proof (DecimalPos.Unsigned.to_uint_nonnil p) as Hn.
      destruct (Pos.to_uint p) eqn:Hp; try contradiction;
        rewrite <- Hp in *;
        exact (proj2 (StringToBigInt_decimal (Pos.to_uint p) Hn)). }
  rewrite H. reflexivity.
Qed.

(** *** [ConcordiumClient.verifyPayment] *)

Lemma client_amount_reads_back (micro : option Z) :
  BigInt (nullish (Some (nullish (option_map BigInt_toString micro) "")) "0")
  = Returned (nullish micro 0).
Proof.
  destruct micro as [z|]; simpl.
  - apply BigInt_toString_roundtrip.
  - reflexivity.
Qed.

(** X8.  [verifyPayment] of [ConcordiumClient], once the hash has parsed
    and the node has answered, always returns a verdict with the snapshot
    attached, and never throws on the amount: a transaction the node does
    not know, or one that is neither committed nor finalized, is
    [pending]; then the recipient address must be present and equal,
    letter case included, to the expected one ([recipient_mismatch]); then
    the transferred micro CCD, zero when there is no transfer amount, must
    reach the minimum ([insufficient_amount]); otherwise the payment is
    valid, finalized or not. *)
Theorem verifyPayment_decision :
  forall (W : Type) (client : Client.Sdk W) (txHash hash recipient : string)
         (minAmount : Z) (w w' : W) (blockStatus : option Client.SdkBlockItemStatus.t),
    Client.TransactionHash_fromHexString client txHash = Returned hash ->
    Client.getBlockItemStatus client hash w = Some (Returned blockStatus, w') ->
    exists info,
      Client.getTransactionStatus client txHash w = Some (Returned info, w')
      /\ Client.verifyPayment client txHash recipient minAmount w
         = Some (Returned
                   {| Client.valid :=
                        fst (Readings.paymentVerdict blockStatus recipient minAmount);
                      Client.reason :=
                        snd (Readings.paymentVerdict blockStatus recipient minAmount);
                      Client.info := Some info |}, w').
Proof.
  intros W client txHash hash recipient minAmount w w' blockStatus Hh Hb.
  unfold Client.verifyPayment, Client.getTransactionStatus, bind, lift, ret.
  rewrite Hh, Hb.
  destruct blockStatus as [s|].
  - eexists. split; [reflexivity|].
    unfold Client.isStatus, Readings.paymentVerdict, Readings.included.
    cbn [Client.TransactionInfo.status Client.TransactionInfo.recipient
         Client.TransactionInfo.amount truthy_opt].
    fold (Readings.summaryOf s). fold (Readings.recipientOf s).
    fold (Readings.microCcdOf s).
    rewrite client_amount_reads_back.
    unfold truthy, strict_neq. cbn [nullish].
    destruct (Client.SdkBlockItemStatus.status s =? "finalized")%string;
      [|destruct (Client.SdkBlockItemStatus.status s =? "committed")%string];
      cbn [TxStatus_eqb orb negb fst snd]; try reflexivity;
      destruct (Readings.recipientOf s =? "")%string;
      cbn [orb negb fst snd]; try reflexivity;
      destruct (Readings.recipientOf s =? recipient)%string;
      cbn [orb negb fst snd]; try reflexivity;
      destruct (nullish (Readings.microCcdOf s) 0 <? minAmount); reflexivity.
  - eexists. split; reflexivity.
Qed.

(** The tests "returns valid for correct payment" and "returns
    recipient_mismatch for wrong recipient", the latter with a recipient
    that differs in case only. *)
Lemma verifyPayment_decision_witness :
  (exists info,
      Client.getTransactionStatus
        (Sim.sdk (fun _ _ => Returned (Some (Ledgers.sdkBlockItem "finalized" None))))
        "cc" 0 = Some (Returned info, 0)
      /\ Client.verifyPayment
           (Sim.sdk (fun _ _ => Returned (Some (Ledgers.sdkBlockItem "finalized" None))))
           "cc" "recipient" 1000000 0
         = Some (Returned {| Client.valid := true; Client.reason := None;
                             Client.info := Some info |}, 0))
  /\ (exists info,
      Client.getTransactionStatus
        (Sim.sdk (fun _ _ => Returned (Some (Ledgers.sdkBlockItem "finalized" None))))
        "dd" 0 = Some (Returned info, 0)
      /\ Client.verifyPayment
           (Sim.sdk (fun _ _ => Returned (Some (Ledgers.sdkBlockItem "finalized" None))))
           "dd" "Recipient" 1000000 0
         = Some (Returned {| Client.valid := false;
                             Client.reason := Some "recipient_mismatch";
                             Client.info := Some info |}, 0)).
Proof.
  split.
  - exact (verifyPayment_decision Sim.World
             (Sim.sdk (fun _ _ => Returned (Some (Ledgers.sdkBlockItem "finalized" None))))
             "cc" "cc" "recipient" 1000000 0 0
             (Some (Ledgers.sdkBlockItem "finalized" None)) eq_refl eq_refl).
  - exact (verifyPayment_decision Sim.World
             (Sim.sdk (fun _ _ => Returned (Some (Ledgers.sdkBlockItem "finalized" None))))
             "dd" "dd" "Recipient" 1000000 0 0
             (Some (Ledgers.sdkBlockItem "finalized" None)) eq_refl eq_refl).
Defined.

(** *** [ConcordiumClient.waitForFinalization] *)

Lemma client_waitLoop_result W (rt : Runtime W) (client : Client.Sdk W) txHash
    start timeoutMs :
  forall fuel w r w',
    Client.waitLoop rt client fuel txHash start timeoutMs w = Some (Returned r, w') ->
    exists info w0,
      r = Some info
      /\ Client.getTransactionStatus client txHash w0 = Some (Returned info, w')
      /\ (Client.TransactionInfo.status info = finalized
          \/ timeoutMs <= Date_now rt w0 - start).
Proof.
  induction fuel as [|fuel IH]; intros w r w'; simpl; [discriminate|].
  destruct (Z.ltb_spec (Date_now rt w - start) timeoutMs) as [Hlt|Hge].
  - unfold bind, ret, sleep.
    destruct (Client.getTransactionStatus client txHash w)
      as [[[info|e] w1]|] eqn:Hc; try discriminate.
    destruct (Client.isStatus finalized info || Client.isStatus failed info) eqn:Ht.
    + intros H. injection H as <- <-. exists info, w. split; [reflexivity|].
      split; [exact Hc|]. left.
      destruct (client_status_not_failed W client txHash w info w1 Hc)
        as [Hs | [Hs | Hs]]; unfold Client.isStatus in Ht; rewrite Hs in Ht;
        try discriminate. exact Hs.
    + apply IH.
  - unfold bind, ret.
    destruct (Client.getTransactionStatus client txHash w)
      as [[[info|e] w1]|] eqn:Hc; try discriminate.
    intros H. injection H as <- <-. exists info, w. split; [reflexivity|].
    split; [exact Hc|]. right. exact Hge.
Qed.

(** X9.  Whatever [ConcordiumClient.waitForFinalization] returns is the
    snapshot of the last lookup it made, never [null] and never a failed
    snapshot; that snapshot is finalized unless the lookup was made after
    the timeout (60000 ms when none is given) had elapsed, in which case
    it may be pending or committed. *)
Theorem client_wait_returns_last_snapshot :
  forall (W : Type) (rt : Runtime W) (client : Client.Sdk W) (fuel : nat)
         (txHash : string) (timeoutMs : option Z) (w w' : W)
         (r : option Client.TransactionInfo.t),
    Client.waitForFinalization rt client fuel txHash timeoutMs w
    = Some (Returned r, w') ->
    exists info w0,
      r = Some info
      /\ Client.getTransactionStatus client txHash w0 = Some (Returned info, w')
      /\ Client.TransactionInfo.status info <> failed
      /\ (Client.TransactionInfo.status info = finalized
          \/ nullish timeoutMs 60000 <= Date_now rt w0 - Date_now rt w).
Proof.
  intros W rt client fuel txHash timeoutMs w w' r H.
  unfold Client.waitForFinalization in H.
  destruct (client_waitLoop_result W rt client txHash _ _ fuel w r w' H)
    as (info & w0 & Hr & Hc & Hd).
  exists info, w0. repeat split; auto.
  destruct (client_status_not_failed W client txHash w0 info w' Hc)
    as [Hs | [Hs | Hs]]; rewrite Hs; discriminate.
Qed.

(** The transaction that stays committed, waited for during four
    seconds. *)
Lemma client_wait_returns_last_snapshot_witness :
  exists info w0,
    Client.getTransactionStatus
      (Sim.sdk (fun _ _ => Returned (Some (Ledgers.sdkBlockItem "committed" None))))
      "tx123" w0 = Some (Returned info, 4000)
    /\ Client.TransactionInfo.status info <> failed
    /\ (Client.TransactionInfo.status info = finalized \/ 4000 <= w0 - 0).
Proof.
  destruct (client_wait_returns_last_snapshot Sim.World Sim.runtime
              (Sim.sdk (fun _ _ => Returned (Some (Ledgers.sdkBlockItem "committed" None))))
              100 "tx123" (Some 4000) 0 4000
              (Some (Client.TransactionInfo.mk "tx123" committed "sender"
                       (Some "recipient") (Some "1000000") None None None))
              eq_refl)
    as (info & w0 & _ & Hc & Hf & Hd).
  exists info, w0. repeat split; assumption.
Defined.

(** *** The subscription path of the gRPC node client *)

(** X10.  When the gRPC client offers [waitForTransactionFinalization]
    and that call resolves, [waitForFinalization] of the node client
    never looks the transaction up: its result is [null] if the call
    resolved with [null], and otherwise a snapshot built from the
    resolved summary alone, always with status [finalized] and without
    error; the timeout handed on is the caller's, or 60000 when none was
    given.  Only when the call throws, or is not offered, does the result
    come from polling; and with a timeout that is not positive polling is
    a single lookup returned as it is. *)
Theorem subscription_result_bypasses_lookup :
  forall (W : Type) (rt : Runtime W) (fuel : nat) (txHash : string)
         (timeoutMs : option Z) (w : W)
         (lookup : string -> Async W (option GrpcNode.BlockItemStatus.t)),
    (forall subscribe r w',
        subscribe txHash (nullish timeoutMs 60000) w = Some (Returned r, w') ->
        GrpcNode.waitForFinalization rt
          {| GrpcNode.getBlockItemStatus := lookup;
             GrpcNode.waitForTransactionFinalization := Some subscribe |}
          fuel txHash timeoutMs w
        = Some (Returned (option_map (GrpcNode.finalizedInfo txHash) r), w')
        /\ forall result,
            ConcordiumTransactionInfo.status (GrpcNode.finalizedInfo txHash result)
            = finalized
            /\ ConcordiumTransactionInfo.error (GrpcNode.finalizedInfo txHash result)
               = None)
    /\ (forall subscribe e w',
        subscribe txHash (nullish timeoutMs 60000) w = Some (Thrown e, w') ->
        GrpcNode.waitForFinalization rt
          {| GrpcNode.getBlockItemStatus := lookup;
             GrpcNode.waitForTransactionFinalization := Some subscribe |}
          fuel txHash timeoutMs w
        = GrpcNode.pollForFinalization rt
            {| GrpcNode.getBlockItemStatus := lookup;
               GrpcNode.waitForTransactionFinalization := Some subscribe |}
            fuel txHash (nullish timeoutMs 60000) w')
    /\ (nullish timeoutMs 60000 <= 0 ->
        GrpcNode.waitForFinalization rt
          {| GrpcNode.getBlockItemStatus := lookup;
             GrpcNode.waitForTransactionFinalization := None |}
          (S fuel) txHash timeoutMs w
        = GrpcNode.getTransactionStatus
            {| GrpcNode.getBlockItemStatus := lookup;
               GrpcNode.waitForTransactionFinalization := None |} txHash w).
Proof.
  intros W rt fuel txHash timeoutMs w lookup. split; [|split].
  - intros subscribe r w' Hs. split.
    + unfold GrpcNode.waitForFinalization, bind, attempt, ret. simpl.
      rewrite Hs. destruct r; reflexivity.
    + intros result. split; reflexivity.
  - intros subscribe e w' Hs.
    unfold GrpcNode.waitForFinalization, bind, attempt. simpl.
    rewrite Hs. reflexivity.
  - intros Hle.
    unfold GrpcNode.waitForFinalization, GrpcNode.pollForFinalization. simpl.
    assert (Ht : (Date_now rt w - Date_now rt w <? nullish timeoutMs 60000) = false)
      by (apply Z.ltb_ge; lia).
    rewrite Ht. reflexivity.
Qed.

(** The test "should use SDK waitForTransactionFinalization if
    available", over a ledger that cannot be reached, and a wait with no
    time at all for the transaction that stays committed. *)
Lemma subscription_result_bypasses_lookup_witness :
  GrpcNode.waitForFinalization Sim.runtime
    (Sim.grpc Ledgers.unreachable (Some Ledgers.rejectedSubscription))
    100 "tx123" (Some 5000) 0
  = Some (Returned (Some (GrpcNode.finalizedInfo "tx123"
                            {| GrpcNode.FinalizedTransaction.blockHash := "final-block";
                               GrpcNode.FinalizedTransaction.summary :=
                                 Ledgers.rejectedSummary |})), 5000)
  /\ GrpcNode.waitForFinalization Sim.runtime
       (Sim.grpc Ledgers.stuckCommitted None) 1 "tx123" (Some 0) 0
     = GrpcNode.getTransactionStatus (Sim.grpc Ledgers.stuckCommitted None) "tx123" 0.
Proof.
  split.
  - apply (proj1 (proj1 (subscription_result_bypasses_lookup Sim.World Sim.runtime
                           100 "tx123" (Some 5000) 0
                           (fun txHash w => Some (Ledgers.unreachable txHash w, w)))
                   (fun txHash timeoutMs w =>
                      Some (Ledgers.rejectedSubscription txHash timeoutMs,
                            w + timeoutMs))
                   (Some {| GrpcNode.FinalizedTransaction.blockHash := "final-block";
                            GrpcNode.FinalizedTransaction.summary :=
                              Ledgers.rejectedSummary |})
                   5000 eq_refl)).
  - apply (proj2 (proj2 (subscription_result_bypasses_lookup Sim.World Sim.runtime
                           0 "tx123" (Some 0) 0
                           (fun txHash w => Some (Ledgers.stuckCommitted txHash w, w))))).
    simpl. lia.
Defined.

(** *** The mock node client *)

Lemma valid_verdict_needs_snapshot p rf i lookup :
  (firstFailure p (checksV2 rf i lookup) = Returned (valid p)
   \/ firstFailure p (checksV1 rf i lookup) = Returned (valid p)) ->
  exists tx, lookup = Returned (Some tx).
Proof.
  intros H.
  assert (Hall : allPass (checksV2 rf i lookup) = true
                 \/ allPass (checksV1 rf i lookup) = true).
  { destruct H as [H|H]; [left|right];
      exact (proj2 (firstFailure_valid _ _ _ H eq_refl)). }
  destruct lookup as [[tx|]|e]; [eauto| |].
  - exfalso. unfold checksV2, checksV1, allPass in Hall.
    rewrite !forallb_app in Hall. simpl in Hall.
    destruct Hall as [Hall|Hall];
      rewrite !andb_false_r in Hall; simpl in Hall;
      rewrite ?andb_false_r in Hall; discriminate.
  - exfalso. unfold checksV2, checksV1, allPass in Hall.
    rewrite !forallb_app in Hall. simpl in Hall.
    destruct Hall as [Hall|Hall];
      rewrite !andb_false_r in Hall; simpl in Hall;
      rewrite ?andb_false_r in Hall; discriminate.
Qed.

Lemma set_status_status s tx :
  ConcordiumTransactionInfo.status (GrpcNode.set_status s tx) = s.
Proof. reflexivity. Qed.

Lemma mock_lookup W mockTransactions txHash (w : W) :
  getTransactionStatus (GrpcNode.createMockConcordiumNodeClient mockTransactions)
    txHash w
  = Some (Returned (GrpcNode.Map_get mockTransactions txHash), w).
Proof. reflexivity. Qed.

Lemma mock_wait W mockTransactions txHash timeoutMs (w : W) :
  waitForFinalization (GrpcNode.createMockConcordiumNodeClient mockTransactions)
    txHash timeoutMs w
  = Some (Returned (option_map (GrpcNode.set_status finalized)
                      (GrpcNode.Map_get mockTransactions txHash)), w).
Proof.
  simpl. destruct (GrpcNode.Map_get mockTransactions txHash); reflexivity.
Qed.

(** X11.  Over the mock node client, whose [waitForFinalization] turns
    every transaction it knows into a finalized one, settlement never
    times out: for every table of transactions and every payload,
    [settle] of either scheme returns success exactly when [verify] is
    valid and mirrors the reason of [verify] otherwise, whether finality
    is required or not; the mock never leaves a call pending. *)
Theorem settle_over_mock_mirrors_verify :
  forall (W : Type) (mockTransactions : list (string * ConcordiumTransactionInfo.t))
         (rf : bool) (timeout : Z) (w : W),
    let config :=
      {| nodeClient := GrpcNode.createMockConcordiumNodeClient mockTransactions;
         requireFinalization := rf; finalizationTimeoutMs := timeout |} in
    (forall payload requirements,
        match Facilitator.verify config payload requirements w with
        | Some (Returned vr, w') =>
            Facilitator.settle config payload requirements w
            = Some (Returned (settlement (inputsV2 payload requirements)
                                (isValid vr) (invalidReason vr)), w')
        | Some (Thrown e, w') =>
            Facilitator.settle config payload requirements w = Some (Thrown e, w')
        | None => False
        end)
    /\ (forall payloadV1 requirementsV1,
        match FacilitatorV1.verify config payloadV1 requirementsV1 w with
        | Some (Returned vr, w') =>
            FacilitatorV1.settle config payloadV1 requirementsV1 w
            = Some (Returned (settlement (inputsV1 payloadV1 requirementsV1)
                                (isValid vr) (invalidReason vr)), w')
        | Some (Thrown e, w') =>
            FacilitatorV1.settle config payloadV1 requirementsV1 w
            = Some (Thrown e, w')
        | None => False
        end).
Proof.
  intros W mockTransactions rf timeout w config. split.
  - intros payload requirements.
    unfold Facilitator.settle, bind, attempt.
    rewrite verifyV2_unfold.
    set (i := inputsV2 payload requirements).
    destruct (allPass (envelopeChecks i)) eqn:He.
    + unfold config at 1 2. simpl nodeClient. rewrite mock_lookup.
      simpl requireFinalization.
      destruct (firstFailure (claimedSender i)
                  (checksV2 rf i
                     (Returned (GrpcNode.Map_get mockTransactions (claimedTxHash i)))))
        as [vr|e] eqn:Hff; [|reflexivity].
      destruct (firstFailure_shape _ _ _ Hff) as [->|(reason & _ & ->)];
        [|reflexivity].
      destruct (valid_verdict_needs_snapshot _ rf i _ (or_introl Hff)) as [tx Htx].
      injection Htx as Htx.
      cbn [isValid negb valid]. unfold config.
      destruct rf; [|reflexivity].
      cbn [nodeClient requireFinalization finalizationTimeoutMs].
      change (ExactConcordiumPayload.txHash (PaymentPayload.payload payload))
        with (claimedTxHash i) in *.
      rewrite mock_wait, Htx. reflexivity.
    + destruct (envelope_failure i He) as [reason ->]. reflexivity.
  - intros payloadV1 requirementsV1.
    unfold FacilitatorV1.settle, bind, attempt.
    rewrite verifyV1_unfold.
    set (i := inputsV1 payloadV1 requirementsV1).
    destruct (allPass (envelopeChecks i)) eqn:He.
    + unfold config at 1 2. simpl nodeClient. rewrite mock_lookup.
      simpl requireFinalization.
      destruct (firstFailure (claimedSender i)
                  (checksV1 rf i
                     (Returned (GrpcNode.Map_get mockTransactions (claimedTxHash i)))))
        as [vr|e] eqn:Hff; [|reflexivity].
      destruct (firstFailure_shape _ _ _ Hff) as [->|(reason & _ & ->)];
        [|reflexivity].
      destruct (valid_verdict_needs_snapshot _ rf i _ (or_intror Hff)) as [tx Htx].
      injection Htx as Htx.
      cbn [isValid negb valid]. unfold config.
      destruct rf; [|reflexivity].
      cbn [nodeClient requireFinalization finalizationTimeoutMs].
      change (ExactConcordiumPayload.txHash (PaymentPayloadV1.payload payloadV1))
        with (claimedTxHash i) in *.
      rewrite mock_wait, Htx. reflexivity.
    + destruct (envelope_failure i He) as [reason ->]. reflexivity.
Qed.

(* ===================================================================== *)
(** ** Configuration: asset strings, network names, token lookups *)
(* ===================================================================== *)

(** *** Splitting *)

Lemma split_nonempty sep s : Js.split sep s <> [].
Proof.
  destruct s as [|c s]; simpl; [discriminate|].
  destruct (Ascii.eqb c sep); [discriminate|].
  destruct (Js.split sep s); discriminate.
Qed.

Lemma split_without sep s : Js.contains sep s = false -> Js.split sep s = [s].
Proof.
  induction s as [|c s IH]; simpl; [reflexivity|].
  intros H. apply orb_false_iff in H. destruct H as [Hc Hs].
  rewrite Hc, (IH Hs). reflexivity.
Qed.

Lemma split_with sep s :
  Js.contains sep s = true ->
  exists part0 part1 rest, Js.split sep s = part0 :: part1 :: rest.
Proof.
  induction s as [|c s IH]; simpl; [discriminate|].
  destruct (Ascii.eqb c sep); simpl.
  - intros _. pose proof (split_nonempty sep s) as Hn.
    destruct (Js.split sep s) as [|p ps]; [contradiction|].
    exists EmptyString, p, ps. reflexivity.
  - intros H. destruct (IH H) as (p0 & p1 & rest & Hs). rewrite Hs.
    exists (String c p0), p1, rest. reflexivity.
Qed.

Lemma split_app sep a rest :
  Js.contains sep a = false ->
  Js.split sep (a ++ String sep rest) = a :: Js.split sep rest.
Proof.
  induction a as [|c a IH]; simpl.
  - intros _. rewrite Ascii.eqb_refl. reflexivity.
  - intros H. apply orb_false_iff in H. destruct H as [Hc Ha].
    rewrite Hc, (IH Ha). reflexivity.
Qed.

(** *** Numbers written and read back *)

Lemma decimal_without_colon d :
  Js.contains ":" (NilEmpty.string_of_uint d) = false.
Proof. induction d; simpl; auto. Qed.

Lemma Number_toString_without_colon z :
  Js.contains ":" (Js.Number_toString z) = false.
Proof.
  unfold Js.Number_toString, BigInt_toString.
  destruct z as [|p|p]; simpl; [reflexivity| |];
    unfold NilZero.string_of_uint;
    destruct (Pos.to_uint p); simpl; auto using decimal_without_colon.
Qed.

Lemma leadingDigits_decimal d : forall acc,
  Js.leadingDigits true acc (NilEmpty.string_of_uint d)
  = Some (Digits.valueFrom acc d).
Proof.
  induction d; intros acc; simpl; try reflexivity; apply IHd.
Qed.

Lemma parseInt10_decimal d :
  d <> Decimal.Nil ->
  Js.parseInt10 (NilEmpty.string_of_uint d) = Js.Int (Z.of_uint d)
  /\ Js.parseInt10 (String "-" (NilEmpty.string_of_uint d))
     = Js.Int (- Z.of_uint d).
Proof.
  intros Hd. rewrite <- valueFrom_zero.
  assert (Hl : Js.leadingDigits false 0 (NilEmpty.string_of_uint d)
               = Some (Digits.valueFrom 0 d)).
  { destruct d; try contradiction; simpl; apply leadingDigits_decimal. }
  split.
  - unfold Js.parseInt10.
    destruct d; try contradiction;
      simpl; rewrite leadingDigits_decimal; reflexivity.
  - unfold Js.parseInt10. simpl trimStart. cbv iota. rewrite Hl. reflexivity.
Qed.

Lemma parseInt10_Number_toString z :
  Js.parseInt10 (Js.Number_toString z) = Js.Int z.
Proof.
  unfold Js.Number_toString, BigInt_toString.
  rewrite <- (DecimalZ.of_to z) at 2.
  destruct z as [|p|p]; simpl.
  - reflexivity.
  - unfold NilZero.string_of_uint.
    pose proof (DecimalPos.Unsigned.to_uint_nonnil p) as Hn.
    destruct (Pos.to_uint p) eqn:Hp; try contradiction;
      rewrite <- Hp in *;
      exact (proj1 (parseInt10_decimal (Pos.to_uint p) Hn)).
  - unfold NilZero.string_of_uint.
    pose proof (DecimalPos.Unsigned.to_uint_nonnil p) as Hn.
    destruct (Pos.to_uint p) eqn:Hp; try contradiction;
      rewrite <- Hp in *;
      exact (proj2 (parseInt10_decimal (Pos.to_uint p) Hn)).
Qed.

(** *** Asset strings *)

Lemma or_empty_first parts :
  parts <> [] -> or_empty (nth_error parts 0) = hd EmptyString parts.
Proof.
  destruct parts as [|p ps]; [contradiction|]. intros _. simpl.
  unfold truthy. destruct (p =? "")%string eqn:E; simpl; [|reflexivity].
  apply String.eqb_eq in E. congruence.
Qed.

Lemma app_truthy a b : truthy (a ++ String ":" b) = true.
Proof. destruct a; reflexivity. Qed.

Lemma formatAssetString_parts token :
  Tokens.formatAssetString token
  = Js.Number_toString (Tokens.CIS2TokenConfig.contractIndex token)
    ++ String ":" (Js.Number_toString (Tokens.CIS2TokenConfig.contractSubindex token)
                   ++ String ":" (Tokens.CIS2TokenConfig.tokenId token)).
Proof. reflexivity. Qed.

(** X12.  [parseAssetString] reads back what [formatAssetString] writes:
    for a token whose contract index and subindex are safe integers the
    formatted string is never taken for the native asset, by
    [parseAssetString] or by [isNativeCCD], the two indices come back as
    they were, and the token id comes back up to its first colon, so
    unchanged when it has none. *)
Theorem asset_string_round_trip :
  forall token : Tokens.CIS2TokenConfig.t,
    Js.isSafeInteger (Tokens.CIS2TokenConfig.contractIndex token) ->
    Js.isSafeInteger (Tokens.CIS2TokenConfig.contractSubindex token) ->
    Tokens.parseAssetString (Tokens.formatAssetString token)
    = {| Tokens.isNative := false;
         Tokens.contractIndex :=
           Some (Js.Int (Tokens.CIS2TokenConfig.contractIndex token));
         Tokens.contractSubindex :=
           Some (Js.Int (Tokens.CIS2TokenConfig.contractSubindex token));
         Tokens.tokenId :=
           Some (hd EmptyString
                    (Js.split ":" (Tokens.CIS2TokenConfig.tokenId token))) |}
    /\ Tokens.isNativeCCD (Tokens.formatAssetString token) = false
    /\ (Js.contains ":" (Tokens.CIS2TokenConfig.tokenId token) = false ->
        Tokens.tokenId (Tokens.parseAssetString (Tokens.formatAssetString token))
        = Some (Tokens.CIS2TokenConfig.tokenId token)).
Proof.
  intros token _ _.
  assert (Hp : Tokens.parseAssetString (Tokens.formatAssetString token)
    = {| Tokens.isNative := false;
         Tokens.contractIndex :=
           Some (Js.Int (Tokens.CIS2TokenConfig.contractIndex token));
         Tokens.contractSubindex :=
           Some (Js.Int (Tokens.CIS2TokenConfig.contractSubindex token));
         Tokens.tokenId :=
           Some (hd EmptyString
                    (Js.split ":" (Tokens.CIS2TokenConfig.tokenId token))) |}).
  { unfold Tokens.parseAssetString. rewrite formatAssetString_parts.
    rewrite app_truthy.
    assert (He : forall a b, ((a ++ String ":" b) =? "")%string = false)
      by (intros [|] b; reflexivity).
    rewrite He. cbn [negb orb].
    rewrite split_app by apply Number_toString_without_colon.
    rewrite split_app by apply Number_toString_without_colon.
    rewrite !parseInt10_Number_toString.
    rewrite or_empty_first by apply split_nonempty. reflexivity. }
  split; [exact Hp|]. split.
  - unfold Tokens.isNativeCCD. rewrite formatAssetString_parts.
    rewrite app_truthy.
    destruct (Js.Number_toString (Tokens.CIS2TokenConfig.contractIndex token));
      reflexivity.
  - intros Hc. rewrite Hp. cbn [Tokens.tokenId].
    rewrite (split_without _ _ Hc). reflexivity.
Qed.

Lemma asset_string_round_trip_witness :
  Tokens.parseAssetString "9390:0:"
  = {| Tokens.isNative := false;
       Tokens.contractIndex := Some (Js.Int 9390);
       Tokens.contractSubindex := Some (Js.Int 0);
       Tokens.tokenId := Some EmptyString |}.
Proof.
  assert (H1 : Js.isSafeInteger 9390) by (unfold Js.isSafeInteger; lia).
  assert (H2 : Js.isSafeInteger 0) by (unfold Js.isSafeInteger; lia).
  exact (proj1 (asset_string_round_trip
                  {| Tokens.CIS2TokenConfig.symbol := "EUROe";
                     Tokens.CIS2TokenConfig.name := "EUROe Stablecoin";
                     Tokens.CIS2TokenConfig.contractIndex := 9390;
                     Tokens.CIS2TokenConfig.contractSubindex := 0;
                     Tokens.CIS2TokenConfig.tokenId := "";
                     Tokens.CIS2TokenConfig.decimals := 6;
                     Tokens.CIS2TokenConfig.type := "stablecoin";
                     Tokens.CIS2TokenConfig.issuer := Some "Membrane Finance" |}
                  H1 H2)).
Defined.

(** X13.  [parseAssetString] takes for the native asset exactly the
    strings without a colon, [isNativeCCD] only the empty string: every
    string [isNativeCCD] accepts is native for [parseAssetString], and a
    string with a colon always parses into a contract index, a subindex
    and a token id, whatever its parts hold. *)
Theorem native_asset_detection :
  forall asset : string,
    Tokens.isNative (Tokens.parseAssetString asset) = negb (Js.contains ":" asset)
    /\ Tokens.isNativeCCD asset = (asset =? "")%string
    /\ (if Js.contains ":" asset
        then exists index subindex id,
               Tokens.parseAssetString asset
               = {| Tokens.isNative := false;
                    Tokens.contractIndex := Some index;
                    Tokens.contractSubindex := Some subindex;
                    Tokens.tokenId := Some id |}
        else Tokens.parseAssetString asset = Tokens.native).
Proof.
  intros asset.
  assert (H2 : Tokens.isNativeCCD asset = (asset =? "")%string).
  { unfold Tokens.isNativeCCD, truthy.
    destruct (asset =? "")%string; reflexivity. }
  assert (H3 : if Js.contains ":" asset
        then exists index subindex id,
               Tokens.parseAssetString asset
               = {| Tokens.isNative := false;
                    Tokens.contractIndex := Some index;
                    Tokens.contractSubindex := Some subindex;
                    Tokens.tokenId := Some id |}
        else Tokens.parseAssetString asset = Tokens.native).
  { destruct (Js.contains ":" asset) eqn:Hc.
    - destruct (split_with _ _ Hc) as (p0 & p1 & rest & Hs).
      unfold Tokens.parseAssetString. rewrite Hs.
      destruct asset as [|c asset]; [discriminate|].
      cbn [truthy String.eqb negb orb].
      do 3 eexists. reflexivity.
    - unfold Tokens.parseAssetString. rewrite (split_without _ _ Hc).
      destruct (negb (truthy asset) || (asset =? "")%string); reflexivity. }
  split; [|split; assumption].
  destruct (Js.contains ":" asset).
  - destruct H3 as (i & s & d & H3). rewrite H3. reflexivity.
  - rewrite H3. reflexivity.
Qed.

(** *** Network names *)

Lemma network_cases (network : string) :
  network = "concordium"
  \/ network = "concordium-testnet"
  \/ network = "ccd:9dd9ca4d19e9393877d2c44b70f89acb"
  \/ network = "ccd:4221332d34e1694168c2a0c0b3fd0f27"
  \/ (GrpcNode.Map_get Chains.CONCORDIUM_CHAINS network = None
      /\ GrpcNode.Map_get Chains.CONCORDIUM_CHAINS_BY_CAIP2 network = None
      /\ GrpcNode.Map_get Tokens.TOKEN_REGISTRIES network = None
      /\ GrpcNode.Map_get Tokens.TOKEN_REGISTRIES_V1 network = None).
Proof.
  destruct (String.eqb_spec "concordium" network) as [<-|H1]; [auto|].
  destruct (String.eqb_spec "concordium-testnet" network) as [<-|H2]; [auto|].
  destruct (String.eqb_spec "ccd:9dd9ca4d19e9393877d2c44b70f89acb" network)
    as [<-|H3]; [auto|].
  destruct (String.eqb_spec "ccd:4221332d34e1694168c2a0c0b3fd0f27" network)
    as [<-|H4]; [auto 6|].
  apply String.eqb_neq in H1, H2, H3, H4.
  do 4 right. cbn -[String.eqb]. rewrite H1, H2, H3, H4. auto.
Qed.

Ltac by_network n :=
  destruct (network_cases n) as [->|[->|[->|[->|(?Hc & ?Hb & ?Ht & ?Hv)]]]].

(** X14.  [v1ToV2Network] and [v2ToV1Network] are inverse to each other:
    one turns a name into a second name exactly when the other turns the
    second into the first.  Each gives nothing exactly for the names that
    are not own keys of its table; the names of the members every object
    inherits ([toString], [constructor], [__proto__] and the like) are
    among those, for both. *)
Theorem network_names_inverse :
  forall v1 v2 : string,
    (Chains.v1ToV2Network v1 = Some v2 <-> Chains.v2ToV1Network v2 = Some v1)
    /\ (Chains.v1ToV2Network v1 = None
        <-> ~ In v1 (map fst Chains.CONCORDIUM_CHAINS))
    /\ (Chains.v2ToV1Network v2 = None
        <-> ~ In v2 (map fst Chains.CONCORDIUM_CHAINS_BY_CAIP2))
    /\ (Js.isInherited v1 = true ->
        Chains.v1ToV2Network v1 = None /\ Chains.v2ToV1Network v1 = None).
Proof.
  intros v1 v2. split; [|split; [|split]].
  - split; intros H.
    + by_network v1;
        try (vm_compute in H; first [discriminate | injection H as <-; reflexivity]).
      unfold Chains.v1ToV2Network, Js.lookup in H. rewrite Hc in H.
      destruct (Js.isInherited v1); discriminate.
    + by_network v2;
        try (vm_compute in H; first [discriminate | injection H as <-; reflexivity]).
      unfold Chains.v2ToV1Network, Js.lookup in H. rewrite Hb in H.
      destruct (Js.isInherited v2); discriminate.
  - by_network v1.
    + split; [discriminate|]. intros H. exfalso. apply H. simpl. auto.
    + split; [discriminate|]. intros H. exfalso. apply H. simpl. auto.
    + split; [intros _|reflexivity].
      simpl. intros [H|[H|[]]]; discriminate.
    + split; [intros _|reflexivity].
      simpl. intros [H|[H|[]]]; discriminate.
    + unfold Chains.v1ToV2Network, Js.lookup. rewrite Hc.
      split.
      * intros _ Hin. simpl in Hin, Hc.
        destruct Hin as [<-|[<-|[]]]; discriminate.
      * intros _. destruct (Js.isInherited v1); reflexivity.
  - by_network v2.
    + split; [intros _|reflexivity].
      simpl. intros [H|[H|[]]]; discriminate.
    + split; [intros _|reflexivity].
      simpl. intros [H|[H|[]]]; discriminate.
    + split; [discriminate|]. intros H. exfalso. apply H. simpl. auto.
    + split; [discriminate|]. intros H. exfalso. apply H. simpl. auto.
    + unfold Chains.v2ToV1Network, Js.lookup. rewrite Hb.
      split.
      * intros _ Hin. simpl in Hin, Hb.
        destruct Hin as [<-|[<-|[]]]; discriminate.
      * intros _. destruct (Js.isInherited v2); reflexivity.
  - intros Hi.
    by_network v1; try (vm_compute in Hi; discriminate).
    unfold Chains.v1ToV2Network, Chains.v2ToV1Network, Js.lookup.
    rewrite Hc, Hb, Hi. split; reflexivity.
Qed.

Lemma network_names_inverse_witness :
  Chains.v2ToV1Network "ccd:4221332d34e1694168c2a0c0b3fd0f27"
  = Some "concordium-testnet"%string
  /\ Chains.v1ToV2Network "toString" = None
  /\ Chains.v2ToV1Network "toString" = None.
Proof.
  split.
  - exact (proj1 (proj1 (network_names_inverse "concordium-testnet"
                           "ccd:4221332d34e1694168c2a0c0b3fd0f27")) eq_refl).
  - exact (proj2 (proj2 (proj2 (network_names_inverse "toString" "toString")))
                 eq_refl).
Defined.

(** X15.  The two spellings of a network are served alike: when
    [v1ToV2Network] turns a V1 name into a CAIP-2 identifier, both name
    the same chain configuration and the same token registry, which carry
    that identifier, every token lookup by symbol answers the same under
    both, and [ConcordiumClient.fromNetwork] is set up the same. *)
Theorem both_spellings_same_configuration :
  forall v1 v2 : string,
    Chains.v1ToV2Network v1 = Some v2 ->
    (exists chain registry,
        Chains.getChainConfig v1 = Js.Own chain
        /\ Chains.getChainConfig v2 = Js.Own chain
        /\ Tokens.getTokenRegistry v1 = Js.Own registry
        /\ Tokens.getTokenRegistry v2 = Js.Own registry
        /\ Chains.ConcordiumChainConfig.network chain = v2
        /\ Chains.ConcordiumChainConfig.v1Network chain = v1
        /\ Tokens.NetworkTokenRegistry.network registry = v2)
    /\ (forall symbol,
           Tokens.getTokenBySymbol v1 symbol = Tokens.getTokenBySymbol v2 symbol)
    /\ ClientSetup.fromNetwork v1 = ClientSetup.fromNetwork v2.
Proof.
  intros v1 v2 H.
  by_network v1; try (vm_compute in H; first [discriminate | injection H as <-]).
  - split; [|split].
    + exists Chains.CONCORDIUM_MAINNET, Tokens.MAINNET_TOKENS.
      repeat split; reflexivity.
    + intros symbol. reflexivity.
    + reflexivity.
  - split; [|split].
    + exists Chains.CONCORDIUM_TESTNET, Tokens.TESTNET_TOKENS.
      repeat split; reflexivity.
    + intros symbol. reflexivity.
    + reflexivity.
  - unfold Chains.v1ToV2Network, Js.lookup in H. rewrite Hc in H.
    destruct (Js.isInherited v1); discriminate.
Qed.

Lemma both_spellings_same_configuration_witness :
  ClientSetup.fromNetwork "concordium-testnet"
  = ClientSetup.fromNetwork "ccd:4221332d34e1694168c2a0c0b3fd0f27".
Proof.
  exact (proj2 (proj2 (both_spellings_same_configuration
                         "concordium-testnet"
                         "ccd:4221332d34e1694168c2a0c0b3fd0f27"
                         eq_refl))).
Defined.

(** *** Token lookups *)

Lemma getTokenRegistry_cases (network : string) :
  match Tokens.getTokenRegistry network with
  | Js.Own r =>
      (r = Tokens.MAINNET_TOKENS \/ r = Tokens.TESTNET_TOKENS)
      /\ Js.isInherited network = false
  | Js.Inherited key => key = network /\ Js.isInherited network = true
  | Js.Absent => Js.isInherited network = false
  end.
Proof.
  by_network network; try (vm_compute; auto; fail).
  unfold Tokens.getTokenRegistry, Js.lookup. rewrite Ht, Hv.
  destruct (Js.isInherited network); simpl; auto.
Qed.

(** X16.  A token found by symbol is a token of the network's registry
    whose symbol is the given one up to letter case, and the lookup by
    contract finds the same token under its index, with its subindex or
    with none given. *)
Theorem token_lookup_sound :
  forall (network symbol : string) (token : Tokens.CIS2TokenConfig.t),
    Tokens.getTokenBySymbol network symbol = Returned (Some token) ->
    Js.toUpperCase (Tokens.CIS2TokenConfig.symbol token) = Js.toUpperCase symbol
    /\ (exists registry,
           Tokens.getTokenRegistry network = Js.Own registry
           /\ In token (Tokens.NetworkTokenRegistry.tokens registry))
    /\ Tokens.getTokenByContract network
         (Tokens.CIS2TokenConfig.contractIndex token)
         (Some (Tokens.CIS2TokenConfig.contractSubindex token))
       = Returned (Some token)
    /\ Tokens.getTokenByContract network
         (Tokens.CIS2TokenConfig.contractIndex token) None
       = Returned (Some token).
Proof.
  intros network symbol token H.
  unfold Tokens.getTokenBySymbol in H.
  unfold Tokens.getTokenByContract.
  pose proof (getTokenRegistry_cases network) as Hr.
  destruct (Tokens.getTokenRegistry network) as [r|k|]; simpl in H;
    try discriminate.
  injection H as H. destruct (find_some _ _ H) as [Hin Hs].
  apply String.eqb_eq in Hs.
  destruct Hr as [[-> | ->] _]; simpl in Hin;
    destruct Hin as [<-|[]]; repeat split; auto;
    (eexists; split; [reflexivity | left; reflexivity]).
Qed.

Lemma token_lookup_sound_witness :
  Tokens.getTokenByContract "concordium" 9390 None
  = Returned (Some {| Tokens.CIS2TokenConfig.symbol := "EUROe";
                      Tokens.CIS2TokenConfig.name := "EUROe Stablecoin";
                      Tokens.CIS2TokenConfig.contractIndex := 9390;
                      Tokens.CIS2TokenConfig.contractSubindex := 0;
                      Tokens.CIS2TokenConfig.tokenId := "";
                      Tokens.CIS2TokenConfig.decimals := 6;
                      Tokens.CIS2TokenConfig.type := "stablecoin";
                      Tokens.CIS2TokenConfig.issuer := Some "Membrane Finance" |}).
Proof.
  exact (proj2 (proj2 (proj2 (token_lookup_sound "concordium" "euroe" _ eq_refl)))).
Defined.

(** X17.  The token lookups throw exactly when the network is the name of
    a member every object inherits ([toString], [constructor],
    [__proto__] and the like): the registry tables then answer with that
    member, which is truthy and has no [tokens].  For every other network
    they return, with nothing found when the network has no registry. *)
Theorem token_lookups_throw_on_inherited_names :
  forall (network symbol : string) (contractIndex : Z) (contractSubindex : option Z),
    ((exists e, Tokens.getTokenBySymbol network symbol = Thrown e)
     <-> Js.isInherited network = true)
    /\ ((exists e, Tokens.getTokenByContract network contractIndex contractSubindex
                   = Thrown e)
        <-> Js.isInherited network = true)
    /\ ((exists e, Tokens.getStablecoins network = Thrown e)
        <-> Js.isInherited network = true)
    /\ (Tokens.getTokenRegistry network = Js.Absent ->
        Tokens.getTokenBySymbol network symbol = Returned None
        /\ Tokens.getTokenByContract network contractIndex contractSubindex
           = Returned None
        /\ Tokens.getStablecoins network = Returned []).
Proof.
  intros network symbol ci csi.
  unfold Tokens.getTokenBySymbol, Tokens.getTokenByContract, Tokens.getStablecoins.
  pose proof (getTokenRegistry_cases network) as Hr.
  destruct (Tokens.getTokenRegistry network) as [r|k|]; simpl.
  - destruct Hr as [_ Hi]. rewrite Hi.
    repeat split; try (intros [e He]; discriminate); try discriminate.
  - destruct Hr as [_ Hi]. rewrite Hi.
    repeat split; eauto; discriminate.
  - rewrite Hr.
    repeat split; try (intros [e He]; discriminate); try discriminate.
Qed.

Lemma token_lookups_throw_on_inherited_names_witness :
  exists e, Tokens.getTokenBySymbol "toString" "EUROe" = Thrown e.
Proof.
  exact (proj2 (proj1 (token_lookups_throw_on_inherited_names
                         "toString" "EUROe" 9390 None)) eq_refl).
Defined.

(** *** [ConcordiumClient.fromNetwork] *)

Lemma getChainConfig_cases (network : string) :
  match Chains.getChainConfig network with
  | Js.Own c =>
      (c = Chains.CONCORDIUM_MAINNET \/ c = Chains.CONCORDIUM_TESTNET)
      /\ (network = Chains.ConcordiumChainConfig.v1Network c
          \/ network = Chains.ConcordiumChainConfig.network c)
  | Js.Inherited key => key = network /\ Js.isInherited network = true
  | Js.Absent => Js.isInherited network = false
  end.
Proof.
  by_network network; try (vm_compute; auto; fail).
  unfold Chains.getChainConfig, Js.lookup. rewrite Hc, Hb.
  destruct (Js.isInherited network); simpl; auto.
  destruct (Js.startsWith network "ccd:"); reflexivity.
Qed.

(** X18.  A client [ConcordiumClient.fromNetwork] builds is configured
    from the chain the network names, under its V1 name or its CAIP-2
    identifier: host and port are the two parts of the chain's gRPC
    endpoint, so joined by a colon they give it back, the port is the
    number written there, TLS is on and the timeout is 30000 ms. *)
Theorem fromNetwork_reads_the_endpoint :
  forall (network : string) (client : ClientSetup.RequiredConfig),
    ClientSetup.fromNetwork network = Returned client ->
    exists chain port,
      Chains.getChainConfig network = Js.Own chain
      /\ (network = Chains.ConcordiumChainConfig.v1Network chain
          \/ network = Chains.ConcordiumChainConfig.network chain)
      /\ ClientSetup.config_port client = Js.Int port
      /\ Chains.ConcordiumChainConfig.grpcUrl chain
         = ClientSetup.config_host client ++ ":" ++ Js.Number_toString port
      /\ ClientSetup.config_useTls client = true
      /\ ClientSetup.config_timeoutMs client = Js.Int 30000.
Proof.
  intros network client H.
  unfold ClientSetup.fromNetwork in H.
  pose proof (getChainConfig_cases network) as Hc.
  destruct (Chains.getChainConfig network) as [c|k|]; try discriminate.
  destruct Hc as [[-> | ->] Hn]; vm_compute in H; injection H as <-;
    eexists; exists 20000; repeat split; try exact Hn; reflexivity.
Qed.

Lemma fromNetwork_reads_the_endpoint_witness :
  exists chain port,
    Chains.getChainConfig "concordium" = Js.Own chain
    /\ ("concordium"%string = Chains.ConcordiumChainConfig.v1Network chain
        \/ "concordium"%string = Chains.ConcordiumChainConfig.network chain)
    /\ Js.Int 20000 = Js.Int port
    /\ Chains.ConcordiumChainConfig.grpcUrl chain
       = "grpc.mainnet.concordium.com" ++ ":" ++ Js.Number_toString port
    /\ true = true
    /\ Js.Int 30000 = Js.Int 30000.
Proof.
  exact (fromNetwork_reads_the_endpoint "concordium"
           {| ClientSetup.config_host := "grpc.mainnet.concordium.com";
              ClientSetup.config_port := Js.Int 20000;
              ClientSetup.config_useTls := true;
              ClientSetup.config_timeoutMs := Js.Int 30000 |} eq_refl).
Defined.

(* ===================================================================== *)
(** ** Server scheme: registered assets *)
(* ===================================================================== *)

Lemma Map_get_set {A} (m : list (string * A)) key value asked :
  GrpcNode.Map_get (Server.Map_set m key value) asked
  = if (key =? asked)%string then Some value else GrpcNode.Map_get m asked.
Proof.
  induction m as [|[k v] m IH]; simpl.
  - reflexivity.
  - destruct (k =? key)%string eqn:Hk; simpl.
    + apply String.eqb_eq in Hk. subst k.
      destruct (key =? asked)%string; reflexivity.
    + destruct (k =? asked)%string eqn:Ha.
      * apply String.eqb_eq in Ha. subst k.
        rewrite String.eqb_sym, Hk. reflexivity.
      * exact IH.
Qed.

Lemma Map_get_In {A} (m : list (string * A)) key value :
  GrpcNode.Map_get m key = Some value -> In (key, value) m.
Proof.
  induction m as [|[k v] m IH]; simpl; [discriminate|].
  destruct (k =? key)%string eqn:Hk.
  - apply String.eqb_eq in Hk. intros [= ->]. left. congruence.
  - intros H. right. exact (IH H).
Qed.

Lemma length_app (s t : string) :
  String.length (s ++ t) = (String.length s + String.length t)%nat.
Proof. induction s as [|c s IH]; simpl; [reflexivity|]. rewrite IH. reflexivity. Qed.

Lemma assetKey_network network network' symbol :
  Server.assetKey network symbol = Server.assetKey network' symbol ->
  network = network'.
Proof.
  unfold Server.assetKey. revert network'.
  induction network as [|c n IH]; intros [|c' n'] H; simpl in H.
  - reflexivity.
  - exfalso. injection H as Hc Hn. subst c'.
    apply (f_equal String.length) in Hn.
    rewrite length_app in Hn. simpl in Hn. lia.
  - exfalso. injection H as Hc Hn. subst c.
    apply (f_equal String.length) in Hn.
    rewrite length_app in Hn. simpl in Hn. lia.
  - injection H as -> Hn. f_equal. exact (IH _ Hn).
Qed.

(** X19.  What [registerAsset] stores, [getAsset] finds, whatever the
    letter case of the symbol asked for: under the network it was
    registered for; under every network, when it was registered for the
    wildcard [ccd:*] and the network has no entry of its own for the
    symbol; and an asset registered for the network itself is preferred
    to one registered for the wildcard, in whichever order the two were
    registered. *)
Theorem registered_asset_is_found :
  forall (assets : Server.Assets) (network symbol asked : string)
         (asset other : Server.ConcordiumAssetInfo.t),
    Js.toUpperCase asked = Js.toUpperCase symbol ->
    Server.getAsset (Server.registerAsset assets network symbol asset)
                    network asked = Some asset
    /\ (GrpcNode.Map_get assets (Server.assetKey network asked) = None ->
        Server.getAsset (Server.registerAsset assets "ccd:*" symbol asset)
                        network asked = Some asset)
    /\ (network <> "ccd:*"%string ->
        Server.getAsset
          (Server.registerAsset
             (Server.registerAsset assets network symbol asset)
             "ccd:*" symbol other) network asked = Some asset
        /\ Server.getAsset
             (Server.registerAsset
                (Server.registerAsset assets "ccd:*" symbol other)
                network symbol asset) network asked = Some asset).
Proof.
  intros assets network symbol asked asset other Hu.
  assert (Hk : forall n, Server.assetKey n asked = Server.assetKey n symbol)
    by (intros n; unfold Server.assetKey; rewrite Hu; reflexivity).
  unfold Server.getAsset, Server.registerAsset.
  rewrite !Hk, !Map_get_set, !String.eqb_refl.
  split; [reflexivity|]. split.
  - intros Hnone. rewrite Hnone.
    destruct (Server.assetKey "ccd:*" symbol =? Server.assetKey network symbol)%string;
      reflexivity.
  - intros Hn.
    assert (Hne : (Server.assetKey "ccd:*" symbol
                   =? Server.assetKey network symbol)%string = false).
    { apply String.eqb_neq. intros He.
      apply assetKey_network in He. congruence. }
    rewrite Hne. split; reflexivity.
Qed.

Lemma registered_asset_is_found_witness :
  Server.getAsset
    (Server.registerAsset Server.new_assets
       "ccd:9dd9ca4d19e9393877d2c44b70f89acb" "EUROe"
       {| Server.ConcordiumAssetInfo.contractIndex := "9390";
          Server.ConcordiumAssetInfo.contractSubindex := "0";
          Server.ConcordiumAssetInfo.tokenId := "";
          Server.ConcordiumAssetInfo.name := "EUROe Stablecoin";
          Server.ConcordiumAssetInfo.decimals := 6 |})
    "ccd:9dd9ca4d19e9393877d2c44b70f89acb" "euroe"
  = Some {| Server.ConcordiumAssetInfo.contractIndex := "9390";
            Server.ConcordiumAssetInfo.contractSubindex := "0";
            Server.ConcordiumAssetInfo.tokenId := "";
            Server.ConcordiumAssetInfo.name := "EUROe Stablecoin";
            Server.ConcordiumAssetInfo.decimals := 6 |}.
Proof.
  exact (proj1 (registered_asset_is_found Server.new_assets
                  "ccd:9dd9ca4d19e9393877d2c44b70f89acb" "EUROe" "euroe"
                  _ Server.CCD_NATIVE eq_refl)).
Defined.

Lemma contains_app sep a b :
  Js.contains sep (a ++ b) = Js.contains sep a || Js.contains sep b.
Proof.
  induction a as [|c a IH]; simpl; [reflexivity|].
  rewrite IH. apply orb_assoc.
Qed.

Lemma upper_char_without_colon c :
  Ascii.eqb c ":" = false -> Js.contains ":" (Js.upper_char c) = false.
Proof.
  destruct c as [[] [] [] [] [] [] [] []]; intros H;
    first [discriminate H | reflexivity].
Qed.

Lemma toUpperCase_without_colon s :
  Js.contains ":" s = false -> Js.contains ":" (Js.toUpperCase s) = false.
Proof.
  induction s as [|c s IH]; simpl; [reflexivity|].
  intros H. apply orb_false_iff in H. destruct H as [Hc Hs].
  rewrite contains_app, (upper_char_without_colon c Hc), (IH Hs). reflexivity.
Qed.

Lemma colon_parts_inj n n' u u' :
  Js.contains ":" u = false -> Js.contains ":" u' = false ->
  n ++ String ":" u = n' ++ String ":" u' -> n = n' /\ u = u'.
Proof.
  intros Hu Hu'. revert n'.
  induction n as [|c n IH]; intros [|c' n'] H; simpl in H.
  - injection H as ->. split; reflexivity.
  - exfalso. injection H as <- ->.
    rewrite contains_app in Hu. simpl in Hu.
    rewrite orb_true_r in Hu. discriminate.
  - exfalso. injection H as -> <-.
    rewrite contains_app in Hu'. simpl in Hu'.
    rewrite orb_true_r in Hu'. discriminate.
  - injection H as -> H. destruct (IH _ H) as [-> ->]. split; reflexivity.
Qed.

Lemma assetKey_inj network symbol network' symbol' :
  Js.contains ":" symbol = false -> Js.contains ":" symbol' = false ->
  Server.assetKey network symbol = Server.assetKey network' symbol' ->
  network = network' /\ Js.toUpperCase symbol = Js.toUpperCase symbol'.
Proof.
  intros Hs Hs' H. unfold Server.assetKey in H.
  apply colon_parts_inj; auto using toUpperCase_without_colon.
Qed.

(** An entry of the registry was put there by a call whose key it has. *)
Lemma registerAll_origin calls : forall assets key asset,
  GrpcNode.Map_get (Server.registerAll assets calls) key = Some asset ->
  GrpcNode.Map_get assets key = Some asset
  \/ exists network symbol,
       In (network, symbol, asset) calls
       /\ Server.assetKey network symbol = key.
Proof.
  induction calls as [|[[n s] a] calls IH]; intros assets key asset H; simpl in H.
  - left. exact H.
  - destruct (IH _ _ _ H) as [Hhere|(n' & s' & Hin & Hk)].
    + unfold Server.registerAsset in Hhere. rewrite Map_get_set in Hhere.
      destruct (Server.assetKey n s =? key)%string eqn:Hk.
      * right. apply String.eqb_eq in Hk. injection Hhere as <-.
        exists n, s. split; [left; reflexivity|exact Hk].
      * left. exact Hhere.
    + right. exists n', s'. split; [right; exact Hin|exact Hk].
Qed.

(** X20.  An asset [resolveAsset] returns, on a scheme that went through
    any sequence of [registerAsset] calls, is the native CCD or the asset
    of one of these calls, whose key ([network:SYMBOL]) is the key of the
    network asked for, or of the wildcard [ccd:*], with the symbol asked
    for.  When neither the symbol asked for nor the registered one has a
    colon, that call was made for the network or for the wildcard, under
    the symbol asked for up to letter case.  With colons keys collide: an
    asset registered for the network [ccd:*:X] under [Y] is resolved for
    every network under [x:y].  The symbol CCD, in any letter case, always
    resolves to the native asset, also when an asset has been registered
    under it. *)
Theorem resolveAsset_native_or_registered :
  forall (calls : list (string * string * Server.ConcordiumAssetInfo.t))
         (network : string) (extraAsset : option Server.Unknown)
         (asset : Server.ConcordiumAssetInfo.t),
    Server.resolveAsset (Server.registerAll Server.new_assets calls)
                        network extraAsset = Returned asset ->
    (asset = Server.CCD_NATIVE
     \/ exists symbol registeredNetwork registeredSymbol,
          extraAsset = Some (Server.Str symbol)
          /\ Js.toUpperCase symbol <> "CCD"%string
          /\ In (registeredNetwork, registeredSymbol, asset) calls
          /\ (Server.assetKey registeredNetwork registeredSymbol
               = Server.assetKey network symbol
              \/ Server.assetKey registeredNetwork registeredSymbol
                 = Server.assetKey "ccd:*" symbol)
          /\ (Js.contains ":" symbol = false ->
              Js.contains ":" registeredSymbol = false ->
              (registeredNetwork = network \/ registeredNetwork = "ccd:*"%string)
              /\ Js.toUpperCase registeredSymbol = Js.toUpperCase symbol))
    /\ (forall symbol registered,
           Js.toUpperCase symbol = "CCD"%string ->
           Server.resolveAsset
             (Server.registerAsset (Server.registerAll Server.new_assets calls)
                                   network symbol registered)
             network (Some (Server.Str symbol)) = Returned Server.CCD_NATIVE)
    /\ (forall registered,
           Server.resolveAsset
             (Server.registerAll Server.new_assets [("ccd:*:X", "Y", registered)])
             network (Some (Server.Str "x:y")) = Returned registered).
Proof.
  intros calls network extraAsset asset H. split; [|split].
  - unfold Server.resolveAsset in H.
    destruct extraAsset as [[symbol|ty tr]|].
    + destruct (negb (truthy symbol)); [left; congruence|].
      destruct (Js.toUpperCase symbol =? "CCD")%string eqn:Hc;
        [left; congruence|].
      apply String.eqb_neq in Hc.
      destruct (Server.getAsset (Server.registerAll Server.new_assets calls)
                                network symbol) as [a|] eqn:Hg;
        [|discriminate].
      injection H as ->. right.
      assert (Hkey : exists key,
                 GrpcNode.Map_get (Server.registerAll Server.new_assets calls) key
                 = Some asset
                 /\ (key = Server.assetKey network symbol
                     \/ key = Server.assetKey "ccd:*" symbol)).
      { unfold Server.getAsset in Hg.
        destruct (GrpcNode.Map_get (Server.registerAll Server.new_assets calls)
                    (Server.assetKey network symbol)) as [e|] eqn:He.
        - injection Hg as ->. eexists. split; [exact He|left; reflexivity].
        - eexists. split; [exact Hg|right; reflexivity]. }
      destruct Hkey as (key & Hget & Hk).
      destruct (registerAll_origin _ _ _ _ Hget) as [Hnew|(n & s & Hin & Hns)];
        [discriminate|].
      exists symbol, n, s. repeat split; auto.
      * destruct Hk as [->| ->]; [left|right]; exact Hns.
      * destruct Hk as [->| ->];
          destruct (assetKey_inj _ _ _ _ H0 H Hns) as [Hn _]; auto.
      * destruct Hk as [->| ->];
          destruct (assetKey_inj _ _ _ _ H0 H Hns) as [_ Hu]; auto.
    + destruct (negb tr); [left; congruence|discriminate].
    + left. congruence.
  - intros symbol registered Hs. unfold Server.resolveAsset.
    rewrite Hs. destruct (negb (truthy symbol)); reflexivity.
  - intros registered. unfold Server.resolveAsset, Server.getAsset.
    cbn -[String.eqb append].
    change (Js.toUpperCase "x:y") with "X:Y"%string.
    cbn [truthy negb String.eqb Ascii.eqb Bool.eqb].
    unfold Server.assetKey, Server.registerAsset, Server.new_assets.
    change (Js.toUpperCase "x:y") with "X:Y"%string.
    change (Js.toUpperCase "Y") with "Y"%string.
    cbn [Server.Map_set GrpcNode.Map_get].
    destruct (("ccd:*:X" ++ ":" ++ "Y") =? (network ++ ":" ++ "X:Y"))%string;
      reflexivity.
Qed.

Lemma resolveAsset_native_or_registered_witness :
  Server.EUROe = Server.CCD_NATIVE
  \/ exists symbol registeredNetwork registeredSymbol,
       Some (Server.Str "euroe") = Some (Server.Str symbol)
       /\ Js.toUpperCase symbol <> "CCD"%string
       /\ In (registeredNetwork, registeredSymbol, Server.EUROe)
             [("ccd:*"%string, "EUROe"%string, Server.EUROe)]
       /\ (Server.assetKey registeredNetwork registeredSymbol
            = Server.assetKey "ccd:9dd9ca4d19e9393877d2c44b70f89acb" symbol
           \/ Server.assetKey registeredNetwork registeredSymbol
              = Server.assetKey "ccd:*" symbol)
       /\ (Js.contains ":" symbol = false ->
           Js.contains ":" registeredSymbol = false ->
           (registeredNetwork = "ccd:9dd9ca4d19e9393877d2c44b70f89acb"%string
            \/ registeredNetwork = "ccd:*"%string)
           /\ Js.toUpperCase registeredSymbol = Js.toUpperCase symbol).
Proof.
  exact (proj1 (resolveAsset_native_or_registered
                  [("ccd:*"%string, "EUROe"%string, Server.EUROe)]
                  "ccd:9dd9ca4d19e9393877d2c44b70f89acb"
                  (Some (Server.Str "euroe")) Server.EUROe eq_refl)).
Defined.

(** X21.  On the asset strings the server builds, the two tests for the
    native asset agree: the string is empty, and native for
    [isNativeCCD] and for [parseAssetString], exactly when the asset has
    no contract index; otherwise it parses into the numbers its contract
    index and subindex read as and, when the subindex has no colon, the
    token id up to its first colon. *)
Theorem server_asset_string_parses :
  forall asset : Server.ConcordiumAssetInfo.t,
    Tokens.isNativeCCD (Server.assetString asset)
    = negb (truthy (Server.ConcordiumAssetInfo.contractIndex asset))
    /\ Tokens.isNative (Tokens.parseAssetString (Server.assetString asset))
       = negb (truthy (Server.ConcordiumAssetInfo.contractIndex asset))
    /\ Server.assetString Server.CCD_NATIVE = EmptyString
    /\ (truthy (Server.ConcordiumAssetInfo.contractIndex asset) = true ->
        Js.contains ":" (Server.ConcordiumAssetInfo.contractIndex asset) = false ->
        Js.contains ":" (Server.ConcordiumAssetInfo.contractSubindex asset) = false ->
        Tokens.parseAssetString (Server.assetString asset)
        = {| Tokens.isNative := false;
             Tokens.contractIndex :=
               Some (Js.parseInt10 (Server.ConcordiumAssetInfo.contractIndex asset));
             Tokens.contractSubindex :=
               Some (Js.parseInt10 (Server.ConcordiumAssetInfo.contractSubindex asset));
             Tokens.tokenId :=
               Some (hd EmptyString
                        (Js.split ":" (Server.ConcordiumAssetInfo.tokenId asset))) |}).
Proof.
  intros [ci csi tid nm dec]. unfold Server.assetString.
  cbn [Server.ConcordiumAssetInfo.contractIndex
       Server.ConcordiumAssetInfo.contractSubindex
       Server.ConcordiumAssetInfo.tokenId].
  assert (Hf : ci ++ ":" ++ csi ++ ":" ++ tid
               = ci ++ String ":" (csi ++ String ":" tid)) by reflexivity.
  assert (He : forall a b, ((a ++ String ":" b) =? "")%string = false)
    by (intros [|] b; reflexivity).
  destruct (truthy ci) eqn:Ht.
  - rewrite Hf. repeat split.
    + unfold Tokens.isNativeCCD. rewrite app_truthy, He. reflexivity.
    + destruct (native_asset_detection (ci ++ String ":" (csi ++ String ":" tid)))
        as [Hn _]. rewrite Hn.
      assert (Hc : Js.contains ":" (ci ++ String ":" (csi ++ String ":" tid)) = true).
      { clear. induction ci as [|c ci IH]; simpl; [reflexivity|].
        rewrite IH. apply orb_true_r. }
      rewrite Hc. reflexivity.
    + intros _ Hci Hcsi. unfold Tokens.parseAssetString.
      rewrite app_truthy, He. cbn [negb orb].
      rewrite (split_app _ _ _ Hci), (split_app _ _ _ Hcsi).
      rewrite or_empty_first by apply split_nonempty. reflexivity.
  - repeat split; try reflexivity. intros; discriminate.
Qed.

Lemma server_asset_string_parses_witness :
  Tokens.parseAssetString "9390:0:"
  = {| Tokens.isNative := false;
       Tokens.contractIndex := Some (Js.Int 9390);
       Tokens.contractSubindex := Some (Js.Int 0);
       Tokens.tokenId := Some EmptyString |}.
Proof.
  exact (proj2 (proj2 (proj2 (server_asset_string_parses
           {| Server.ConcordiumAssetInfo.contractIndex := "9390";
              Server.ConcordiumAssetInfo.contractSubindex := "0";
              Server.ConcordiumAssetInfo.tokenId := "";
              Server.ConcordiumAssetInfo.name := "EUROe Stablecoin";
              Server.ConcordiumAssetInfo.decimals := 6 |})))
           eq_refl eq_refl eq_refl).
Defined.

(* ===================================================================== *)
(** ** From the client scheme to the facilitator *)
(* ===================================================================== *)

Lemma BigInt_toString_truthy z : truthy (BigInt_toString z) = true.
Proof.
  unfold BigInt_toString.
  destruct z as [|p|p]; simpl; [reflexivity| |reflexivity].
  unfold NilZero.string_of_uint.
  pose proof (DecimalPos.Unsigned.to_uint_nonnil p) as Hn.
  destruct (Pos.to_uint p); try contradiction; reflexivity.
Qed.

Lemma strict_neq_refl s : strict_neq s s = false.
Proof. unfold strict_neq. rewrite String.eqb_refl. reflexivity. Qed.

(** X22.  A payment made as asked is accepted.  The V1 client scheme hands
    the wallet the recipient, the amount and the asset of the
    requirements, and wraps what the wallet broadcast in a payload
    carrying the scheme and the network of the requirements; when the
    requirements are for the exact scheme and the node shows the
    broadcast transaction finalized, from the wallet's sender, to the
    required recipient (both up to letter case), for at least the
    required amount and in the required asset, the V1 facilitator
    verifies that payload as valid with the wallet's sender as payer,
    with or without the finality requirement. *)
Theorem payment_made_as_asked_is_accepted :
  forall (W : Type) (wallet : ClientV1.ExactConcordiumSchemeConfig W)
         (config : Config W) (x402Version : Z)
         (requirementsV1 : PaymentRequirementsV1.t)
         (broadcast : ClientV1.Broadcast) (tx : ConcordiumTransactionInfo.t)
         (to : string) (paid required : Z) (w0 w1 w2 : W),
    PaymentRequirementsV1.scheme requirementsV1 = "exact"%string ->
    ClientV1.createAndBroadcastTransaction wallet
      (PaymentRequirementsV1.payTo requirementsV1)
      (PaymentRequirementsV1.maxAmountRequired requirementsV1)
      (PaymentRequirementsV1.asset requirementsV1) w0
    = Some (Returned broadcast, w1) ->
    getTransactionStatus (nodeClient config) (ClientV1.txHash broadcast) w1
    = Some (Returned (Some tx), w2) ->
    ConcordiumTransactionInfo.status tx = finalized ->
    toLowerCase (ConcordiumTransactionInfo.sender tx)
    = toLowerCase (ClientV1.sender broadcast) ->
    ConcordiumTransactionInfo.recipient tx = Some to ->
    toLowerCase to = toLowerCase (PaymentRequirementsV1.payTo requirementsV1) ->
    ConcordiumTransactionInfo.amount tx = Some (BigInt_toString paid) ->
    PaymentRequirementsV1.maxAmountRequired requirementsV1
    = BigInt_toString required ->
    required <= paid ->
    or_empty (ConcordiumTransactionInfo.asset tx)
    = or_empty (PaymentRequirementsV1.asset requirementsV1) ->
    exists payloadV1,
      ClientV1.createPaymentPayload wallet x402Version requirementsV1 w0
      = Some (Returned payloadV1, w1)
      /\ PaymentPayloadV1.x402Version payloadV1 = x402Version
      /\ FacilitatorV1.verify config payloadV1 requirementsV1 w1
         = Some (Returned (valid (ClientV1.sender broadcast)), w2).
Proof.
  intros W wallet config version req b tx to paid required w0 w1 w2
         Hscheme Hwallet Hlookup Hstatus Hsender Hrec Hto Hpaid Hreq Hle Hasset.
  eexists. split; [|split].
  - unfold ClientV1.createPaymentPayload, bind, ret. rewrite Hwallet. reflexivity.
  - reflexivity.
  - unfold FacilitatorV1.verify.
    cbn [PaymentPayloadV1.payload PaymentPayloadV1.scheme PaymentPayloadV1.network
         ExactConcordiumPayload.sender ExactConcordiumPayload.txHash].
    rewrite Hscheme, !strict_neq_refl. cbn [orb].
    unfold bind, attempt. rewrite Hlookup. cbv iota beta.
    rewrite Hstatus, Hsender, Hrec, Hto, Hpaid, Hreq, Hasset.
    rewrite !strict_neq_refl, !andb_false_r, BigInt_toString_truthy.
    cbn [TxStatus_eqb negb andb].
    unfold lift, ret. rewrite !BigInt_toString_roundtrip.
    destruct (Z.ltb_spec paid required); [lia|]. reflexivity.
Qed.

Lemma payment_made_as_asked_is_accepted_witness :
  exists payloadV1,
    ClientV1.createPaymentPayload Wallets.fixture 1 Fixtures.validRequirementsV1 tt
    = Some (Returned payloadV1, tt)
    /\ PaymentPayloadV1.x402Version payloadV1 = 1
    /\ FacilitatorV1.verify (Fixtures.mockConfig Fixtures.validTxInfo true)
         payloadV1 Fixtures.validRequirementsV1 tt
       = Some (Returned (valid Fixtures.CLIENT_ADDRESS), tt).
Proof.
  assert (Hle : 1000000 <= 1000000) by lia.
  exact (payment_made_as_asked_is_accepted unit Wallets.fixture
           (Fixtures.mockConfig Fixtures.validTxInfo true) 1
           Fixtures.validRequirementsV1
           {| ClientV1.txHash := "abc123";
              ClientV1.sender := Fixtures.CLIENT_ADDRESS;
              ClientV1.blockHash := None |}
           Fixtures.validTxInfo Fixtures.MERCHANT_ADDRESS 1000000 1000000
           tt tt tt
           eq_refl eq_refl eq_refl eq_refl eq_refl eq_refl eq_refl eq_refl
           eq_refl Hle eq_refl).
Defined.
